(** * Saiborg: intent routing, customer-name extraction, CRM access, corpus indexing

    A shallow embedding of [app.py], [monday_client.py] and [build_index.py].

    Python [str] values are lists of Unicode code points.  The character
    properties behind [str.isspace], [str.isalnum], [str.isupper] and
    [str.lower] are those of the Unicode Character Database 14.0.0, the
    version built into CPython 3.11, for every code point U+0000..U+10FFFF;
    [str.lower] includes the two-code-point image of U+0130 and the
    Final_Sigma rule for U+03A3. *)

From Stdlib Require Import Strings.String Strings.Ascii.
From Stdlib Require Import List NArith ZArith Bool Lia Arith.
Import ListNotations.

Set Implicit Arguments.

(* ------------------------------------------------------------------ *)
(** ** The character tables of the Python runtime *)
(* ------------------------------------------------------------------ *)

Module Unicode.

(** The letters and digits: the ranges [(first, last)] of the code points on
    which [str.isalnum] is true. *)
Definition alnum_ranges : list (N * N) :=
  [(0x0030, 0x0039); (0x0041, 0x005A); (0x0061, 0x007A); (0x00AA, 0x00AA); (0x00B2, 0x00B3);
   (0x00B5, 0x00B5); (0x00B9, 0x00BA); (0x00BC, 0x00BE); (0x00C0, 0x00D6); (0x00D8, 0x00F6);
   (0x00F8, 0x02C1); (0x02C6, 0x02D1); (0x02E0, 0x02E4); (0x02EC, 0x02EC); (0x02EE, 0x02EE);
   (0x0370, 0x0374); (0x0376, 0x0377); (0x037A, 0x037D); (0x037F, 0x037F); (0x0386, 0x0386);
   (0x0388, 0x038A); (0x038C, 0x038C); (0x038E, 0x03A1); (0x03A3, 0x03F5); (0x03F7, 0x0481);
   (0x048A, 0x052F); (0x0531, 0x0556); (0x0559, 0x0559); (0x0560, 0x0588); (0x05D0, 0x05EA);
   (0x05EF, 0x05F2); (0x0620, 0x064A); (0x0660, 0x0669); (0x066E, 0x066F); (0x0671, 0x06D3);
   (0x06D5, 0x06D5); (0x06E5, 0x06E6); (0x06EE, 0x06FC); (0x06FF, 0x06FF); (0x0710, 0x0710);
   (0x0712, 0x072F); (0x074D, 0x07A5); (0x07B1, 0x07B1); (0x07C0, 0x07EA); (0x07F4, 0x07F5);
   (0x07FA, 0x07FA); (0x0800, 0x0815); (0x081A, 0x081A); (0x0824, 0x0824); (0x0828, 0x0828);
   (0x0840, 0x0858); (0x0860, 0x086A); (0x0870, 0x0887); (0x0889, 0x088E); (0x08A0, 0x08C9);
   (0x0904, 0x0939); (0x093D, 0x093D); (0x0950, 0x0950); (0x0958, 0x0961); (0x0966, 0x096F);
   (0x0971, 0x0980); (0x0985, 0x098C); (0x098F, 0x0990); (0x0993, 0x09A8); (0x09AA, 0x09B0);
   (0x09B2, 0x09B2); (0x09B6, 0x09B9); (0x09BD, 0x09BD); (0x09CE, 0x09CE); (0x09DC, 0x09DD);
   (0x09DF, 0x09E1); (0x09E6, 0x09F1); (0x09F4, 0x09F9); (0x09FC, 0x09FC); (0x0A05, 0x0A0A);
   (0x0A0F, 0x0A10); (0x0A13, 0x0A28); (0x0A2A, 0x0A30); (0x0A32, 0x0A33); (0x0A35, 0x0A36);
   (0x0A38, 0x0A39); (0x0A59, 0x0A5C); (0x0A5E, 0x0A5E); (0x0A66, 0x0A6F); (0x0A72, 0x0A74);
   (0x0A85, 0x0A8D); (0x0A8F, 0x0A91); (0x0A93, 0x0AA8); (0x0AAA, 0x0AB0); (0x0AB2, 0x0AB3);
   (0x0AB5, 0x0AB9); (0x0ABD, 0x0ABD); (0x0AD0, 0x0AD0); (0x0AE0, 0x0AE1); (0x0AE6, 0x0AEF);
   (0x0AF9, 0x0AF9); (0x0B05, 0x0B0C); (0x0B0F, 0x0B10); (0x0B13, 0x0B28); (0x0B2A, 0x0B30);
   (0x0B32, 0x0B33); (0x0B35, 0x0B39); (0x0B3D, 0x0B3D); (0x0B5C, 0x0B5D); (0x0B5F, 0x0B61);
   (0x0B66, 0x0B6F); (0x0B71, 0x0B77); (0x0B83, 0x0B83); (0x0B85, 0x0B8A); (0x0B8E, 0x0B90);
   (0x0B92, 0x0B95); (0x0B99, 0x0B9A); (0x0B9C, 0x0B9C); (0x0B9E, 0x0B9F); (0x0BA3, 0x0BA4);
   (0x0BA8, 0x0BAA); (0x0BAE, 0x0BB9); (0x0BD0, 0x0BD0); (0x0BE6, 0x0BF2); (0x0C05, 0x0C0C);
   (0x0C0E, 0x0C10); (0x0C12, 0x0C28); (0x0C2A, 0x0C39); (0x0C3D, 0x0C3D); (0x0C58, 0x0C5A);
   (0x0C5D, 0x0C5D); (0x0C60, 0x0C61); (0x0C66, 0x0C6F); (0x0C78, 0x0C7E); (0x0C80, 0x0C80);
   (0x0C85, 0x0C8C); (0x0C8E, 0x0C90); (0x0C92, 0x0CA8); (0x0CAA, 0x0CB3); (0x0CB5, 0x0CB9);
   (0x0CBD, 0x0CBD); (0x0CDD, 0x0CDE); (0x0CE0, 0x0CE1); (0x0CE6, 0x0CEF); (0x0CF1, 0x0CF2);
   (0x0D04, 0x0D0C); (0x0D0E, 0x0D10); (0x0D12, 0x0D3A); (0x0D3D, 0x0D3D); (0x0D4E, 0x0D4E);
   (0x0D54, 0x0D56); (0x0D58, 0x0D61); (0x0D66, 0x0D78); (0x0D7A, 0x0D7F); (0x0D85, 0x0D96);
   (0x0D9A, 0x0DB1); (0x0DB3, 0x0DBB); (0x0DBD, 0x0DBD); (0x0DC0, 0x0DC6); (0x0DE6, 0x0DEF);
   (0x0E01, 0x0E30); (0x0E32, 0x0E33); (0x0E40, 0x0E46); (0x0E50, 0x0E59); (0x0E81, 0x0E82);
   (0x0E84, 0x0E84); (0x0E86, 0x0E8A); (0x0E8C, 0x0EA3); (0x0EA5, 0x0EA5); (0x0EA7, 0x0EB0);
   (0x0EB2, 0x0EB3); (0x0EBD, 0x0EBD); (0x0EC0, 0x0EC4); (0x0EC6, 0x0EC6); (0x0ED0, 0x0ED9);
   (0x0EDC, 0x0EDF); (0x0F00, 0x0F00); (0x0F20, 0x0F33); (0x0F40, 0x0F47); (0x0F49, 0x0F6C);
   (0x0F88, 0x0F8C); (0x1000, 0x102A); (0x103F, 0x1049); (0x1050, 0x1055); (0x105A, 0x105D);
   (0x1061, 0x1061); (0x1065, 0x1066); (0x106E, 0x1070); (0x1075, 0x1081); (0x108E, 0x108E);
   (0x1090, 0x1099); (0x10A0, 0x10C5); (0x10C7, 0x10C7); (0x10CD, 0x10CD); (0x10D0, 0x10FA);
   (0x10FC, 0x1248); (0x124A, 0x124D); (0x1250, 0x1256); (0x1258, 0x1258); (0x125A, 0x125D);
   (0x1260, 0x1288); (0x128A, 0x128D); (0x1290, 0x12B0); (0x12B2, 0x12B5); (0x12B8, 0x12BE);
   (0x12C0, 0x12C0); (0x12C2, 0x12C5); (0x12C8, 0x12D6); (0x12D8, 0x1310); (0x1312, 0x1315);
   (0x1318, 0x135A); (0x1369, 0x137C); (0x1380, 0x138F); (0x13A0, 0x13F5); (0x13F8, 0x13FD);
   (0x1401, 0x166C); (0x166F, 0x167F); (0x1681, 0x169A); (0x16A0, 0x16EA); (0x16EE, 0x16F8);
   (0x1700, 0x1711); (0x171F, 0x1731); (0x1740, 0x1751); (0x1760, 0x176C); (0x176E, 0x1770);
   (0x1780, 0x17B3); (0x17D7, 0x17D7); (0x17DC, 0x17DC); (0x17E0, 0x17E9); (0x17F0, 0x17F9);
   (0x1810, 0x1819); (0x1820, 0x1878); (0x1880, 0x1884); (0x1887, 0x18A8); (0x18AA, 0x18AA);
   (0x18B0, 0x18F5); (0x1900, 0x191E); (0x1946, 0x196D); (0x1970, 0x1974); (0x1980, 0x19AB);
   (0x19B0, 0x19C9); (0x19D0, 0x19DA); (0x1A00, 0x1A16); (0x1A20, 0x1A54); (0x1A80, 0x1A89);
   (0x1A90, 0x1A99); (0x1AA7, 0x1AA7); (0x1B05, 0x1B33); (0x1B45, 0x1B4C); (0x1B50, 0x1B59);
   (0x1B83, 0x1BA0); (0x1BAE, 0x1BE5); (0x1C00, 0x1C23); (0x1C40, 0x1C49); (0x1C4D, 0x1C7D);
   (0x1C80, 0x1C88); (0x1C90, 0x1CBA); (0x1CBD, 0x1CBF); (0x1CE9, 0x1CEC); (0x1CEE, 0x1CF3);
   (0x1CF5, 0x1CF6); (0x1CFA, 0x1CFA); (0x1D00, 0x1DBF); (0x1E00, 0x1F15); (0x1F18, 0x1F1D);
   (0x1F20, 0x1F45); (0x1F48, 0x1F4D); (0x1F50, 0x1F57); (0x1F59, 0x1F59); (0x1F5B, 0x1F5B);
   (0x1F5D, 0x1F5D); (0x1F5F, 0x1F7D); (0x1F80, 0x1FB4); (0x1FB6, 0x1FBC); (0x1FBE, 0x1FBE);
   (0x1FC2, 0x1FC4); (0x1FC6, 0x1FCC); (0x1FD0, 0x1FD3); (0x1FD6, 0x1FDB); (0x1FE0, 0x1FEC);
   (0x1FF2, 0x1FF4); (0x1FF6, 0x1FFC); (0x2070, 0x2071); (0x2074, 0x2079); (0x207F, 0x2089);
   (0x2090, 0x209C); (0x2102, 0x2102); (0x2107, 0x2107); (0x210A, 0x2113); (0x2115, 0x2115);
   (0x2119, 0x211D); (0x2124, 0x2124); (0x2126, 0x2126); (0x2128, 0x2128); (0x212A, 0x212D);
   (0x212F, 0x2139); (0x213C, 0x213F); (0x2145, 0x2149); (0x214E, 0x214E); (0x2150, 0x2189);
   (0x2460, 0x249B); (0x24EA, 0x24FF); (0x2776, 0x2793); (0x2C00, 0x2CE4); (0x2CEB, 0x2CEE);
   (0x2CF2, 0x2CF3); (0x2CFD, 0x2CFD); (0x2D00, 0x2D25); (0x2D27, 0x2D27); (0x2D2D, 0x2D2D);
   (0x2D30, 0x2D67); (0x2D6F, 0x2D6F); (0x2D80, 0x2D96); (0x2DA0, 0x2DA6); (0x2DA8, 0x2DAE);
   (0x2DB0, 0x2DB6); (0x2DB8, 0x2DBE); (0x2DC0, 0x2DC6); (0x2DC8, 0x2DCE); (0x2DD0, 0x2DD6);
   (0x2DD8, 0x2DDE); (0x2E2F, 0x2E2F); (0x3005, 0x3007); (0x3021, 0x3029); (0x3031, 0x3035);
   (0x3038, 0x303C); (0x3041, 0x3096); (0x309D, 0x309F); (0x30A1, 0x30FA); (0x30FC, 0x30FF);
   (0x3105, 0x312F); (0x3131, 0x318E); (0x3192, 0x3195); (0x31A0, 0x31BF); (0x31F0, 0x31FF);
   (0x3220, 0x3229); (0x3248, 0x324F); (0x3251, 0x325F); (0x3280, 0x3289); (0x32B1, 0x32BF);
   (0x3400, 0x4DBF); (0x4E00, 0xA48C); (0xA4D0, 0xA4FD); (0xA500, 0xA60C); (0xA610, 0xA62B);
   (0xA640, 0xA66E); (0xA67F, 0xA69D); (0xA6A0, 0xA6EF); (0xA717, 0xA71F); (0xA722, 0xA788);
   (0xA78B, 0xA7CA); (0xA7D0, 0xA7D1); (0xA7D3, 0xA7D3); (0xA7D5, 0xA7D9); (0xA7F2, 0xA801);
   (0xA803, 0xA805); (0xA807, 0xA80A); (0xA80C, 0xA822); (0xA830, 0xA835); (0xA840, 0xA873);
   (0xA882, 0xA8B3); (0xA8D0, 0xA8D9); (0xA8F2, 0xA8F7); (0xA8FB, 0xA8FB); (0xA8FD, 0xA8FE);
   (0xA900, 0xA925); (0xA930, 0xA946); (0xA960, 0xA97C); (0xA984, 0xA9B2); (0xA9CF, 0xA9D9);
   (0xA9E0, 0xA9E4); (0xA9E6, 0xA9FE); (0xAA00, 0xAA28); (0xAA40, 0xAA42); (0xAA44, 0xAA4B);
   (0xAA50, 0xAA59); (0xAA60, 0xAA76); (0xAA7A, 0xAA7A); (0xAA7E, 0xAAAF); (0xAAB1, 0xAAB1);
   (0xAAB5, 0xAAB6); (0xAAB9, 0xAABD); (0xAAC0, 0xAAC0); (0xAAC2, 0xAAC2); (0xAADB, 0xAADD);
   (0xAAE0, 0xAAEA); (0xAAF2, 0xAAF4); (0xAB01, 0xAB06); (0xAB09, 0xAB0E); (0xAB11, 0xAB16);
   (0xAB20, 0xAB26); (0xAB28, 0xAB2E); (0xAB30, 0xAB5A); (0xAB5C, 0xAB69); (0xAB70, 0xABE2);
   (0xABF0, 0xABF9); (0xAC00, 0xD7A3); (0xD7B0, 0xD7C6); (0xD7CB, 0xD7FB); (0xF900, 0xFA6D);
   (0xFA70, 0xFAD9); (0xFB00, 0xFB06); (0xFB13, 0xFB17); (0xFB1D, 0xFB1D); (0xFB1F, 0xFB28);
   (0xFB2A, 0xFB36); (0xFB38, 0xFB3C); (0xFB3E, 0xFB3E); (0xFB40, 0xFB41); (0xFB43, 0xFB44);
   (0xFB46, 0xFBB1); (0xFBD3, 0xFD3D); (0xFD50, 0xFD8F); (0xFD92, 0xFDC7); (0xFDF0, 0xFDFB);
   (0xFE70, 0xFE74); (0xFE76, 0xFEFC); (0xFF10, 0xFF19); (0xFF21, 0xFF3A); (0xFF41, 0xFF5A);
   (0xFF66, 0xFFBE); (0xFFC2, 0xFFC7); (0xFFCA, 0xFFCF); (0xFFD2, 0xFFD7); (0xFFDA, 0xFFDC);
   (0x10000, 0x1000B); (0x1000D, 0x10026); (0x10028, 0x1003A); (0x1003C, 0x1003D);
   (0x1003F, 0x1004D); (0x10050, 0x1005D); (0x10080, 0x100FA); (0x10107, 0x10133);
   (0x10140, 0x10178); (0x1018A, 0x1018B); (0x10280, 0x1029C); (0x102A0, 0x102D0);
   (0x102E1, 0x102FB); (0x10300, 0x10323); (0x1032D, 0x1034A); (0x10350, 0x10375);
   (0x10380, 0x1039D); (0x103A0, 0x103C3); (0x103C8, 0x103CF); (0x103D1, 0x103D5);
   (0x10400, 0x1049D); (0x104A0, 0x104A9); (0x104B0, 0x104D3); (0x104D8, 0x104FB);
   (0x10500, 0x10527); (0x10530, 0x10563); (0x10570, 0x1057A); (0x1057C, 0x1058A);
   (0x1058C, 0x10592); (0x10594, 0x10595); (0x10597, 0x105A1); (0x105A3, 0x105B1);
   (0x105B3, 0x105B9); (0x105BB, 0x105BC); (0x10600, 0x10736); (0x10740, 0x10755);
   (0x10760, 0x10767); (0x10780, 0x10785); (0x10787, 0x107B0); (0x107B2, 0x107BA);
   (0x10800, 0x10805); (0x10808, 0x10808); (0x1080A, 0x10835); (0x10837, 0x10838);
   (0x1083C, 0x1083C); (0x1083F, 0x10855); (0x10858, 0x10876); (0x10879, 0x1089E);
   (0x108A7, 0x108AF); (0x108E0, 0x108F2); (0x108F4, 0x108F5); (0x108FB, 0x1091B);
   (0x10920, 0x10939); (0x10980, 0x109B7); (0x109BC, 0x109CF); (0x109D2, 0x10A00);
   (0x10A10, 0x10A13); (0x10A15, 0x10A17); (0x10A19, 0x10A35); (0x10A40, 0x10A48);
   (0x10A60, 0x10A7E); (0x10A80, 0x10A9F); (0x10AC0, 0x10AC7); (0x10AC9, 0x10AE4);
   (0x10AEB, 0x10AEF); (0x10B00, 0x10B35); (0x10B40, 0x10B55); (0x10B58, 0x10B72);
   (0x10B78, 0x10B91); (0x10BA9, 0x10BAF); (0x10C00, 0x10C48); (0x10C80, 0x10CB2);
   (0x10CC0, 0x10CF2); (0x10CFA, 0x10D23); (0x10D30, 0x10D39); (0x10E60, 0x10E7E);
   (0x10E80, 0x10EA9); (0x10EB0, 0x10EB1); (0x10F00, 0x10F27); (0x10F30, 0x10F45);
   (0x10F51, 0x10F54); (0x10F70, 0x10F81); (0x10FB0, 0x10FCB); (0x10FE0, 0x10FF6);
   (0x11003, 0x11037); (0x11052, 0x1106F); (0x11071, 0x11072); (0x11075, 0x11075);
   (0x11083, 0x110AF); (0x110D0, 0x110E8); (0x110F0, 0x110F9); (0x11103, 0x11126);
   (0x11136, 0x1113F); (0x11144, 0x11144); (0x11147, 0x11147); (0x11150, 0x11172);
   (0x11176, 0x11176); (0x11183, 0x111B2); (0x111C1, 0x111C4); (0x111D0, 0x111DA);
   (0x111DC, 0x111DC); (0x111E1, 0x111F4); (0x11200, 0x11211); (0x11213, 0x1122B);
   (0x11280, 0x11286); (0x11288, 0x11288); (0x1128A, 0x1128D); (0x1128F, 0x1129D);
   (0x1129F, 0x112A8); (0x112B0, 0x112DE); (0x112F0, 0x112F9); (0x11305, 0x1130C);
   (0x1130F, 0x11310); (0x11313, 0x11328); (0x1132A, 0x11330); (0x11332, 0x11333);
   (0x11335, 0x11339); (0x1133D, 0x1133D); (0x11350, 0x11350); (0x1135D, 0x11361);
   (0x11400, 0x11434); (0x11447, 0x1144A); (0x11450, 0x11459); (0x1145F, 0x11461);
   (0x11480, 0x114AF); (0x114C4, 0x114C5); (0x114C7, 0x114C7); (0x114D0, 0x114D9);
   (0x11580, 0x115AE); (0x115D8, 0x115DB); (0x11600, 0x1162F); (0x11644, 0x11644);
   (0x11650, 0x11659); (0x11680, 0x116AA); (0x116B8, 0x116B8); (0x116C0, 0x116C9);
   (0x11700, 0x1171A); (0x11730, 0x1173B); (0x11740, 0x11746); (0x11800, 0x1182B);
   (0x118A0, 0x118F2); (0x118FF, 0x11906); (0x11909, 0x11909); (0x1190C, 0x11913);
   (0x11915, 0x11916); (0x11918, 0x1192F); (0x1193F, 0x1193F); (0x11941, 0x11941);
   (0x11950, 0x11959); (0x119A0, 0x119A7); (0x119AA, 0x119D0); (0x119E1, 0x119E1);
   (0x119E3, 0x119E3); (0x11A00, 0x11A00); (0x11A0B, 0x11A32); (0x11A3A, 0x11A3A);
   (0x11A50, 0x11A50); (0x11A5C, 0x11A89); (0x11A9D, 0x11A9D); (0x11AB0, 0x11AF8);
   (0x11C00, 0x11C08); (0x11C0A, 0x11C2E); (0x11C40, 0x11C40); (0x11C50, 0x11C6C);
   (0x11C72, 0x11C8F); (0x11D00, 0x11D06); (0x11D08, 0x11D09); (0x11D0B, 0x11D30);
   (0x11D46, 0x11D46); (0x11D50, 0x11D59); (0x11D60, 0x11D65); (0x11D67, 0x11D68);
   (0x11D6A, 0x11D89); (0x11D98, 0x11D98); (0x11DA0, 0x11DA9); (0x11EE0, 0x11EF2);
   (0x11FB0, 0x11FB0); (0x11FC0, 0x11FD4); (0x12000, 0x12399); (0x12400, 0x1246E);
   (0x12480, 0x12543); (0x12F90, 0x12FF0); (0x13000, 0x1342E); (0x14400, 0x14646);
   (0x16800, 0x16A38); (0x16A40, 0x16A5E); (0x16A60, 0x16A69); (0x16A70, 0x16ABE);
   (0x16AC0, 0x16AC9); (0x16AD0, 0x16AED); (0x16B00, 0x16B2F); (0x16B40, 0x16B43);
   (0x16B50, 0x16B59); (0x16B5B, 0x16B61); (0x16B63, 0x16B77); (0x16B7D, 0x16B8F);
   (0x16E40, 0x16E96); (0x16F00, 0x16F4A); (0x16F50, 0x16F50); (0x16F93, 0x16F9F);
   (0x16FE0, 0x16FE1); (0x16FE3, 0x16FE3); (0x17000, 0x187F7); (0x18800, 0x18CD5);
   (0x18D00, 0x18D08); (0x1AFF0, 0x1AFF3); (0x1AFF5, 0x1AFFB); (0x1AFFD, 0x1AFFE);
   (0x1B000, 0x1B122); (0x1B150, 0x1B152); (0x1B164, 0x1B167); (0x1B170, 0x1B2FB);
   (0x1BC00, 0x1BC6A); (0x1BC70, 0x1BC7C); (0x1BC80, 0x1BC88); (0x1BC90, 0x1BC99);
   (0x1D2E0, 0x1D2F3); (0x1D360, 0x1D378); (0x1D400, 0x1D454); (0x1D456, 0x1D49C);
   (0x1D49E, 0x1D49F); (0x1D4A2, 0x1D4A2); (0x1D4A5, 0x1D4A6); (0x1D4A9, 0x1D4AC);
   (0x1D4AE, 0x1D4B9); (0x1D4BB, 0x1D4BB); (0x1D4BD, 0x1D4C3); (0x1D4C5, 0x1D505);
   (0x1D507, 0x1D50A); (0x1D50D, 0x1D514); (0x1D516, 0x1D51C); (0x1D51E, 0x1D539);
   (0x1D53B, 0x1D53E); (0x1D540, 0x1D544); (0x1D546, 0x1D546); (0x1D54A, 0x1D550);
   (0x1D552, 0x1D6A5); (0x1D6A8, 0x1D6C0); (0x1D6C2, 0x1D6DA); (0x1D6DC, 0x1D6FA);
   (0x1D6FC, 0x1D714); (0x1D716, 0x1D734); (0x1D736, 0x1D74E); (0x1D750, 0x1D76E);
   (0x1D770, 0x1D788); (0x1D78A, 0x1D7A8); (0x1D7AA, 0x1D7C2); (0x1D7C4, 0x1D7CB);
   (0x1D7CE, 0x1D7FF); (0x1DF00, 0x1DF1E); (0x1E100, 0x1E12C); (0x1E137, 0x1E13D);
   (0x1E140, 0x1E149); (0x1E14E, 0x1E14E); (0x1E290, 0x1E2AD); (0x1E2C0, 0x1E2EB);
   (0x1E2F0, 0x1E2F9); (0x1E7E0, 0x1E7E6); (0x1E7E8, 0x1E7EB); (0x1E7ED, 0x1E7EE);
   (0x1E7F0, 0x1E7FE); (0x1E800, 0x1E8C4); (0x1E8C7, 0x1E8CF); (0x1E900, 0x1E943);
   (0x1E94B, 0x1E94B); (0x1E950, 0x1E959); (0x1EC71, 0x1ECAB); (0x1ECAD, 0x1ECAF);
   (0x1ECB1, 0x1ECB4); (0x1ED01, 0x1ED2D); (0x1ED2F, 0x1ED3D); (0x1EE00, 0x1EE03);
   (0x1EE05, 0x1EE1F); (0x1EE21, 0x1EE22); (0x1EE24, 0x1EE24); (0x1EE27, 0x1EE27);
   (0x1EE29, 0x1EE32); (0x1EE34, 0x1EE37); (0x1EE39, 0x1EE39); (0x1EE3B, 0x1EE3B);
   (0x1EE42, 0x1EE42); (0x1EE47, 0x1EE47); (0x1EE49, 0x1EE49); (0x1EE4B, 0x1EE4B);
   (0x1EE4D, 0x1EE4F); (0x1EE51, 0x1EE52); (0x1EE54, 0x1EE54); (0x1EE57, 0x1EE57);
   (0x1EE59, 0x1EE59); (0x1EE5B, 0x1EE5B); (0x1EE5D, 0x1EE5D); (0x1EE5F, 0x1EE5F);
   (0x1EE61, 0x1EE62); (0x1EE64, 0x1EE64); (0x1EE67, 0x1EE6A); (0x1EE6C, 0x1EE72);
   (0x1EE74, 0x1EE77); (0x1EE79, 0x1EE7C); (0x1EE7E, 0x1EE7E); (0x1EE80, 0x1EE89);
   (0x1EE8B, 0x1EE9B); (0x1EEA1, 0x1EEA3); (0x1EEA5, 0x1EEA9); (0x1EEAB, 0x1EEBB);
   (0x1F100, 0x1F10C); (0x1FBF0, 0x1FBF9); (0x20000, 0x2A6DF); (0x2A700, 0x2B738);
   (0x2B740, 0x2B81D); (0x2B820, 0x2CEA1); (0x2CEB0, 0x2EBE0); (0x2F800, 0x2FA1D);
   (0x30000, 0x3134A)]%N.

(** The upper-case letters: the runs [(first, last, step)] of the code
    points on which [str.isupper] is true. *)
Definition upper_runs : list (N * N * N) :=
  [(0x0041, 0x005A, 1); (0x00C0, 0x00D6, 1); (0x00D8, 0x00DE, 1); (0x0100, 0x0136, 2);
   (0x0139, 0x0147, 2); (0x014A, 0x0176, 2); (0x0178, 0x0179, 1); (0x017B, 0x017D, 2);
   (0x0181, 0x0182, 1); (0x0184, 0x0184, 1); (0x0186, 0x0187, 1); (0x0189, 0x018B, 1);
   (0x018E, 0x0191, 1); (0x0193, 0x0194, 1); (0x0196, 0x0198, 1); (0x019C, 0x019D, 1);
   (0x019F, 0x01A0, 1); (0x01A2, 0x01A4, 2); (0x01A6, 0x01A7, 1); (0x01A9, 0x01A9, 1);
   (0x01AC, 0x01AC, 1); (0x01AE, 0x01AF, 1); (0x01B1, 0x01B3, 1); (0x01B5, 0x01B5, 1);
   (0x01B7, 0x01B8, 1); (0x01BC, 0x01BC, 1); (0x01C4, 0x01C4, 1); (0x01C7, 0x01C7, 1);
   (0x01CA, 0x01CA, 1); (0x01CD, 0x01DB, 2); (0x01DE, 0x01EE, 2); (0x01F1, 0x01F1, 1);
   (0x01F4, 0x01F4, 1); (0x01F6, 0x01F8, 1); (0x01FA, 0x0232, 2); (0x023A, 0x023B, 1);
   (0x023D, 0x023E, 1); (0x0241, 0x0241, 1); (0x0243, 0x0246, 1); (0x0248, 0x024E, 2);
   (0x0370, 0x0372, 2); (0x0376, 0x0376, 1); (0x037F, 0x037F, 1); (0x0386, 0x0386, 1);
   (0x0388, 0x038A, 1); (0x038C, 0x038C, 1); (0x038E, 0x038F, 1); (0x0391, 0x03A1, 1);
   (0x03A3, 0x03AB, 1); (0x03CF, 0x03CF, 1); (0x03D2, 0x03D4, 1); (0x03D8, 0x03EE, 2);
   (0x03F4, 0x03F4, 1); (0x03F7, 0x03F7, 1); (0x03F9, 0x03FA, 1); (0x03FD, 0x042F, 1);
   (0x0460, 0x0480, 2); (0x048A, 0x04BE, 2); (0x04C0, 0x04C1, 1); (0x04C3, 0x04CD, 2);
   (0x04D0, 0x052E, 2); (0x0531, 0x0556, 1); (0x10A0, 0x10C5, 1); (0x10C7, 0x10C7, 1);
   (0x10CD, 0x10CD, 1); (0x13A0, 0x13F5, 1); (0x1C90, 0x1CBA, 1); (0x1CBD, 0x1CBF, 1);
   (0x1E00, 0x1E94, 2); (0x1E9E, 0x1EFE, 2); (0x1F08, 0x1F0F, 1); (0x1F18, 0x1F1D, 1);
   (0x1F28, 0x1F2F, 1); (0x1F38, 0x1F3F, 1); (0x1F48, 0x1F4D, 1); (0x1F59, 0x1F5F, 2);
   (0x1F68, 0x1F6F, 1); (0x1FB8, 0x1FBB, 1); (0x1FC8, 0x1FCB, 1); (0x1FD8, 0x1FDB, 1);
   (0x1FE8, 0x1FEC, 1); (0x1FF8, 0x1FFB, 1); (0x2102, 0x2102, 1); (0x2107, 0x2107, 1);
   (0x210B, 0x210D, 1); (0x2110, 0x2112, 1); (0x2115, 0x2115, 1); (0x2119, 0x211D, 1);
   (0x2124, 0x2128, 2); (0x212A, 0x212D, 1); (0x2130, 0x2133, 1); (0x213E, 0x213F, 1);
   (0x2145, 0x2145, 1); (0x2160, 0x216F, 1); (0x2183, 0x2183, 1); (0x24B6, 0x24CF, 1);
   (0x2C00, 0x2C2F, 1); (0x2C60, 0x2C60, 1); (0x2C62, 0x2C64, 1); (0x2C67, 0x2C6B, 2);
   (0x2C6D, 0x2C70, 1); (0x2C72, 0x2C72, 1); (0x2C75, 0x2C75, 1); (0x2C7E, 0x2C80, 1);
   (0x2C82, 0x2CE2, 2); (0x2CEB, 0x2CED, 2); (0x2CF2, 0x2CF2, 1); (0xA640, 0xA66C, 2);
   (0xA680, 0xA69A, 2); (0xA722, 0xA72E, 2); (0xA732, 0xA76E, 2); (0xA779, 0xA77B, 2);
   (0xA77D, 0xA77E, 1); (0xA780, 0xA786, 2); (0xA78B, 0xA78D, 2); (0xA790, 0xA792, 2);
   (0xA796, 0xA7A8, 2); (0xA7AA, 0xA7AE, 1); (0xA7B0, 0xA7B4, 1); (0xA7B6, 0xA7C2, 2);
   (0xA7C4, 0xA7C7, 1); (0xA7C9, 0xA7C9, 1); (0xA7D0, 0xA7D0, 1); (0xA7D6, 0xA7D8, 2);
   (0xA7F5, 0xA7F5, 1); (0xFF21, 0xFF3A, 1); (0x10400, 0x10427, 1); (0x104B0, 0x104D3, 1);
   (0x10570, 0x1057A, 1); (0x1057C, 0x1058A, 1); (0x1058C, 0x10592, 1); (0x10594, 0x10595, 1);
   (0x10C80, 0x10CB2, 1); (0x118A0, 0x118BF, 1); (0x16E40, 0x16E5F, 1); (0x1D400, 0x1D419, 1);
   (0x1D434, 0x1D44D, 1); (0x1D468, 0x1D481, 1); (0x1D49C, 0x1D49C, 1); (0x1D49E, 0x1D49F, 1);
   (0x1D4A2, 0x1D4A2, 1); (0x1D4A5, 0x1D4A6, 1); (0x1D4A9, 0x1D4AC, 1); (0x1D4AE, 0x1D4B5, 1);
   (0x1D4D0, 0x1D4E9, 1); (0x1D504, 0x1D505, 1); (0x1D507, 0x1D50A, 1); (0x1D50D, 0x1D514, 1);
   (0x1D516, 0x1D51C, 1); (0x1D538, 0x1D539, 1); (0x1D53B, 0x1D53E, 1); (0x1D540, 0x1D544, 1);
   (0x1D546, 0x1D546, 1); (0x1D54A, 0x1D550, 1); (0x1D56C, 0x1D585, 1); (0x1D5A0, 0x1D5B9, 1);
   (0x1D5D4, 0x1D5ED, 1); (0x1D608, 0x1D621, 1); (0x1D63C, 0x1D655, 1); (0x1D670, 0x1D689, 1);
   (0x1D6A8, 0x1D6C0, 1); (0x1D6E2, 0x1D6FA, 1); (0x1D71C, 0x1D734, 1); (0x1D756, 0x1D76E, 1);
   (0x1D790, 0x1D7A8, 1); (0x1D7CA, 0x1D7CA, 1); (0x1E900, 0x1E921, 1); (0x1F130, 0x1F149, 1);
   (0x1F150, 0x1F169, 1); (0x1F170, 0x1F189, 1)]%N.

(** The lower-case mapping of one character: the runs [(first, last, step,
    image of first)] of the code points that [str.lower] changes; a run is
    mapped by translation.  U+0130, which lowers to two code points, is not
    in this table. *)
Definition lower_runs : list (N * N * N * N) :=
  [(0x0041, 0x005A, 1, 0x0061); (0x00C0, 0x00D6, 1, 0x00E0); (0x00D8, 0x00DE, 1, 0x00F8);
   (0x0100, 0x012E, 2, 0x0101); (0x0132, 0x0136, 2, 0x0133); (0x0139, 0x0147, 2, 0x013A);
   (0x014A, 0x0176, 2, 0x014B); (0x0178, 0x0178, 1, 0x00FF); (0x0179, 0x017D, 2, 0x017A);
   (0x0181, 0x0181, 1, 0x0253); (0x0182, 0x0184, 2, 0x0183); (0x0186, 0x0186, 1, 0x0254);
   (0x0187, 0x0187, 1, 0x0188); (0x0189, 0x018A, 1, 0x0256); (0x018B, 0x018B, 1, 0x018C);
   (0x018E, 0x018E, 1, 0x01DD); (0x018F, 0x018F, 1, 0x0259); (0x0190, 0x0190, 1, 0x025B);
   (0x0191, 0x0191, 1, 0x0192); (0x0193, 0x0193, 1, 0x0260); (0x0194, 0x0194, 1, 0x0263);
   (0x0196, 0x0196, 1, 0x0269); (0x0197, 0x0197, 1, 0x0268); (0x0198, 0x0198, 1, 0x0199);
   (0x019C, 0x019C, 1, 0x026F); (0x019D, 0x019D, 1, 0x0272); (0x019F, 0x019F, 1, 0x0275);
   (0x01A0, 0x01A4, 2, 0x01A1); (0x01A6, 0x01A6, 1, 0x0280); (0x01A7, 0x01A7, 1, 0x01A8);
   (0x01A9, 0x01A9, 1, 0x0283); (0x01AC, 0x01AC, 1, 0x01AD); (0x01AE, 0x01AE, 1, 0x0288);
   (0x01AF, 0x01AF, 1, 0x01B0); (0x01B1, 0x01B2, 1, 0x028A); (0x01B3, 0x01B5, 2, 0x01B4);
   (0x01B7, 0x01B7, 1, 0x0292); (0x01B8, 0x01B8, 1, 0x01B9); (0x01BC, 0x01BC, 1, 0x01BD);
   (0x01C4, 0x01C4, 1, 0x01C6); (0x01C5, 0x01C5, 1, 0x01C6); (0x01C7, 0x01C7, 1, 0x01C9);
   (0x01C8, 0x01C8, 1, 0x01C9); (0x01CA, 0x01CA, 1, 0x01CC); (0x01CB, 0x01DB, 2, 0x01CC);
   (0x01DE, 0x01EE, 2, 0x01DF); (0x01F1, 0x01F1, 1, 0x01F3); (0x01F2, 0x01F4, 2, 0x01F3);
   (0x01F6, 0x01F6, 1, 0x0195); (0x01F7, 0x01F7, 1, 0x01BF); (0x01F8, 0x021E, 2, 0x01F9);
   (0x0220, 0x0220, 1, 0x019E); (0x0222, 0x0232, 2, 0x0223); (0x023A, 0x023A, 1, 0x2C65);
   (0x023B, 0x023B, 1, 0x023C); (0x023D, 0x023D, 1, 0x019A); (0x023E, 0x023E, 1, 0x2C66);
   (0x0241, 0x0241, 1, 0x0242); (0x0243, 0x0243, 1, 0x0180); (0x0244, 0x0244, 1, 0x0289);
   (0x0245, 0x0245, 1, 0x028C); (0x0246, 0x024E, 2, 0x0247); (0x0370, 0x0372, 2, 0x0371);
   (0x0376, 0x0376, 1, 0x0377); (0x037F, 0x037F, 1, 0x03F3); (0x0386, 0x0386, 1, 0x03AC);
   (0x0388, 0x038A, 1, 0x03AD); (0x038C, 0x038C, 1, 0x03CC); (0x038E, 0x038F, 1, 0x03CD);
   (0x0391, 0x03A1, 1, 0x03B1); (0x03A3, 0x03AB, 1, 0x03C3); (0x03CF, 0x03CF, 1, 0x03D7);
   (0x03D8, 0x03EE, 2, 0x03D9); (0x03F4, 0x03F4, 1, 0x03B8); (0x03F7, 0x03F7, 1, 0x03F8);
   (0x03F9, 0x03F9, 1, 0x03F2); (0x03FA, 0x03FA, 1, 0x03FB); (0x03FD, 0x03FF, 1, 0x037B);
   (0x0400, 0x040F, 1, 0x0450); (0x0410, 0x042F, 1, 0x0430); (0x0460, 0x0480, 2, 0x0461);
   (0x048A, 0x04BE, 2, 0x048B); (0x04C0, 0x04C0, 1, 0x04CF); (0x04C1, 0x04CD, 2, 0x04C2);
   (0x04D0, 0x052E, 2, 0x04D1); (0x0531, 0x0556, 1, 0x0561); (0x10A0, 0x10C5, 1, 0x2D00);
   (0x10C7, 0x10C7, 1, 0x2D27); (0x10CD, 0x10CD, 1, 0x2D2D); (0x13A0, 0x13EF, 1, 0xAB70);
   (0x13F0, 0x13F5, 1, 0x13F8); (0x1C90, 0x1CBA, 1, 0x10D0); (0x1CBD, 0x1CBF, 1, 0x10FD);
   (0x1E00, 0x1E94, 2, 0x1E01); (0x1E9E, 0x1E9E, 1, 0x00DF); (0x1EA0, 0x1EFE, 2, 0x1EA1);
   (0x1F08, 0x1F0F, 1, 0x1F00); (0x1F18, 0x1F1D, 1, 0x1F10); (0x1F28, 0x1F2F, 1, 0x1F20);
   (0x1F38, 0x1F3F, 1, 0x1F30); (0x1F48, 0x1F4D, 1, 0x1F40); (0x1F59, 0x1F5F, 2, 0x1F51);
   (0x1F68, 0x1F6F, 1, 0x1F60); (0x1F88, 0x1F8F, 1, 0x1F80); (0x1F98, 0x1F9F, 1, 0x1F90);
   (0x1FA8, 0x1FAF, 1, 0x1FA0); (0x1FB8, 0x1FB9, 1, 0x1FB0); (0x1FBA, 0x1FBB, 1, 0x1F70);
   (0x1FBC, 0x1FBC, 1, 0x1FB3); (0x1FC8, 0x1FCB, 1, 0x1F72); (0x1FCC, 0x1FCC, 1, 0x1FC3);
   (0x1FD8, 0x1FD9, 1, 0x1FD0); (0x1FDA, 0x1FDB, 1, 0x1F76); (0x1FE8, 0x1FE9, 1, 0x1FE0);
   (0x1FEA, 0x1FEB, 1, 0x1F7A); (0x1FEC, 0x1FEC, 1, 0x1FE5); (0x1FF8, 0x1FF9, 1, 0x1F78);
   (0x1FFA, 0x1FFB, 1, 0x1F7C); (0x1FFC, 0x1FFC, 1, 0x1FF3); (0x2126, 0x2126, 1, 0x03C9);
   (0x212A, 0x212A, 1, 0x006B); (0x212B, 0x212B, 1, 0x00E5); (0x2132, 0x2132, 1, 0x214E);
   (0x2160, 0x216F, 1, 0x2170); (0x2183, 0x2183, 1, 0x2184); (0x24B6, 0x24CF, 1, 0x24D0);
   (0x2C00, 0x2C2F, 1, 0x2C30); (0x2C60, 0x2C60, 1, 0x2C61); (0x2C62, 0x2C62, 1, 0x026B);
   (0x2C63, 0x2C63, 1, 0x1D7D); (0x2C64, 0x2C64, 1, 0x027D); (0x2C67, 0x2C6B, 2, 0x2C68);
   (0x2C6D, 0x2C6D, 1, 0x0251); (0x2C6E, 0x2C6E, 1, 0x0271); (0x2C6F, 0x2C6F, 1, 0x0250);
   (0x2C70, 0x2C70, 1, 0x0252); (0x2C72, 0x2C72, 1, 0x2C73); (0x2C75, 0x2C75, 1, 0x2C76);
   (0x2C7E, 0x2C7F, 1, 0x023F); (0x2C80, 0x2CE2, 2, 0x2C81); (0x2CEB, 0x2CED, 2, 0x2CEC);
   (0x2CF2, 0x2CF2, 1, 0x2CF3); (0xA640, 0xA66C, 2, 0xA641); (0xA680, 0xA69A, 2, 0xA681);
   (0xA722, 0xA72E, 2, 0xA723); (0xA732, 0xA76E, 2, 0xA733); (0xA779, 0xA77B, 2, 0xA77A);
   (0xA77D, 0xA77D, 1, 0x1D79); (0xA77E, 0xA786, 2, 0xA77F); (0xA78B, 0xA78B, 1, 0xA78C);
   (0xA78D, 0xA78D, 1, 0x0265); (0xA790, 0xA792, 2, 0xA791); (0xA796, 0xA7A8, 2, 0xA797);
   (0xA7AA, 0xA7AA, 1, 0x0266); (0xA7AB, 0xA7AB, 1, 0x025C); (0xA7AC, 0xA7AC, 1, 0x0261);
   (0xA7AD, 0xA7AD, 1, 0x026C); (0xA7AE, 0xA7AE, 1, 0x026A); (0xA7B0, 0xA7B0, 1, 0x029E);
   (0xA7B1, 0xA7B1, 1, 0x0287); (0xA7B2, 0xA7B2, 1, 0x029D); (0xA7B3, 0xA7B3, 1, 0xAB53);
   (0xA7B4, 0xA7C2, 2, 0xA7B5); (0xA7C4, 0xA7C4, 1, 0xA794); (0xA7C5, 0xA7C5, 1, 0x0282);
   (0xA7C6, 0xA7C6, 1, 0x1D8E); (0xA7C7, 0xA7C9, 2, 0xA7C8); (0xA7D0, 0xA7D0, 1, 0xA7D1);
   (0xA7D6, 0xA7D8, 2, 0xA7D7); (0xA7F5, 0xA7F5, 1, 0xA7F6); (0xFF21, 0xFF3A, 1, 0xFF41);
   (0x10400, 0x10427, 1, 0x10428); (0x104B0, 0x104D3, 1, 0x104D8);
   (0x10570, 0x1057A, 1, 0x10597); (0x1057C, 0x1058A, 1, 0x105A3);
   (0x1058C, 0x10592, 1, 0x105B3); (0x10594, 0x10595, 1, 0x105BB);
   (0x10C80, 0x10CB2, 1, 0x10CC0); (0x118A0, 0x118BF, 1, 0x118C0);
   (0x16E40, 0x16E5F, 1, 0x16E60); (0x1E900, 0x1E921, 1, 0x1E922)]%N.

(** The case-ignorable characters, which the Final_Sigma rule of [str.lower]
    skips on either side of a capital sigma. *)
Definition case_ignorable_ranges : list (N * N) :=
  [(0x0027, 0x0027); (0x002E, 0x002E); (0x003A, 0x003A); (0x005E, 0x005E); (0x0060, 0x0060);
   (0x00A8, 0x00A8); (0x00AD, 0x00AD); (0x00AF, 0x00AF); (0x00B4, 0x00B4); (0x00B7, 0x00B8);
   (0x02B0, 0x036F); (0x0374, 0x0375); (0x037A, 0x037A); (0x0384, 0x0385); (0x0387, 0x0387);
   (0x0483, 0x0489); (0x0559, 0x0559); (0x055F, 0x055F); (0x0591, 0x05BD); (0x05BF, 0x05BF);
   (0x05C1, 0x05C2); (0x05C4, 0x05C5); (0x05C7, 0x05C7); (0x05F4, 0x05F4); (0x0600, 0x0605);
   (0x0610, 0x061A); (0x061C, 0x061C); (0x0640, 0x0640); (0x064B, 0x065F); (0x0670, 0x0670);
   (0x06D6, 0x06DD); (0x06DF, 0x06E8); (0x06EA, 0x06ED); (0x070F, 0x070F); (0x0711, 0x0711);
   (0x0730, 0x074A); (0x07A6, 0x07B0); (0x07EB, 0x07F5); (0x07FA, 0x07FA); (0x07FD, 0x07FD);
   (0x0816, 0x082D); (0x0859, 0x085B); (0x0888, 0x0888); (0x0890, 0x0891); (0x0898, 0x089F);
   (0x08C9, 0x0902); (0x093A, 0x093A); (0x093C, 0x093C); (0x0941, 0x0948); (0x094D, 0x094D);
   (0x0951, 0x0957); (0x0962, 0x0963); (0x0971, 0x0971); (0x0981, 0x0981); (0x09BC, 0x09BC);
   (0x09C1, 0x09C4); (0x09CD, 0x09CD); (0x09E2, 0x09E3); (0x09FE, 0x09FE); (0x0A01, 0x0A02);
   (0x0A3C, 0x0A3C); (0x0A41, 0x0A42); (0x0A47, 0x0A48); (0x0A4B, 0x0A4D); (0x0A51, 0x0A51);
   (0x0A70, 0x0A71); (0x0A75, 0x0A75); (0x0A81, 0x0A82); (0x0ABC, 0x0ABC); (0x0AC1, 0x0AC5);
   (0x0AC7, 0x0AC8); (0x0ACD, 0x0ACD); (0x0AE2, 0x0AE3); (0x0AFA, 0x0AFF); (0x0B01, 0x0B01);
   (0x0B3C, 0x0B3C); (0x0B3F, 0x0B3F); (0x0B41, 0x0B44); (0x0B4D, 0x0B4D); (0x0B55, 0x0B56);
   (0x0B62, 0x0B63); (0x0B82, 0x0B82); (0x0BC0, 0x0BC0); (0x0BCD, 0x0BCD); (0x0C00, 0x0C00);
   (0x0C04, 0x0C04); (0x0C3C, 0x0C3C); (0x0C3E, 0x0C40); (0x0C46, 0x0C48); (0x0C4A, 0x0C4D);
   (0x0C55, 0x0C56); (0x0C62, 0x0C63); (0x0C81, 0x0C81); (0x0CBC, 0x0CBC); (0x0CBF, 0x0CBF);
   (0x0CC6, 0x0CC6); (0x0CCC, 0x0CCD); (0x0CE2, 0x0CE3); (0x0D00, 0x0D01); (0x0D3B, 0x0D3C);
   (0x0D41, 0x0D44); (0x0D4D, 0x0D4D); (0x0D62, 0x0D63); (0x0D81, 0x0D81); (0x0DCA, 0x0DCA);
   (0x0DD2, 0x0DD4); (0x0DD6, 0x0DD6); (0x0E31, 0x0E31); (0x0E34, 0x0E3A); (0x0E46, 0x0E4E);
   (0x0EB1, 0x0EB1); (0x0EB4, 0x0EBC); (0x0EC6, 0x0EC6); (0x0EC8, 0x0ECD); (0x0F18, 0x0F19);
   (0x0F35, 0x0F35); (0x0F37, 0x0F37); (0x0F39, 0x0F39); (0x0F71, 0x0F7E); (0x0F80, 0x0F84);
   (0x0F86, 0x0F87); (0x0F8D, 0x0F97); (0x0F99, 0x0FBC); (0x0FC6, 0x0FC6); (0x102D, 0x1030);
   (0x1032, 0x1037); (0x1039, 0x103A); (0x103D, 0x103E); (0x1058, 0x1059); (0x105E, 0x1060);
   (0x1071, 0x1074); (0x1082, 0x1082); (0x1085, 0x1086); (0x108D, 0x108D); (0x109D, 0x109D);
   (0x10FC, 0x10FC); (0x135D, 0x135F); (0x1712, 0x1714); (0x1732, 0x1733); (0x1752, 0x1753);
   (0x1772, 0x1773); (0x17B4, 0x17B5); (0x17B7, 0x17BD); (0x17C6, 0x17C6); (0x17C9, 0x17D3);
   (0x17D7, 0x17D7); (0x17DD, 0x17DD); (0x180B, 0x180F); (0x1843, 0x1843); (0x1885, 0x1886);
   (0x18A9, 0x18A9); (0x1920, 0x1922); (0x1927, 0x1928); (0x1932, 0x1932); (0x1939, 0x193B);
   (0x1A17, 0x1A18); (0x1A1B, 0x1A1B); (0x1A56, 0x1A56); (0x1A58, 0x1A5E); (0x1A60, 0x1A60);
   (0x1A62, 0x1A62); (0x1A65, 0x1A6C); (0x1A73, 0x1A7C); (0x1A7F, 0x1A7F); (0x1AA7, 0x1AA7);
   (0x1AB0, 0x1ACE); (0x1B00, 0x1B03); (0x1B34, 0x1B34); (0x1B36, 0x1B3A); (0x1B3C, 0x1B3C);
   (0x1B42, 0x1B42); (0x1B6B, 0x1B73); (0x1B80, 0x1B81); (0x1BA2, 0x1BA5); (0x1BA8, 0x1BA9);
   (0x1BAB, 0x1BAD); (0x1BE6, 0x1BE6); (0x1BE8, 0x1BE9); (0x1BED, 0x1BED); (0x1BEF, 0x1BF1);
   (0x1C2C, 0x1C33); (0x1C36, 0x1C37); (0x1C78, 0x1C7D); (0x1CD0, 0x1CD2); (0x1CD4, 0x1CE0);
   (0x1CE2, 0x1CE8); (0x1CED, 0x1CED); (0x1CF4, 0x1CF4); (0x1CF8, 0x1CF9); (0x1D2C, 0x1D6A);
   (0x1D78, 0x1D78); (0x1D9B, 0x1DFF); (0x1FBD, 0x1FBD); (0x1FBF, 0x1FC1); (0x1FCD, 0x1FCF);
   (0x1FDD, 0x1FDF); (0x1FED, 0x1FEF); (0x1FFD, 0x1FFE); (0x200B, 0x200F); (0x2018, 0x2019);
   (0x2024, 0x2024); (0x2027, 0x2027); (0x202A, 0x202E); (0x2060, 0x2064); (0x2066, 0x206F);
   (0x2071, 0x2071); (0x207F, 0x207F); (0x2090, 0x209C); (0x20D0, 0x20F0); (0x2C7C, 0x2C7D);
   (0x2CEF, 0x2CF1); (0x2D6F, 0x2D6F); (0x2D7F, 0x2D7F); (0x2DE0, 0x2DFF); (0x2E2F, 0x2E2F);
   (0x3005, 0x3005); (0x302A, 0x302D); (0x3031, 0x3035); (0x303B, 0x303B); (0x3099, 0x309E);
   (0x30FC, 0x30FE); (0xA015, 0xA015); (0xA4F8, 0xA4FD); (0xA60C, 0xA60C); (0xA66F, 0xA672);
   (0xA674, 0xA67D); (0xA67F, 0xA67F); (0xA69C, 0xA69F); (0xA6F0, 0xA6F1); (0xA700, 0xA721);
   (0xA770, 0xA770); (0xA788, 0xA78A); (0xA7F2, 0xA7F4); (0xA7F8, 0xA7F9); (0xA802, 0xA802);
   (0xA806, 0xA806); (0xA80B, 0xA80B); (0xA825, 0xA826); (0xA82C, 0xA82C); (0xA8C4, 0xA8C5);
   (0xA8E0, 0xA8F1); (0xA8FF, 0xA8FF); (0xA926, 0xA92D); (0xA947, 0xA951); (0xA980, 0xA982);
   (0xA9B3, 0xA9B3); (0xA9B6, 0xA9B9); (0xA9BC, 0xA9BD); (0xA9CF, 0xA9CF); (0xA9E5, 0xA9E6);
   (0xAA29, 0xAA2E); (0xAA31, 0xAA32); (0xAA35, 0xAA36); (0xAA43, 0xAA43); (0xAA4C, 0xAA4C);
   (0xAA70, 0xAA70); (0xAA7C, 0xAA7C); (0xAAB0, 0xAAB0); (0xAAB2, 0xAAB4); (0xAAB7, 0xAAB8);
   (0xAABE, 0xAABF); (0xAAC1, 0xAAC1); (0xAADD, 0xAADD); (0xAAEC, 0xAAED); (0xAAF3, 0xAAF4);
   (0xAAF6, 0xAAF6); (0xAB5B, 0xAB5F); (0xAB69, 0xAB6B); (0xABE5, 0xABE5); (0xABE8, 0xABE8);
   (0xABED, 0xABED); (0xFB1E, 0xFB1E); (0xFBB2, 0xFBC2); (0xFE00, 0xFE0F); (0xFE13, 0xFE13);
   (0xFE20, 0xFE2F); (0xFE52, 0xFE52); (0xFE55, 0xFE55); (0xFEFF, 0xFEFF); (0xFF07, 0xFF07);
   (0xFF0E, 0xFF0E); (0xFF1A, 0xFF1A); (0xFF3E, 0xFF3E); (0xFF40, 0xFF40); (0xFF70, 0xFF70);
   (0xFF9E, 0xFF9F); (0xFFE3, 0xFFE3); (0xFFF9, 0xFFFB); (0x101FD, 0x101FD); (0x102E0, 0x102E0);
   (0x10376, 0x1037A); (0x10780, 0x10785); (0x10787, 0x107B0); (0x107B2, 0x107BA);
   (0x10A01, 0x10A03); (0x10A05, 0x10A06); (0x10A0C, 0x10A0F); (0x10A38, 0x10A3A);
   (0x10A3F, 0x10A3F); (0x10AE5, 0x10AE6); (0x10D24, 0x10D27); (0x10EAB, 0x10EAC);
   (0x10F46, 0x10F50); (0x10F82, 0x10F85); (0x11001, 0x11001); (0x11038, 0x11046);
   (0x11070, 0x11070); (0x11073, 0x11074); (0x1107F, 0x11081); (0x110B3, 0x110B6);
   (0x110B9, 0x110BA); (0x110BD, 0x110BD); (0x110C2, 0x110C2); (0x110CD, 0x110CD);
   (0x11100, 0x11102); (0x11127, 0x1112B); (0x1112D, 0x11134); (0x11173, 0x11173);
   (0x11180, 0x11181); (0x111B6, 0x111BE); (0x111C9, 0x111CC); (0x111CF, 0x111CF);
   (0x1122F, 0x11231); (0x11234, 0x11234); (0x11236, 0x11237); (0x1123E, 0x1123E);
   (0x112DF, 0x112DF); (0x112E3, 0x112EA); (0x11300, 0x11301); (0x1133B, 0x1133C);
   (0x11340, 0x11340); (0x11366, 0x1136C); (0x11370, 0x11374); (0x11438, 0x1143F);
   (0x11442, 0x11444); (0x11446, 0x11446); (0x1145E, 0x1145E); (0x114B3, 0x114B8);
   (0x114BA, 0x114BA); (0x114BF, 0x114C0); (0x114C2, 0x114C3); (0x115B2, 0x115B5);
   (0x115BC, 0x115BD); (0x115BF, 0x115C0); (0x115DC, 0x115DD); (0x11633, 0x1163A);
   (0x1163D, 0x1163D); (0x1163F, 0x11640); (0x116AB, 0x116AB); (0x116AD, 0x116AD);
   (0x116B0, 0x116B5); (0x116B7, 0x116B7); (0x1171D, 0x1171F); (0x11722, 0x11725);
   (0x11727, 0x1172B); (0x1182F, 0x11837); (0x11839, 0x1183A); (0x1193B, 0x1193C);
   (0x1193E, 0x1193E); (0x11943, 0x11943); (0x119D4, 0x119D7); (0x119DA, 0x119DB);
   (0x119E0, 0x119E0); (0x11A01, 0x11A0A); (0x11A33, 0x11A38); (0x11A3B, 0x11A3E);
   (0x11A47, 0x11A47); (0x11A51, 0x11A56); (0x11A59, 0x11A5B); (0x11A8A, 0x11A96);
   (0x11A98, 0x11A99); (0x11C30, 0x11C36); (0x11C38, 0x11C3D); (0x11C3F, 0x11C3F);
   (0x11C92, 0x11CA7); (0x11CAA, 0x11CB0); (0x11CB2, 0x11CB3); (0x11CB5, 0x11CB6);
   (0x11D31, 0x11D36); (0x11D3A, 0x11D3A); (0x11D3C, 0x11D3D); (0x11D3F, 0x11D45);
   (0x11D47, 0x11D47); (0x11D90, 0x11D91); (0x11D95, 0x11D95); (0x11D97, 0x11D97);
   (0x11EF3, 0x11EF4); (0x13430, 0x13438); (0x16AF0, 0x16AF4); (0x16B30, 0x16B36);
   (0x16B40, 0x16B43); (0x16F4F, 0x16F4F); (0x16F8F, 0x16F9F); (0x16FE0, 0x16FE1);
   (0x16FE3, 0x16FE4); (0x1AFF0, 0x1AFF3); (0x1AFF5, 0x1AFFB); (0x1AFFD, 0x1AFFE);
   (0x1BC9D, 0x1BC9E); (0x1BCA0, 0x1BCA3); (0x1CF00, 0x1CF2D); (0x1CF30, 0x1CF46);
   (0x1D167, 0x1D169); (0x1D173, 0x1D182); (0x1D185, 0x1D18B); (0x1D1AA, 0x1D1AD);
   (0x1D242, 0x1D244); (0x1DA00, 0x1DA36); (0x1DA3B, 0x1DA6C); (0x1DA75, 0x1DA75);
   (0x1DA84, 0x1DA84); (0x1DA9B, 0x1DA9F); (0x1DAA1, 0x1DAAF); (0x1E000, 0x1E006);
   (0x1E008, 0x1E018); (0x1E01B, 0x1E021); (0x1E023, 0x1E024); (0x1E026, 0x1E02A);
   (0x1E130, 0x1E13D); (0x1E2AE, 0x1E2AE); (0x1E2EC, 0x1E2EF); (0x1E8D0, 0x1E8D6);
   (0x1E944, 0x1E94B); (0x1F3FB, 0x1F3FF); (0xE0001, 0xE0001); (0xE0020, 0xE007F);
   (0xE0100, 0xE01EF)]%N.

(** The cased characters: the ranges of the code points with the property
    Cased. *)
Definition cased_ranges : list (N * N) :=
  [(0x0041, 0x005A); (0x0061, 0x007A); (0x00AA, 0x00AA); (0x00B5, 0x00B5); (0x00BA, 0x00BA);
   (0x00C0, 0x00D6); (0x00D8, 0x00F6); (0x00F8, 0x01BA); (0x01BC, 0x01BF); (0x01C4, 0x0293);
   (0x0295, 0x02B8); (0x02C0, 0x02C1); (0x02E0, 0x02E4); (0x0345, 0x0345); (0x0370, 0x0373);
   (0x0376, 0x0377); (0x037A, 0x037D); (0x037F, 0x037F); (0x0386, 0x0386); (0x0388, 0x038A);
   (0x038C, 0x038C); (0x038E, 0x03A1); (0x03A3, 0x03F5); (0x03F7, 0x0481); (0x048A, 0x052F);
   (0x0531, 0x0556); (0x0560, 0x0588); (0x10A0, 0x10C5); (0x10C7, 0x10C7); (0x10CD, 0x10CD);
   (0x10D0, 0x10FA); (0x10FD, 0x10FF); (0x13A0, 0x13F5); (0x13F8, 0x13FD); (0x1C80, 0x1C88);
   (0x1C90, 0x1CBA); (0x1CBD, 0x1CBF); (0x1D00, 0x1DBF); (0x1E00, 0x1F15); (0x1F18, 0x1F1D);
   (0x1F20, 0x1F45); (0x1F48, 0x1F4D); (0x1F50, 0x1F57); (0x1F59, 0x1F59); (0x1F5B, 0x1F5B);
   (0x1F5D, 0x1F5D); (0x1F5F, 0x1F7D); (0x1F80, 0x1FB4); (0x1FB6, 0x1FBC); (0x1FBE, 0x1FBE);
   (0x1FC2, 0x1FC4); (0x1FC6, 0x1FCC); (0x1FD0, 0x1FD3); (0x1FD6, 0x1FDB); (0x1FE0, 0x1FEC);
   (0x1FF2, 0x1FF4); (0x1FF6, 0x1FFC); (0x2071, 0x2071); (0x207F, 0x207F); (0x2090, 0x209C);
   (0x2102, 0x2102); (0x2107, 0x2107); (0x210A, 0x2113); (0x2115, 0x2115); (0x2119, 0x211D);
   (0x2124, 0x2124); (0x2126, 0x2126); (0x2128, 0x2128); (0x212A, 0x212D); (0x212F, 0x2134);
   (0x2139, 0x2139); (0x213C, 0x213F); (0x2145, 0x2149); (0x214E, 0x214E); (0x2160, 0x217F);
   (0x2183, 0x2184); (0x24B6, 0x24E9); (0x2C00, 0x2CE4); (0x2CEB, 0x2CEE); (0x2CF2, 0x2CF3);
   (0x2D00, 0x2D25); (0x2D27, 0x2D27); (0x2D2D, 0x2D2D); (0xA640, 0xA66D); (0xA680, 0xA69D);
   (0xA722, 0xA787); (0xA78B, 0xA78E); (0xA790, 0xA7CA); (0xA7D0, 0xA7D1); (0xA7D3, 0xA7D3);
   (0xA7D5, 0xA7D9); (0xA7F5, 0xA7F6); (0xA7F8, 0xA7FA); (0xAB30, 0xAB5A); (0xAB5C, 0xAB68);
   (0xAB70, 0xABBF); (0xFB00, 0xFB06); (0xFB13, 0xFB17); (0xFF21, 0xFF3A); (0xFF41, 0xFF5A);
   (0x10400, 0x1044F); (0x104B0, 0x104D3); (0x104D8, 0x104FB); (0x10570, 0x1057A);
   (0x1057C, 0x1058A); (0x1058C, 0x10592); (0x10594, 0x10595); (0x10597, 0x105A1);
   (0x105A3, 0x105B1); (0x105B3, 0x105B9); (0x105BB, 0x105BC); (0x10780, 0x10780);
   (0x10783, 0x10785); (0x10787, 0x107B0); (0x107B2, 0x107BA); (0x10C80, 0x10CB2);
   (0x10CC0, 0x10CF2); (0x118A0, 0x118DF); (0x16E40, 0x16E7F); (0x1D400, 0x1D454);
   (0x1D456, 0x1D49C); (0x1D49E, 0x1D49F); (0x1D4A2, 0x1D4A2); (0x1D4A5, 0x1D4A6);
   (0x1D4A9, 0x1D4AC); (0x1D4AE, 0x1D4B9); (0x1D4BB, 0x1D4BB); (0x1D4BD, 0x1D4C3);
   (0x1D4C5, 0x1D505); (0x1D507, 0x1D50A); (0x1D50D, 0x1D514); (0x1D516, 0x1D51C);
   (0x1D51E, 0x1D539); (0x1D53B, 0x1D53E); (0x1D540, 0x1D544); (0x1D546, 0x1D546);
   (0x1D54A, 0x1D550); (0x1D552, 0x1D6A5); (0x1D6A8, 0x1D6C0); (0x1D6C2, 0x1D6DA);
   (0x1D6DC, 0x1D6FA); (0x1D6FC, 0x1D714); (0x1D716, 0x1D734); (0x1D736, 0x1D74E);
   (0x1D750, 0x1D76E); (0x1D770, 0x1D788); (0x1D78A, 0x1D7A8); (0x1D7AA, 0x1D7C2);
   (0x1D7C4, 0x1D7CB); (0x1DF00, 0x1DF09); (0x1DF0B, 0x1DF1E); (0x1E900, 0x1E943);
   (0x1F130, 0x1F149); (0x1F150, 0x1F169); (0x1F170, 0x1F189)]%N.

(** [c] lies in one of the ranges; they are sorted. *)
Fixpoint in_ranges (c : N) (ranges : list (N * N)) : bool :=
  match ranges with
  | [] => false
  | (first, last) :: ranges' =>
      if (c <? first)%N then false
      else if (c <=? last)%N then true
      else in_ranges c ranges'
  end.

(** [c] is a member of one of the runs; they are sorted by first member. *)
Fixpoint in_runs (c : N) (runs : list (N * N * N)) : bool :=
  match runs with
  | [] => false
  | (first, last, step) :: runs' =>
      if (c <? first)%N then false
      else if ((c <=? last) && ((c - first) mod step =? 0))%N then true
      else in_runs c runs'
  end.

(** The image of [c] under the translation of the run it is a member of. *)
Fixpoint image_in_runs (c : N) (runs : list (N * N * N * N)) : option N :=
  match runs with
  | [] => None
  | (first, last, step, image) :: runs' =>
      if (c <? first)%N then None
      else if ((c <=? last) && ((c - first) mod step =? 0))%N
           then Some (image + (c - first))%N
      else image_in_runs c runs'
  end.

Definition case_ignorable (c : N) : bool := in_ranges c case_ignorable_ranges.
Definition cased (c : N) : bool := in_ranges c cased_ranges.

End Unicode.

(* ------------------------------------------------------------------ *)
(** ** Python strings *)
(* ------------------------------------------------------------------ *)

Module Py.

Definition str := list N.

(** Source literals are written as UTF-8 text and decoded to code points. *)
Fixpoint utf8_go (pending : nat) (acc : N) (s : string) : str :=
  match s with
  | EmptyString => []
  | String a s' =>
      let b := N_of_ascii a in
      match pending with
      | O =>
          if (b <? 128)%N then b :: utf8_go 0 0 s'
          else if (b <? 224)%N then utf8_go 1 (N.land b 31) s'
          else if (b <? 240)%N then utf8_go 2 (N.land b 15) s'
          else utf8_go 3 (N.land b 7) s'
      | S p =>
          let acc' := (acc * 64 + N.land b 63)%N in
          match p with
          | O => acc' :: utf8_go 0 0 s'
          | S _ => utf8_go p acc' s'
          end
      end
  end.

Definition u (s : string) : str := utf8_go 0 0 s.
Arguments u s%_string.

Definition in_range (lo hi c : N) : bool := ((lo <=? c) && (c <=? hi))%N.

Definition mem (c : N) (cs : str) : bool := existsb (N.eqb c) cs.

(** [str.isspace] on one character; also the class [\s] of [re]. *)
Definition isspace (c : N) : bool :=
  in_range 9 13 c || in_range 28 32 c || mem c [133; 160; 5760]%N
  || in_range 8192 8202 c || mem c [8232; 8233; 8239; 8287; 12288]%N.

(** Upper-case letters of Basic Latin and Latin-1 (U+00D7 is the
    multiplication sign), and their lower-case images; the case folding of
    [re] below is written with them. *)
Definition latin_upper (c : N) : bool :=
  in_range 65 90 c || (in_range 192 222 c && negb (c =? 215)%N).

Definition latin_lower_of_upper (c : N) : bool :=
  in_range 97 122 c || (in_range 224 254 c && negb (c =? 247)%N).

(** [str.isupper] on one character. *)
Definition isupper (c : N) : bool := Unicode.in_runs c Unicode.upper_runs.

(** [str.isalnum] on one character. *)
Definition isalnum (c : N) : bool := Unicode.in_ranges c Unicode.alnum_ranges.

(** [str.lower] on one character other than capital sigma: U+0130 lowers
    to two code points. *)
Definition lower_char (c : N) : str :=
  if (c =? 304)%N then [105; 775]%N
  else match Unicode.image_in_runs c Unicode.lower_runs with
       | Some image => [image]
       | None => [c]
       end.

(** The first character of [s] that is not case-ignorable. *)
Fixpoint skip_case_ignorable (s : str) : option N :=
  match s with
  | [] => None
  | c :: s' => if Unicode.case_ignorable c then skip_case_ignorable s' else Some c
  end.

(** A capital sigma is in final position when a cased character precedes
    it and none follows it, case-ignorable characters being skipped on
    both sides.  [before] holds the preceding characters, nearest first. *)
Definition final_sigma (before after : str) : bool :=
  match skip_case_ignorable before with
  | Some c =>
      Unicode.cased c &&
      match skip_case_ignorable after with
      | Some d => negb (Unicode.cased d)
      | None => true
      end
  | None => false
  end.

(** [str.lower]: U+03A3 lowers to U+03C2 in final position and to U+03C3
    elsewhere; every other character lowers by itself. *)
Fixpoint lower_from (before s : str) : str :=
  match s with
  | [] => []
  | c :: s' =>
      (if (c =? 931)%N
       then [if final_sigma before s' then 962 else 963]%N
       else lower_char c)
      ++ lower_from (c :: before) s'
  end.

Definition lower (s : str) : str := lower_from [] s.

(** Removal of leading / trailing characters satisfying [p]. *)
Fixpoint lstrip_by (p : N -> bool) (s : str) : str :=
  match s with
  | c :: s' => if p c then lstrip_by p s' else s
  | [] => []
  end.

Definition rstrip_by (p : N -> bool) (s : str) : str :=
  rev (lstrip_by p (rev s)).

Definition strip_by (p : N -> bool) (s : str) : str :=
  rstrip_by p (lstrip_by p s).

(** [s.strip()], [s.strip(chars)], [s.lstrip(chars)]. *)
Definition strip (s : str) : str := strip_by isspace s.
Definition strip_chars (chars s : str) : str := strip_by (fun c => mem c chars) s.
Definition lstrip_chars (chars s : str) : str := lstrip_by (fun c => mem c chars) s.

Fixpoint startswith (p s : str) : bool :=
  match p, s with
  | [], _ => true
  | a :: p', b :: s' => (a =? b)%N && startswith p' s'
  | _ :: _, [] => false
  end.

Definition endswith (p s : str) : bool := startswith (rev p) (rev s).

(** [sub in s]. *)
Fixpoint contains (sub s : str) : bool :=
  startswith sub s ||
  match s with
  | [] => false
  | _ :: s' => contains sub s'
  end.

(** [s.find(sub)]; [None] stands for -1. *)
Fixpoint find (sub s : str) : option nat :=
  if startswith sub s then Some 0
  else match s with
       | [] => None
       | _ :: s' => option_map S (find sub s')
       end.

(** [s.split()]: maximal runs of non-space characters. *)
Fixpoint split_go (cur : str) (s : str) : list str :=
  match s with
  | [] => match cur with [] => [] | _ => [rev cur] end
  | c :: s' =>
      if isspace c
      then match cur with [] => split_go [] s' | _ => rev cur :: split_go [] s' end
      else split_go (c :: cur) s'
  end.

Definition split (s : str) : list str := split_go [] s.

(** [s.split(sep)[0]] for a non-empty separator. *)
Definition split_first (sep s : str) : str :=
  match find sep s with
  | Some i => firstn i s
  | None => s
  end.

(** [sep.join(parts)]. *)
Fixpoint join (sep : str) (parts : list str) : str :=
  match parts with
  | [] => []
  | [p] => p
  | p :: ps => p ++ sep ++ join sep ps
  end.

Definition str_eqb (a b : str) : bool :=
  (length a =? length b)%nat && startswith a b.

End Py.

(* ------------------------------------------------------------------ *)
(** ** The backtracking matcher of [re]                                 *)
(* ------------------------------------------------------------------ *)

Module Re.
Import Py.

(** Patterns of this program use at most one capturing group. *)
Inductive regex : Type :=
| Chr (p : N -> bool)          (* one character of a class *)
| Eps
| Cat (r1 r2 : regex)
| Alt (r1 r2 : regex)          (* r1|r2, left first *)
| Star (r : regex)             (* r*  greedy *)
| StarLazy (r : regex)         (* r*? *)
| Grp (r : regex)              (* ( r ) , group 1 *)
| Bol                          (* ^ *)
| Wb.                          (* \b *)

Definition Plus (r : regex) : regex := Cat r (Star r).
Definition Opt (r : regex) : regex := Alt r Eps.

Record Match := mkMatch { m_start : nat; m_end : nat; group1 : option str }.

(** [\w]: alphanumeric or underscore. *)
Definition is_word (c : N) : bool := isalnum c || (c =? 95)%N.

Definition word_at (c : option N) : bool :=
  match c with Some x => is_word x | None => false end.

Section Matcher.
Variable R : Type.

(** A continuation receives the previous character, the remaining input
    and the current capture. *)
Definition cont := option N -> str -> option str -> option R.

Definition orelse (a b : option R) : option R :=
  match a with Some _ => a | None => b end.

Fixpoint rmatch (r : regex) (prev : option N) (s : str) (g : option str)
         (k : cont) {struct r} : option R :=
  match r with
  | Chr p =>
      match s with
      | c :: s' => if p c then k (Some c) s' g else None
      | [] => None
      end
  | Eps => k prev s g
  | Cat r1 r2 =>
      rmatch r1 prev s g (fun prev' s' g' => rmatch r2 prev' s' g' k)
  | Alt r1 r2 => orelse (rmatch r1 prev s g k) (rmatch r2 prev s g k)
  | Star r1 =>
      (fix loop (n : nat) (prev : option N) (s : str) (g : option str) : option R :=
         match n with
         | O => k prev s g
         | S n' =>
             orelse
               (rmatch r1 prev s g
                  (fun prev' s' g' =>
                     if (length s' <? length s)%nat then loop n' prev' s' g' else None))
               (k prev s g)
         end) (length s) prev s g
  | StarLazy r1 =>
      (fix loop (n : nat) (prev : option N) (s : str) (g : option str) : option R :=
         match n with
         | O => k prev s g
         | S n' =>
             orelse
               (k prev s g)
               (rmatch r1 prev s g
                  (fun prev' s' g' =>
                     if (length s' <? length s)%nat then loop n' prev' s' g' else None))
         end) (length s) prev s g
  | Grp r1 =>
      rmatch r1 prev s g
        (fun prev' s' _ => k prev' s' (Some (firstn (length s - length s') s)))
  | Bol => match prev with None => k prev s g | Some _ => None end
  | Wb => if xorb (word_at prev) (word_at (hd_error s)) then k prev s g else None
  end.

End Matcher.

(** [re.search]: leftmost start position, first match in backtracking order. *)
Fixpoint search_from (r : regex) (prev : option N) (s : str) (i : nat) : option Match :=
  match rmatch r prev s None
          (fun _ s' g => Some (mkMatch i (i + (length s - length s')) g)) with
  | Some m => Some m
  | None =>
      match s with
      | [] => None
      | c :: s' => search_from r (Some c) s' (S i)
      end
  end.

Definition search (r : regex) (s : str) : option Match := search_from r None s 0.

(** [match.group(1)] of a group that took part in the match. *)
Definition group_1 (m : Match) : str :=
  match group1 m with Some g => g | None => [] end.

(** *** Case folding of [re.IGNORECASE]

    Under IGNORECASE a class accepts a character when it holds the simple
    lower-case image of that character or a case variant of it.  The
    classes and literals of the patterns of this program lie in
    U+0000..U+00FF, and the only characters outside that range that they
    accept this way are U+0130, U+0131, U+017F, U+212A and U+212B:
    [sre_lower] and [sre_upper] are the case mappings as far as these
    patterns can observe them. *)

Definition sre_lower (c : N) : N :=
  if latin_upper c then (c + 32)%N
  else if (c =? 304)%N then 105%N
  else if (c =? 8490)%N then 107%N
  else if (c =? 8491)%N then 229%N
  else c.

Definition sre_upper (c : N) : N :=
  if latin_lower_of_upper c then (c - 32)%N
  else if (c =? 305)%N then 73%N
  else if (c =? 383)%N then 83%N
  else if (c =? 181)%N then 924%N
  else if (c =? 255)%N then 376%N
  else c.

(** A class under IGNORECASE accepts a character when the class meets its
    case orbit. *)
Definition icase (cls : N -> bool) (c : N) : bool :=
  existsb cls [c; sre_lower c; sre_upper c; sre_upper (sre_lower c); sre_lower (sre_upper c)].

Definition one (x : N) : N -> bool := N.eqb x.

(** A literal under IGNORECASE. *)
Definition lit_i (s : str) : regex := fold_right (fun c r => Cat (Chr (icase (one c))) r) Eps s.

Definition space : regex := Chr isspace.

End Re.

(* ------------------------------------------------------------------ *)
(** ** app.py: [extract_customer_name]                                  *)
(* ------------------------------------------------------------------ *)

Module Extract.
Import Py Re.

(** [A-Za-z0-9ÆØÅæøå] *)
Definition alnum_da (c : N) : bool :=
  in_range 65 90 c || in_range 97 122 c || in_range 48 57 c || mem c (u "ÆØÅæøå").

(** [A-Za-z0-9ÆØÅæøå_-] and [A-Za-z0-9ÆØÅæøå ._-] *)
Definition name_char (c : N) : bool := alnum_da c || mem c (u "_-").
Definition name_char_loose (c : N) : bool := alnum_da c || mem c (u " ._-").

(** One name token under IGNORECASE: [[A-Za-z0-9ÆØÅæøå][A-Za-z0-9ÆØÅæøå_-]*] *)
Definition token_i : regex :=
  Cat (Chr (icase alnum_da)) (Star (Chr (icase name_char))).

(** [kunde[n]?\s+] *)
Definition kunde_prefix : regex :=
  Cat (lit_i (u "kunde")) (Cat (Opt (Chr (icase (one 110)))) (Plus space)).

(** [(?:\s+(?:i\s+monday|og|hvor|som|der))] *)
Definition connector_tail : regex :=
  Cat (Plus space)
      (Alt (Cat (lit_i (u "i")) (Cat (Plus space) (lit_i (u "monday"))))
      (Alt (lit_i (u "og"))
      (Alt (lit_i (u "hvor"))
      (Alt (lit_i (u "som")) (lit_i (u "der")))))).

(** The first pattern, with re.IGNORECASE:
    [kunde[n]?\s+(TOKEN(?:\s+TOKEN)*?)(?:\s+(?:i\s+monday|og|hvor|som|der))] *)
Definition kunde_stop_re : regex :=
  Cat kunde_prefix
      (Cat (Grp (Cat token_i (StarLazy (Cat (Plus space) token_i))))
           connector_tail).

(** The second pattern, with re.IGNORECASE:
    [kunde[n]?\s+([A-Za-z0-9ÆØÅæøå][A-Za-z0-9ÆØÅæøå ._-]+)] *)
Definition kunde_re : regex :=
  Cat kunde_prefix
      (Grp (Cat (Chr (icase alnum_da)) (Plus (Chr (icase name_char_loose))))).

(** The third pattern, with re.IGNORECASE:
    [find\s+([A-Z][A-Za-z0-9ÆØÅæøå]+)] *)
Definition find_re : regex :=
  Cat (lit_i (u "find"))
      (Cat (Plus space)
           (Grp (Cat (Chr (icase (in_range 65 90))) (Plus (Chr (icase alnum_da)))))).

(** [^find\s+] with re.IGNORECASE *)
Definition find_prefix_re : regex :=
  Cat Bol (Cat (lit_i (u "find")) (Plus space)).

(** [\b([A-Z][A-Za-z0-9ÆØÅæøå]+)\b], no flags *)
Definition capitalized_re : regex :=
  Cat Wb (Cat (Grp (Cat (Chr (in_range 65 90)) (Plus (Chr alnum_da)))) Wb).

(** [re.sub] with the empty replacement, for a pattern anchored at the start: at most
    one occurrence is removed. *)
Definition sub_anchored (r : regex) (s : str) : str :=
  match search r s with
  | Some m => firstn (m_start m) s ++ skipn (m_end m) s
  | None => s
  end.

(** The characters of [" ?!.:,;"]. *)
Definition punct : str := u " ?!.:,;".

(** The loop of the second rule: the first stop word of the list found in
    [name.lower()] truncates the name, then the loop breaks. *)
Fixpoint cut_at_stop (stop_words : list str) (name : str) : str :=
  match stop_words with
  | [] => name
  | stop_word :: rest =>
      match find stop_word (lower name) with
      | Some stop_idx => strip (firstn stop_idx name)
      | None => cut_at_stop rest name
      end
  end.

(** The loop of the third rule: every stop word found in [name.lower()]
    splits [name] itself. *)
Definition split_at_stops (stop_words : list str) (name : str) : str :=
  fold_left
    (fun name stop_word =>
       if contains stop_word (lower name) then split_first stop_word name else name)
    stop_words name.

Definition connectors : list str :=
  [u " i monday"; u " og "; u " hvor "; u " som "; u " der "].

(** The scan for the earliest connector in [lower]. *)
Definition earliest_connector (t lower : str) : nat :=
  fold_left
    (fun earliest_idx connector =>
       match find connector lower with
       | Some idx => if (idx <? earliest_idx)%nat then idx else earliest_idx
       | None => earliest_idx
       end)
    connectors (length t).

Definition starts_upper (p : str) : bool :=
  match p with c :: _ => isupper c | [] => false end.

Definition starts_alnum (p : str) : bool :=
  match p with c :: _ => isalnum c | [] => false end.

(** The fourth rule, once a connector has been found at [earliest_idx]. *)
Definition before_connector (t : str) (earliest_idx : nat) : str :=
  let before := strip (firstn earliest_idx t) in
  let before := sub_anchored find_prefix_re before in
  let parts := split before in
  match parts with
  | [] => before
  | _ :: _ =>
      let capitalized_parts := filter starts_upper parts in
      match capitalized_parts with
      | _ :: _ => join (u " ") capitalized_parts
      | [] => last parts []
      end
  end.

(** The last-resort loop: first part longer than two characters that
    starts with a letter or digit. *)
Definition meaningful (part : str) : bool :=
  (2 <? length part)%nat && starts_alnum part.

Definition extract_customer_name (text : str) : str :=
  let t := strip text in
  let t := strip (lstrip_chars (u "-–— ") t) in
  let lower := Py.lower t in
  match search kunde_stop_re t with
  | Some m => strip_chars punct (group_1 m)
  | None =>
  match search kunde_re t with
  | Some m =>
      let name :=
        cut_at_stop [u " i monday"; u " i "; u " og "; u " hvor "; u " som "; u " der "]
                    (group_1 m) in
      strip_chars punct name
  | None =>
  match search find_re t with
  | Some m =>
      let name :=
        split_at_stops [u " i "; u " og "; u " hvor "; u " som "; u " der "] (group_1 m) in
      strip_chars punct name
  | None =>
      let earliest_idx := earliest_connector t lower in
      if (earliest_idx <? length t)%nat
      then strip_chars punct (before_connector t earliest_idx)
      else
        match search capitalized_re t with
        | Some capitalized_match => strip_chars punct (group_1 capitalized_match)
        | None =>
            match List.find meaningful (split t) with
            | Some part => strip_chars punct part
            | None => strip_chars punct t
            end
        end
  end end end.

End Extract.

(* ------------------------------------------------------------------ *)
(** ** Effects: exceptions and an event trace                           *)
(* ------------------------------------------------------------------ *)

Module Eff.
Import Py.

(** Exceptions raised in this program.  [RequestException] covers
    connection errors, timeouts, HTTP status errors and undecodable
    bodies, all subclasses of [requests.RequestException]. *)
Inductive Exn : Type :=
| RuntimeError (msg : str)
| RequestException (msg : str)
| OtherException (msg : str).

(** [str(e)] *)
Definition exn_str (e : Exn) : str :=
  match e with
  | RuntimeError m | RequestException m | OtherException m => m
  end.

Inductive Result (A : Type) : Type :=
| Ok (a : A)
| Raise (e : Exn).
Arguments Ok {A} a.
Arguments Raise {A} e.

Section Monad.
Variable Ev : Type.

(** A computation yields a value or an exception, and the events it
    performed in order. *)
Definition M (A : Type) : Type := (Result A * list Ev)%type.

Definition ret {A} (a : A) : M A := (Ok a, []).
Definition raise {A} (e : Exn) : M A := (Raise e, []).
Definition emit (ev : Ev) : M unit := (Ok tt, [ev]).

Definition bind {A B} (m : M A) (f : A -> M B) : M B :=
  match m with
  | (Ok a, t) => let (r, t') := f a in (r, t ++ t')
  | (Raise e, t) => (Raise e, t)
  end.

(** [try: m  except Exception as e: h e] *)
Definition try_except {A} (m : M A) (h : Exn -> M A) : M A :=
  match m with
  | (Ok a, t) => (Ok a, t)
  | (Raise e, t) => let (r, t') := h e in (r, t ++ t')
  end.

Definition result {A} (m : M A) : Result A := fst m.
Definition trace {A} (m : M A) : list Ev := snd m.

End Monad.

Arguments ret {Ev A} a.
Arguments raise {Ev A} e.
Arguments emit {Ev} ev.
Arguments bind {Ev A B} m f.
Arguments try_except {Ev A} m h.
Arguments result {Ev A} m.
Arguments trace {Ev A} m.

End Eff.

Notation "x <- c1 ;; c2" := (Eff.bind c1 (fun x => c2))
  (at level 61, c1 at next level, right associativity).
Notation "c1 ;; c2" := (Eff.bind c1 (fun _ => c2))
  (at level 61, right associativity).

(* ------------------------------------------------------------------ *)
(** ** The data exchanged with the collaborators                        *)
(* ------------------------------------------------------------------ *)

Module Data.
Import Py Eff.

(** A JSON key that is absent or [null] is [None]: the code reads these
    fields with [.get(..) or default]. *)
Record ColumnValue := { cv_id : option str; cv_text : option str }.
Record Item := {
  item_id : option str;
  item_name : option str;
  column_values : option (list ColumnValue) }.
Record ItemsPage := { items : option (list Item) }.
Record Board := { items_page : option ItemsPage }.
Record Me := { me_name : option str; me_email : option str }.
Record MondayData := { boards : option (list Board); me : option Me }.

(** The decoded body of a reply: the value under ["errors"] when that key
    is present, and the value under ["data"]. *)
Record Response := { errors : option str; data : option MondayData }.

Inductive HttpResult : Type :=
| RequestFailed (e : str)
| Json (r : Response).

(** The two query documents, with their variables. *)
Inductive Request : Type :=
| MeQuery                                   (* query { me { name email } } *)
| ItemsQuery (board_id : Z) (limit : Z).     (* boards(ids) { items_page(limit) { items {..} } } *)

(** A retrieved document. *)
Record Document := {
  page_content : str;
  doc_source : option str;
  doc_page : option nat }.

(** The four output styles of [build_monday_answer]; the strings
    ["summary"], ["email_followup"], ["meeting_prep"], ["next_steps"]. *)
Inductive Mode : Type := summary | email_followup | meeting_prep | next_steps.

(** An entry of [structured]: name, id and the column dictionary. *)
Record Entry := {
  entry_name : option str;
  entry_id : option str;
  entry_columns : list (option str * option str) }.

(** A prompt is one of the fixed templates with its holes filled. *)
Inductive Prompt : Type :=
| RagPrompt (user_text context : str)
| MondayPrompt (mode : Mode) (structured : list Entry) (user_text : str).

Inductive Level : Type := DEBUG | INFO | WARNING | ERROR.

Inductive Event : Type :=
| Log (lvl : Level) (fmt : string)
| HttpPost (req : Request)
| RetrieverInvoke (query : str)
| LlmInvoke (p : Prompt)
| Say (text : str) (thread_ts : option str)
| ChatPostMessage (channel : str) (text : str) (thread_ts : option str).

(** The process environment and the collaborators, as seen by one request. *)
Record World := {
  MONDAY_API_KEY : option str;
  CUSTOMER_BOARD_ID : Z;
  BOT_USER_ID : str;
  requests_post : Request -> HttpResult;
  retriever : option (str -> Result (list Document));
  llm_invoke : Prompt -> Result str }.

Definition M := Eff.M Event.
Definition log (lvl : Level) (fmt : string) : M unit := emit (Log lvl fmt).

(** [not s] for an optional string. *)
Definition falsy (s : option str) : bool :=
  match s with
  | None | Some [] => true
  | Some (_ :: _) => false
  end.

(** [x or []], and [x or] the empty string. *)
Definition or_nil {A} (x : option (list A)) : list A :=
  match x with Some l => l | None => [] end.

Definition is_remote (ev : Event) : bool :=
  match ev with HttpPost _ => true | _ => false end.

End Data.

(* ------------------------------------------------------------------ *)
(** ** monday_client.py                                                  *)
(* ------------------------------------------------------------------ *)

Module MondayClient.
Import Py Eff Data.

Section Client.
Variable w : World.

Definition _call_monday (req : Request) : M (option MondayData) :=
  if falsy (MONDAY_API_KEY w)
  then raise (RuntimeError (u "MONDAY_API_KEY is missing in .env"))
  else
    emit (HttpPost req) ;;
    match requests_post w req with
    | RequestFailed e =>
        log ERROR "Request to Monday API failed: %s" ;;
        raise (RequestException e)
    | Json resp =>
        match errors resp with
        | Some errs =>
            log ERROR "Monday API error: %s" ;;
            raise (RuntimeError (u "Monday API error: " ++ errs))
        | None => ret (data resp)
        end
    end.

Definition get_all_items (board_id : Z) (limit : Z) : M (list Item) :=
  try_except
    (data <- _call_monday (ItemsQuery board_id limit) ;;
     let boards := or_nil (match data with Some d => boards d | None => None end) in
     match boards with
     | [] =>
         log WARNING "No boards found for board_id: %d" ;;
         ret []
     | board0 :: _ =>
         let items_page := items_page board0 in
         let items := or_nil (match items_page with Some p => items p | None => None end) in
         log INFO "Fetched %d items from board %d" ;;
         ret items
     end)
    (fun e =>
       log ERROR "Failed to get items from board %d: %s" ;;
       raise e).

(** The default of [limit]. *)
Definition default_limit : Z := 500.

(** The inner loop over the column values: does some column text
    contain the term (the loop breaks at the first one). *)
Fixpoint cols_loop (term : str) (cols : list ColumnValue) : bool :=
  match cols with
  | [] => false
  | cv :: rest =>
      let cv_text := lower (or_nil (cv_text cv)) in
      if contains term cv_text then true else cols_loop term rest
  end.

(** The outer loop, appending to [results]. *)
Fixpoint items_loop (term : str) (items : list Item) (results : list Item) : list Item :=
  match items with
  | [] => results
  | item :: rest =>
      let name := lower (or_nil (item_name item)) in
      let cols := or_nil (column_values item) in
      if contains term name then items_loop term rest (results ++ [item])
      else if cols_loop term cols then items_loop term rest (results ++ [item])
      else items_loop term rest results
  end.

Definition search_items_by_text (board_id : Z) (text : option str) : M (list Item) :=
  let term := lower (strip (or_nil text)) in
  match term with
  | [] =>
      log WARNING "Empty search term provided" ;;
      ret []
  | _ :: _ =>
      try_except
        (items <- get_all_items board_id default_limit ;;
         let results := items_loop term items [] in
         log INFO "Found %d matching items for search term '%s'" ;;
         ret results)
        (fun e =>
           log ERROR "Failed to search items: %s" ;;
           ret [])
  end.

End Client.
End MondayClient.

(* ------------------------------------------------------------------ *)
(** ** app.py                                                            *)
(* ------------------------------------------------------------------ *)

Module App.
Import Py Eff Data MondayClient Extract.

(** Start-up: the retriever exists when the index directory exists and
    loading it did not raise. *)
Definition init_retriever (db_exists : bool)
           (load : Result (str -> Result (list Document)))
  : option (str -> Result (list Document)) :=
  if db_exists
  then match load with
       | Ok r => Some r
       | Raise _ => None
       end
  else None.

(** Removal of every occurrence of a non-empty literal, left to right;
    [skip] counts the characters of an occurrence still to be dropped. *)
Fixpoint remove_all (pat : str) (skip : nat) (s : str) : str :=
  match s with
  | [] => []
  | c :: s' =>
      match skip with
      | S n => remove_all pat n s'
      | O =>
          match pat with
          | _ :: _ =>
              if startswith pat s then remove_all pat (length pat - 1) s'
              else c :: remove_all pat 0 s'
          | [] => c :: remove_all pat 0 s'
          end
      end
  end.

(** The three intents of [handle_mention], named after its branches:
    1) Monday health-check, 2) Monday CRM-mode, 3) standard RAG mode. *)
Inductive Category : Type := HealthCheck | CrmLookup | GeneralQA.

Inductive FetchStrategy : Type :=
| AllRecords
| SearchByName (search_term : str).

Definition overview_phrases : list str :=
  [u "alle kunder"; u "alle leads"; u "hvilke leads har vi";
   u "hvilke kunder har vi"; u "overblik over vores leads"; u "overblik over kunder"].

Definition email_phrases : list str :=
  [u "skriv en mail"; u "skriv en e-mail"; u "skriv email"; u "skriv en email";
   u "formuler en mail"; u "lav en mail"; u "follow up mail"; u "opfølgningsmail"].

Definition meeting_phrases : list str :=
  [u "forbered møde"; u "forberedelse til møde"; u "mødeforberedelse";
   u "prepare meeting"; u "prepare for meeting"; u "salgsmøde"; u "kundemøde"].

Definition next_step_phrases : list str :=
  [u "næste skridt"; u "next steps"; u "hvad gør vi nu"; u "hvad er næste skridt";
   u "hvad bør jeg gøre nu"].

(** [any(phrase in lower for phrase in phrases)] *)
Definition any_in (lower : str) (phrases : list str) : bool :=
  existsb (fun phrase => contains phrase lower) phrases.

(** The if / elif / else chain of the handler. *)
Definition category (lower : str) : Category :=
  if contains (u "monday test") lower then HealthCheck
  else if contains (u "monday") lower || contains (u "crm") lower then CrmLookup
  else GeneralQA.

Definition fetch_strategy (user_text lower : str) : FetchStrategy :=
  if any_in lower overview_phrases then AllRecords
  else SearchByName (extract_customer_name user_text).

Definition output_mode (lower : str) : Mode :=
  if any_in lower email_phrases then email_followup
  else if any_in lower meeting_phrases then meeting_prep
  else if any_in lower next_step_phrases then next_steps
  else summary.

(** [d[k] = v] on a dictionary kept in insertion order. *)
Definition key_eqb (a b : option str) : bool :=
  match a, b with
  | None, None => true
  | Some x, Some y => str_eqb x y
  | _, _ => false
  end.

Fixpoint dict_set {V} (k : option str) (v : V) (d : list (option str * V))
  : list (option str * V) :=
  match d with
  | [] => [(k, v)]
  | (k', v') :: d' =>
      if key_eqb k k' then (k, v) :: d' else (k', v') :: dict_set k v d'
  end.

Definition structure (item : Item) : Entry :=
  {| entry_name := item_name item;
     entry_id := item_id item;
     entry_columns :=
       fold_left (fun d cv => dict_set (cv_id cv) (cv_text cv) d)
                 (or_nil (column_values item)) [] |}.

(** The separator between context parts: a blank line, three dashes, a
    blank line. *)
Definition context_separator : str := [10; 10; 45; 45; 45; 10; 10]%N.

Definition rag_apology : str :=
  u "Beklager, jeg kunne ikke generere et svar lige nu. Prøv igen senere.".

Definition monday_apology : str :=
  u "Beklager, jeg kunne ikke formatere Monday-resultaterne lige nu.".

Record MentionEvent := {
  channel : str;
  thread_ts : option str;
  ts : option str;
  text : option str }.

(** [str(x)] of an optional string inside an f-string. *)
Definition fmt (x : option str) : str :=
  match x with Some s => s | None => u "None" end.

Section Handlers.
Variable w : World.

(** [re.sub] of the pattern built from the bot's user id, then [strip]; a
    Slack user id is alphanumeric, so the pattern is a literal. *)
Definition strip_bot_mention (text : str) : str :=
  strip (remove_all (u "<@" ++ BOT_USER_ID w ++ u ">") 0 text).

(** The retrieval part of [build_rag_answer]: the context parts. *)
Definition retrieve (user_text : str) : M (list str) :=
  match retriever w with
  | Some r =>
      try_except
        (emit (RetrieverInvoke user_text) ;;
         match r user_text with
         | Raise e => raise e
         | Ok [] =>
             log INFO "No documents matched the query." ;;
             ret []
         | Ok docs =>
             log INFO "Found %d relevant document snippets." ;;
             ret (map page_content (firstn 5 docs))
         end)
        (fun e =>
           log ERROR "Error during document search: %s" ;;
           ret [])
  | None =>
      log INFO "RAG is not active (no Chroma DB)." ;;
      ret []
  end.

(** [llm.invoke(prompt)] *)
Definition invoke_llm (p : Prompt) : M str :=
  emit (LlmInvoke p) ;;
  match llm_invoke w p with
  | Ok content => ret content
  | Raise e => raise e
  end.

Definition build_rag_answer (user_text : str) : M str :=
  context_parts <- retrieve user_text ;;
  let context := join context_separator context_parts in
  let prompt := RagPrompt user_text context in
  try_except
    (invoke_llm prompt)
    (fun e =>
       log ERROR "Error invoking LLM: %s" ;;
       ret rag_apology).

Definition build_monday_answer (user_text : str) (items : list Item) (mode : Mode) : M str :=
  let structured := map structure items in
  let crm_prompt := MondayPrompt mode structured user_text in
  try_except
    (invoke_llm crm_prompt)
    (fun e =>
       log ERROR "Error invoking LLM for Monday answer: %s" ;;
       ret monday_apology).

(** Branch 1) of the handler. *)
Definition monday_health_check : M str :=
  if falsy (MONDAY_API_KEY w)
  then ret (u "Jeg har ikke nogen Monday API-nøgle konfigureret.")
  else
    data <- _call_monday w MeQuery ;;
    match (match data with Some d => me d | None => None end) with
    | Some me =>
        ret (u "✅ Monday-forbindelse virker! Du er logget ind som: "
               ++ fmt (me_name me) ++ u " (" ++ fmt (me_email me) ++ u ")")
    | None =>
        ret (u "❌ Jeg kunne ikke læse brugerinfo fra Monday – tjek API-nøglen.")
    end.

(** The first if / else of branch 2): where the items come from. *)
Definition fetch_items (fs : FetchStrategy) : M (list Item) :=
  match fs with
  | AllRecords =>
      log INFO "Monday lookup: fetching all items from board" ;;
      get_all_items w (CUSTOMER_BOARD_ID w) default_limit
  | SearchByName search_term =>
      log INFO "Monday lookup for: '%s'" ;;
      search_items_by_text w (CUSTOMER_BOARD_ID w) (Some search_term)
  end.

(** Branch 2) of the handler. *)
Definition monday_crm_mode (user_text lower : str) : M str :=
  if falsy (MONDAY_API_KEY w)
  then ret (u "Jeg har ikke nogen Monday API-nøgle konfigureret, så jeg kan ikke læse CRM-data endnu.")
  else
    items <- fetch_items (fetch_strategy user_text lower) ;;
    let mode := output_mode lower in
    match items with
    | [] =>
        ret (u "Jeg kunne ikke finde nogen kunder/leads i Monday, der matcher din forespørgsel.")
    | _ :: _ =>
        log INFO "Monday-lookup succeeded with %d items" ;;
        build_monday_answer user_text items mode
    end.

(** The reply computed inside the [try] of [handle_mention]. *)
Definition reply_for (user_text : str) : M str :=
  let lower := Py.lower user_text in
  match category lower with
  | HealthCheck => monday_health_check
  | CrmLookup => monday_crm_mode user_text lower
  | GeneralQA => build_rag_answer user_text
  end.

Definition handle_mention (event : MentionEvent) : M unit :=
  let channel := channel event in
  let thread_ts := match thread_ts event with Some t => Some t | None => ts event end in
  let raw_text := or_nil (text event) in
  let user_text := strip_bot_mention raw_text in
  log INFO "Received message: %s" ;;
  emit (Say (u "🤔 Saiborg er i gang med at tænke...") thread_ts) ;;
  try_except
    (reply <- reply_for user_text ;;
     emit (ChatPostMessage channel reply thread_ts))
    (fun e =>
       log ERROR "Error in handle_mention" ;;
       emit (ChatPostMessage channel (u "❌ Der skete en fejl: " ++ exn_str e) thread_ts)).

End Handlers.
End App.

(* ------------------------------------------------------------------ *)
(** ** build_index.py                                                    *)
(* ------------------------------------------------------------------ *)

Module BuildIndex.
Import Py Eff.

(** What [page.extract_text()] does on one page. *)
Inductive Page : Type :=
| ExtractFails (e : str)
| Extracted (t : option str).

(** What [PdfReader(path)] and the enumeration of [reader.pages] do on one
    file: the reader cannot be constructed; or it yields all its pages; or
    it yields some pages and then raises. *)
Inductive Pdf : Type :=
| Unreadable (e : str)
| Readable (pages : list Page)
| PagesFail (pages : list Page) (e : Exn).

(** The state of DATA_DIR.  A directory that can be listed pairs each file
    name with the outcome of opening it as a PDF; [ListdirFails] is a
    directory on which [os.listdir] raises. *)
Inductive DataDir : Type :=
| NoSuchPath
| NotADirectory
| ListdirFails (e : Exn)
| Directory (entries : list (str * Pdf)).

Record PageMeta := { source : str; page : nat }.
Record ChunkMeta := { chunk_source : str; chunk_page : nat; chunk : nat }.

Inductive Level : Type := INFO | WARNING | ERROR.

(** The persisted index: the chunks and metadata handed to the store. *)
Record Index := { index_texts : list str; index_metadatas : list ChunkMeta }.

(** The state of DB_DIR on disk. *)
Inductive DbDir : Type :=
| Absent
| Present (idx : Index)
| Damaged.

Inductive Event : Type :=
| Log (lvl : Level) (fmt : string)
| Rmtree
| FromTexts (texts : list str) (metadatas : list ChunkMeta).

(** [enumerate(xs)] from a given start. *)
Fixpoint enumerate_from {A} (n : nat) (xs : list A) : list (nat * A) :=
  match xs with
  | [] => []
  | x :: xs' => (n, x) :: enumerate_from (S n) xs'
  end.

(** [page.extract_text()], with the empty string for [None] and when
    extraction raises. *)
Definition extract_text (page : Page) : str :=
  match page with
  | Extracted (Some t) => t
  | Extracted None => []
  | ExtractFails _ => []
  end.

(** The body of the page loop for one page: the text and metadata it
    appends, if any. *)
Definition load_page (filename : str) (page_num : nat) (page : Page)
  : list (str * PageMeta) :=
  let page_text := extract_text page in
  let page_text := strip page_text in
  match page_text with
  | [] => []
  | _ :: _ => [(page_text, {| source := filename; page := page_num + 1 |})]
  end.

Definition load_pages (filename : str) (pages : list Page) : list (str * PageMeta) :=
  flat_map (fun np => load_page filename (fst np) (snd np)) (enumerate_from 0 pages).

(** The body of the file loop for one file: what it appends.  A reader
    that cannot be constructed is logged and skipped; an exception of the
    page enumeration is not caught. *)
Definition load_file (entry : str * Pdf) : Result (list (str * PageMeta)) :=
  match snd entry with
  | Unreadable _ => Ok []
  | Readable pages => Ok (load_pages (fst entry) pages)
  | PagesFail _ e => Raise e
  end.

(** The file loop: it ends at the first file whose page enumeration
    raises. *)
Fixpoint load_files (pdf_files : list (str * Pdf)) : Result (list (str * PageMeta)) :=
  match pdf_files with
  | [] => Ok []
  | entry :: pdf_files' =>
      match load_file entry with
      | Raise e => Raise e
      | Ok loaded =>
          match load_files pdf_files' with
          | Raise e => Raise e
          | Ok more => Ok (loaded ++ more)
          end
      end
  end.

Definition is_pdf (entry : str * Pdf) : bool :=
  endswith (u ".pdf") (lower (fst entry)).

(** [load_pdf_texts]: the parallel lists [texts] and [metadatas], or the
    exception of [os.listdir] or of a page enumeration, neither of which
    is inside a [try]. *)
Definition load_pdf_texts (data_dir : DataDir) : Result (list str * list PageMeta) :=
  match data_dir with
  | NoSuchPath => Ok ([], [])
  | NotADirectory => Ok ([], [])
  | ListdirFails e => Raise e
  | Directory entries =>
      let pdf_files := filter is_pdf entries in
      match load_files pdf_files with
      | Raise e => Raise e
      | Ok loaded => Ok (List.split loaded)
      end
  end.

(** The text splitter is a collaborator: constructing it may raise, and
    once constructed it maps a text to its chunks. *)
Definition Splitter : Type := Z -> Z -> Result (str -> list str).

(** The chunk loop for one text. *)
Definition split_one (split_text : str -> list str) (tm : str * PageMeta)
  : list (str * ChunkMeta) :=
  map (fun ic =>
         (snd ic, {| chunk_source := source (snd tm);
                     chunk_page := page (snd tm);
                     chunk := fst ic |}))
      (enumerate_from 0 (split_text (fst tm))).

Definition split_texts (text_splitter : Splitter)
           (texts : list str) (metadatas : list PageMeta)
           (chunk_size chunk_overlap : Z)
  : Result (list str * list ChunkMeta) :=
  match text_splitter chunk_size chunk_overlap with
  | Raise e => Raise e
  | Ok split_text =>
      Ok (List.split (flat_map (split_one split_text) (combine texts metadatas)))
  end.

(** The environment of one run of the build. *)
Record World := {
  DATA_DIR : DataDir;
  CHUNK_SIZE : Z;
  CHUNK_OVERLAP : Z;
  text_splitter : Splitter;
  embeddings_init : option Exn;          (* [Some e]: the client raises *)
  rmtree : option Exn;                   (* [Some e]: deletion raises *)
  from_texts : list str -> list ChunkMeta -> option Exn }.

(** Outcome of [main]: how it ended, the state of DB_DIR and the trace. *)
Record Run := { outcome : Result unit; db : DbDir; events : list Event }.

Definition exists_db (d : DbDir) : bool :=
  match d with Absent => false | _ => true end.

Definition main (w : World) (db0 : DbDir) : Run :=
  let t0 := [Log INFO "Loading texts from PDFs in '%s'..."] in
  match load_pdf_texts (DATA_DIR w) with
  | Raise e => {| outcome := Raise e; db := db0; events := t0 |}
  | Ok (raw_texts, raw_metadatas) =>
  match raw_texts with
  | [] =>
      {| outcome := Ok tt; db := db0;
         events := t0 ++ [Log ERROR "No PDF text found in '%s'. Add some PDFs and try again."] |}
  | _ :: _ =>
      let t1 := t0 ++ [Log INFO "Loaded %d pages of text";
                       Log INFO "Splitting texts into chunks (size=%d, overlap=%d)..."] in
      match split_texts (text_splitter w) raw_texts raw_metadatas
                        (CHUNK_SIZE w) (CHUNK_OVERLAP w) with
      | Raise e => {| outcome := Raise e; db := db0; events := t1 |}
      | Ok (all_chunks, all_metadatas) =>
          let t2 := t1 ++ [Log INFO "Created %d chunks";
                           Log INFO "Creating embeddings with Gemini..."] in
          match embeddings_init w with
          | Some e =>
              {| outcome := Ok tt; db := db0;
                 events := t2 ++ [Log ERROR "Failed to initialize embeddings: %s"] |}
          | None =>
              let t3 := t2 ++ [Log INFO "Building Chroma DB in '%s'..."] in
              let build (db1 : DbDir) (t4 : list Event) : Run :=
                let t5 := t4 ++ [FromTexts all_chunks all_metadatas] in
                match from_texts w all_chunks all_metadatas with
                | None =>
                    {| outcome := Ok tt;
                       db := Present {| index_texts := all_chunks;
                                        index_metadatas := all_metadatas |};
                       events := t5 ++ [Log INFO "Done! Chroma DB built successfully."] |}
                | Some e =>
                    {| outcome := Raise e; db := Damaged;
                       events := t5 ++ [Log ERROR "Failed to build Chroma DB: %s"] |}
                end in
              if exists_db db0
              then
                let t4 := t3 ++ [Log INFO "Existing DB found, deleting it first..."; Rmtree] in
                match rmtree w with
                | Some e =>
                    {| outcome := Ok tt; db := Damaged;
                       events := t4 ++ [Log ERROR "Failed to delete existing DB: %s"] |}
                | None => build Absent t4
                end
              else build db0 t3
          end
      end
  end
  end.

End BuildIndex.

(* ------------------------------------------------------------------ *)
(** ** Sample environments                                               *)
(* ------------------------------------------------------------------ *)

Module Sample.
Import Py Eff Data.

Definition acme : Item :=
  {| item_id := Some (u "101");
     item_name := Some (u "Acme Corp");
     column_values :=
       Some [ {| cv_id := Some (u "status"); cv_text := Some (u "Varmt lead") |};
              {| cv_id := Some (u "email"); cv_text := None |} ] |}.

Definition nova : Item :=
  {| item_id := Some (u "102");
     item_name := Some (u "TechNova");
     column_values :=
       Some [ {| cv_id := Some (u "note"); cv_text := Some (u "Henvist af ACME-partner") |} ] |}.

Definition unnamed : Item :=
  {| item_id := Some (u "103"); item_name := None; column_values := None |}.

Definition board_reply : Response :=
  {| errors := None;
     data := Some {| boards := Some [ {| items_page := Some {| items := Some [acme; nova; unnamed] |} |} ];
                     me := Some {| me_name := Some (u "Luther"); me_email := None |} |} |}.

Definition empty_board_reply : Response :=
  {| errors := None;
     data := Some {| boards := Some [ {| items_page := Some {| items := Some [] |} |} ];
                     me := None |} |}.

(** A configured key and a reachable CRM; no index; a language model that
    echoes a fixed text. *)
Definition online : World :=
  {| MONDAY_API_KEY := Some (u "secret");
     CUSTOMER_BOARD_ID := 5085798849;
     BOT_USER_ID := u "U123ABC";
     requests_post := fun _ => Json board_reply;
     retriever := None;
     llm_invoke := fun _ => Ok (u "svar") |}.

(** The same, with a board that has no records. *)
Definition online_empty : World :=
  {| MONDAY_API_KEY := Some (u "secret");
     CUSTOMER_BOARD_ID := 5085798849;
     BOT_USER_ID := u "U123ABC";
     requests_post := fun _ => Json empty_board_reply;
     retriever := None;
     llm_invoke := fun _ => Ok (u "svar") |}.

(** A board with one record whose texts have letters outside Latin-1. *)
Definition skoda : Item :=
  {| item_id := Some (u "104");
     item_name := Some (u "Škoda Auto");
     column_values :=
       Some [ {| cv_id := Some (u "kontakt"); cv_text := Some (u "ΝΊΚΟΣ ΠΑΠΠΆΣ") |} ] |}.

Definition online_skoda : World :=
  {| MONDAY_API_KEY := Some (u "secret");
     CUSTOMER_BOARD_ID := 5085798849;
     BOT_USER_ID := u "U123ABC";
     requests_post := fun _ =>
       Json {| errors := None;
               data := Some {| boards := Some [ {| items_page := Some {| items := Some [skoda; acme] |} |} ];
                               me := None |} |};
     retriever := None;
     llm_invoke := fun _ => Ok (u "svar") |}.

(** A configured key, but every request fails; the retriever raises and
    so does the language model. *)
Definition offline : World :=
  {| MONDAY_API_KEY := Some (u "secret");
     CUSTOMER_BOARD_ID := 5085798849;
     BOT_USER_ID := u "U123ABC";
     requests_post := fun _ => RequestFailed (u "timeout");
     retriever := Some (fun _ => Raise (OtherException (u "search failed")));
     llm_invoke := fun _ => Raise (OtherException (u "quota")) |}.

(** A splitter that returns a text shorter than the chunk size as its
    only chunk, and otherwise cuts it after [chunk_size] characters. *)
Definition cut_text (chunk_size : Z) (t : str) : list str :=
  match strip t with
  | [] => []
  | c :: r =>
      if (Z.of_nat (length (c :: r)) <? chunk_size)%Z then [c :: r]
      else [firstn (Z.to_nat chunk_size) (c :: r); skipn (Z.to_nat chunk_size) (c :: r)]
  end.

Definition cut_splitter : BuildIndex.Splitter :=
  fun chunk_size chunk_overlap =>
    if (chunk_size <? chunk_overlap)%Z
    then Raise (OtherException (u "larger chunk overlap than chunk size"))
    else Ok (cut_text chunk_size).

Definition three_pages : list BuildIndex.Page :=
  [BuildIndex.Extracted (Some (u "  Side et "));
   BuildIndex.Extracted (Some (u "Side to"));
   BuildIndex.Extracted (Some (u "Side tre  "))].

(** A build whose data directory holds one PDF with a blank page only;
    the embedding client would fail as well. *)
Definition failing_build : BuildIndex.World :=
  {| BuildIndex.DATA_DIR :=
       BuildIndex.Directory [(u "tom.pdf", BuildIndex.Readable [BuildIndex.Extracted (Some (u "   "))])];
     BuildIndex.CHUNK_SIZE := 1000;
     BuildIndex.CHUNK_OVERLAP := 200;
     BuildIndex.text_splitter := cut_splitter;
     BuildIndex.embeddings_init := Some (OtherException (u "no key"));
     BuildIndex.rmtree := None;
     BuildIndex.from_texts := fun _ _ => None |}.

Definition old_index : BuildIndex.DbDir :=
  BuildIndex.Present {| BuildIndex.index_texts := [u "gammel tekst"];
                        BuildIndex.index_metadatas :=
                          [ {| BuildIndex.chunk_source := u "a.pdf";
                               BuildIndex.chunk_page := 1;
                               BuildIndex.chunk := 0 |} ] |}.

End Sample.

(* ================================================================== *)
(** * Properties                                                        *)
(* ================================================================== *)

(** ** Facts about Python strings *)

Module PyFacts.
Import Py.

(** [p] occurs in [s] as a contiguous substring. *)
Definition Substring (p s : str) : Prop := exists a b, s = a ++ p ++ b.

Lemma startswith_app (p b : str) : startswith p (p ++ b) = true.
Proof.
  induction p as [|c p IH]; simpl; [reflexivity|].
  now rewrite N.eqb_refl, IH.
Qed.

Lemma startswith_inv (p s : str) :
  startswith p s = true -> exists b, s = p ++ b.
Proof.
  revert s; induction p as [|c p IH]; intros s H.
  - now exists s.
  - destruct s as [|d s]; simpl in H; [discriminate|].
    apply andb_prop in H as [Hc Hp].
    apply N.eqb_eq in Hc; subst d.
    destruct (IH _ Hp) as [b ->].
    now exists b.
Qed.

Lemma contains_startswith (p s : str) : startswith p s = true -> contains p s = true.
Proof.
  intros H. destruct s; simpl; rewrite H; reflexivity.
Qed.

Lemma contains_intro (p a b : str) : contains p (a ++ p ++ b) = true.
Proof.
  induction a as [|c a IH].
  - cbn [app]. apply contains_startswith, startswith_app.
  - simpl. rewrite IH. apply orb_true_r.
Qed.

Lemma contains_inv (p s : str) : contains p s = true -> Substring p s.
Proof.
  induction s as [|c s IH]; simpl; intros H.
  - rewrite orb_false_r in H.
    destruct (startswith_inv _ _ H) as [b Hb].
    now exists [], b.
  - apply orb_prop in H as [H|H].
    + destruct (startswith_inv _ _ H) as [b Hb].
      now exists [], b.
    + destruct (IH H) as (a & b & ->).
      now exists (c :: a), b.
Qed.

Lemma contains_iff (p s : str) : contains p s = true <-> Substring p s.
Proof.
  split; [apply contains_inv|].
  intros (a & b & ->). apply contains_intro.
Qed.

Lemma contains_false_iff (p s : str) : contains p s = false <-> ~ Substring p s.
Proof.
  rewrite <- contains_iff. destruct (contains p s); split; intros H; congruence.
Qed.

(** No character of [s] is a capital sigma, U+03A3. *)
Definition no_capital_sigma (s : str) : bool :=
  forallb (fun c => negb (c =? 931)%N) s.

(** No character of [s] is a small sigma, U+03C2 or U+03C3. *)
Definition no_small_sigma (s : str) : bool :=
  forallb (fun c => negb (c =? 962)%N && negb (c =? 963)%N) s.

Lemma lower_char_not_nil (c : N) : lower_char c <> [].
Proof.
  unfold lower_char. destruct (c =? 304)%N; [discriminate|].
  destruct (Unicode.image_in_runs c Unicode.lower_runs); discriminate.
Qed.

Lemma lower_from_cons (before : str) (c : N) (s : str) :
  lower_from before (c :: s) =
    (if (c =? 931)%N
     then [if final_sigma before s then 962 else 963]%N
     else lower_char c)
    ++ lower_from (c :: before) s.
Proof. reflexivity. Qed.

Lemma lower_nil_iff (s : str) : lower s = [] <-> s = [].
Proof.
  split; [|intros ->; reflexivity].
  destruct s as [|c s]; [reflexivity|]. unfold lower. rewrite lower_from_cons.
  intros H. apply app_eq_nil in H as [H _].
  destruct (c =? 931)%N; [discriminate|].
  now apply lower_char_not_nil in H.
Qed.

(** What follows a prefix is lower-cased in the context of that prefix. *)
Lemma lower_from_prefix (a s before : str) :
  exists x, lower_from before (a ++ s) = x ++ lower_from (rev a ++ before) s.
Proof.
  revert before; induction a as [|c a IH]; intros before.
  - now exists [].
  - cbn [app]. rewrite lower_from_cons.
    destruct (IH (c :: before)) as [x Hx]. rewrite Hx.
    cbn [rev]. rewrite <- (app_assoc (rev a) [c] before). cbn [app].
    eexists. now rewrite app_assoc.
Qed.

(** Characters other than capital sigma lower by themselves, whatever
    surrounds them. *)
Lemma lower_from_no_sigma (P b before : str) :
  no_capital_sigma P = true ->
  lower_from before (P ++ b) = flat_map lower_char P ++ lower_from (rev P ++ before) b.
Proof.
  revert before; induction P as [|c P IH]; intros before H; [reflexivity|].
  change (no_capital_sigma (c :: P)) with (negb (c =? 931)%N && no_capital_sigma P) in H.
  apply andb_prop in H as [Hc H].
  apply negb_true_iff in Hc.
  cbn [app]. rewrite lower_from_cons, Hc, (IH (c :: before) H).
  cbn [flat_map rev]. now rewrite <- !app_assoc.
Qed.

Lemma lower_no_sigma (P : str) :
  no_capital_sigma P = true -> lower P = flat_map lower_char P.
Proof.
  intros H. unfold lower.
  rewrite <- (app_nil_r P) at 1. rewrite (@lower_from_no_sigma P [] [] H).
  apply app_nil_r.
Qed.

(** A capital sigma lowers to a small sigma in every context. *)
Lemma lower_from_small_sigma (P before : str) :
  no_small_sigma (lower_from before P) = true -> no_capital_sigma P = true.
Proof.
  revert before; induction P as [|c P IH]; intros before H; [reflexivity|].
  rewrite lower_from_cons in H. unfold no_small_sigma in H.
  rewrite forallb_app in H. apply andb_prop in H as [Hc H].
  change (no_capital_sigma (c :: P)) with (negb (c =? 931)%N && no_capital_sigma P).
  rewrite (IH (c :: before) H), andb_true_r.
  destruct (c =? 931)%N; [|reflexivity].
  destruct (final_sigma before P); discriminate.
Qed.

(** A text whose lower-casing has no sigma is lower-cased the same way
    inside any longer text. *)
Lemma lower_infix (a P b : str) :
  no_small_sigma (lower P) = true -> Substring (lower P) (lower (a ++ P ++ b)).
Proof.
  intros H. apply lower_from_small_sigma in H.
  unfold lower at 2.
  destruct (lower_from_prefix a (P ++ b) []) as [x Hx]. rewrite Hx.
  rewrite (@lower_from_no_sigma P b (rev a ++ []) H), (@lower_no_sigma P H).
  now eexists _, _.
Qed.

Lemma lower_infix_in (phrases : list str) (a P b : str) :
  forallb no_small_sigma phrases = true ->
  In (lower P) phrases ->
  Substring (lower P) (lower (a ++ P ++ b)).
Proof.
  intros Hall Hin. apply lower_infix.
  rewrite forallb_forall in Hall. now apply Hall.
Qed.

(** Letters outside Latin-1 are classified and lower-cased as well: the
    two-code-point image of U+0130, and the sigma that is final in its
    word and the sigma that is not. *)
Example lower_beyond_latin1 :
  lower (u "Škoda Auto") = u "škoda auto" /\
  lower (u "ÆBLEGRØD på Ærø") = u "æblegrød på ærø" /\
  lower (u "ΟΔΥΣΣΕΥΣ ΟΔΌΣ") = u "οδυσσευς οδός" /\
  lower (u "ΑΣ") = u "ας" /\ lower (u "Σ") = u "σ" /\
  contains (lower (u "Σ")) (lower (u "ΑΣ")) = false /\
  lower (u "İstanbul") = [105; 775]%N ++ u "stanbul" /\
  map isalnum (u "žŠ٣中-_") = [true; true; true; true; false; false] /\
  map isupper (u "žŠΣσǅ") = [false; true; true; false; false].
Proof. repeat split; vm_compute; reflexivity. Qed.

Section Strip.
Variable p : N -> bool.

Lemma lstrip_by_forallb (s : str) :
  forallb p (lstrip_by p s) = forallb p s.
Proof.
  induction s as [|c s IH]; simpl; [reflexivity|].
  destruct (p c) eqn:E; simpl; [exact IH | now rewrite E].
Qed.

Lemma lstrip_by_nil_forallb (s : str) :
  lstrip_by p s = [] -> forallb p s = true.
Proof.
  intros H. now rewrite <- lstrip_by_forallb, H.
Qed.

Lemma lstrip_by_blank (s : str) : forallb p s = true -> lstrip_by p s = [].
Proof.
  induction s as [|c s IH]; simpl; [reflexivity|].
  intros H. apply andb_prop in H as [-> H]. auto.
Qed.

Lemma lstrip_by_head (s : str) (c : N) (r : str) :
  lstrip_by p s = c :: r -> p c = false.
Proof.
  induction s as [|d s IH]; simpl; [discriminate|].
  destruct (p d) eqn:E; [exact IH|].
  intros H; injection H as -> _. exact E.
Qed.

Lemma lstrip_by_keep (c : N) (s : str) : p c = false -> lstrip_by p (c :: s) = c :: s.
Proof. intros H; simpl; now rewrite H. Qed.

Lemma lstrip_by_idem (s : str) : lstrip_by p (lstrip_by p s) = lstrip_by p s.
Proof.
  destruct (lstrip_by p s) as [|c r] eqn:E; [reflexivity|].
  apply lstrip_by_keep. eapply lstrip_by_head; eauto.
Qed.

Lemma lstrip_by_length (s : str) : length (lstrip_by p s) <= length s.
Proof.
  induction s as [|c s IH]; simpl; [lia|].
  destruct (p c); simpl; lia.
Qed.

(** Stripping on the left keeps a kept last character. *)
Lemma lstrip_by_snoc (l : str) (c : N) :
  p c = false -> exists l', lstrip_by p (l ++ [c]) = l' ++ [c].
Proof.
  intros Hc. induction l as [|d l [l' IH]]; simpl.
  - rewrite Hc. now exists [].
  - destruct (p d); [now exists l'|].
    now exists (d :: l).
Qed.

Lemma rstrip_by_keep_head (c : N) (s : str) :
  p c = false -> exists r, rstrip_by p (c :: s) = c :: r.
Proof.
  intros Hc. unfold rstrip_by. simpl.
  destruct (lstrip_by_snoc (rev s) Hc) as [l' ->].
  rewrite rev_app_distr. simpl. now exists (rev l').
Qed.

Lemma rstrip_by_last (s a : str) (x : N) :
  rstrip_by p s = a ++ [x] -> p x = false.
Proof.
  unfold rstrip_by. intros H.
  apply (f_equal (@rev N)) in H.
  rewrite rev_involutive, rev_app_distr in H. simpl in H.
  eapply lstrip_by_head; eauto.
Qed.

Lemma forallb_rev (s : str) : forallb p (rev s) = forallb p s.
Proof.
  induction s as [|c s IH]; simpl; [reflexivity|].
  rewrite forallb_app, IH. simpl. rewrite andb_true_r. apply andb_comm.
Qed.

Lemma rstrip_by_forallb (s : str) : forallb p (rstrip_by p s) = forallb p s.
Proof.
  unfold rstrip_by.
  rewrite forallb_rev, lstrip_by_forallb, forallb_rev. reflexivity.
Qed.

Lemma rstrip_by_length (s : str) : length (rstrip_by p s) <= length s.
Proof.
  unfold rstrip_by. rewrite length_rev.
  etransitivity; [apply lstrip_by_length|]. now rewrite length_rev.
Qed.

Lemma rstrip_by_idem (s : str) : rstrip_by p (rstrip_by p s) = rstrip_by p s.
Proof.
  unfold rstrip_by. now rewrite rev_involutive, lstrip_by_idem.
Qed.

(** [strip] of a blank string is empty, and only of a blank string. *)
Lemma strip_by_blank (s : str) : forallb p s = true -> strip_by p s = [].
Proof.
  intros H. unfold strip_by. now rewrite (lstrip_by_blank _ H).
Qed.

Lemma strip_by_nil_blank (s : str) : strip_by p s = [] -> forallb p s = true.
Proof.
  unfold strip_by. intros H.
  rewrite <- lstrip_by_forallb, <- rstrip_by_forallb, H. reflexivity.
Qed.

(** The result of [strip] never ends with a stripped character. *)
Lemma strip_by_last (s a : str) (x : N) : strip_by p s = a ++ [x] -> p x = false.
Proof. unfold strip_by. apply rstrip_by_last. Qed.

(** A leading character that is not stripped stays in front. *)
Lemma strip_by_keep_head (c : N) (s : str) :
  p c = false -> exists r, strip_by p (c :: s) = c :: r.
Proof.
  intros Hc. unfold strip_by. rewrite (lstrip_by_keep _ Hc).
  now apply rstrip_by_keep_head.
Qed.

Lemma strip_by_idem (s : str) : strip_by p (strip_by p s) = strip_by p s.
Proof.
  unfold strip_by.
  destruct (lstrip_by p s) as [|c r] eqn:E; [reflexivity|].
  assert (Hc : p c = false) by (eapply lstrip_by_head; eauto).
  destruct (rstrip_by_keep_head r Hc) as [r' Hr].
  rewrite <- (rstrip_by_idem (c :: r)) at 2.
  f_equal. rewrite Hr. now apply lstrip_by_keep.
Qed.

Lemma strip_by_length (s : str) : length (strip_by p s) <= length s.
Proof.
  unfold strip_by.
  etransitivity; [apply rstrip_by_length | apply lstrip_by_length].
Qed.

End Strip.

End PyFacts.

(** ** The intent router *)

Module RouterFacts.
Import Py Eff Data MondayClient Extract App PyFacts.

(** Some phrase of the list occurs in the text. *)
Definition SomePhrase (phrases : list str) (lower : str) : Prop :=
  exists phrase, In phrase phrases /\ Substring phrase lower.

Lemma any_in_iff (lower : str) (phrases : list str) :
  any_in lower phrases = true <-> SomePhrase phrases lower.
Proof.
  unfold any_in, SomePhrase. rewrite existsb_exists.
  split; intros (ph & Hin & H); exists ph; split; auto; now apply contains_iff.
Qed.

Lemma any_in_false_iff (lower : str) (phrases : list str) :
  any_in lower phrases = false <-> ~ SomePhrase phrases lower.
Proof.
  rewrite <- any_in_iff. destruct (any_in lower phrases); split; intros H; congruence.
Qed.

Ltac decide_contains :=
  repeat match goal with
    | H : Substring _ _ |- _ => apply contains_iff in H
    | H : ~ Substring _ _ |- _ => apply contains_false_iff in H
    | H : SomePhrase _ _ |- _ => apply any_in_iff in H
    | H : ~ SomePhrase _ _ |- _ => apply any_in_false_iff in H
    end.

(** C1. The router classifies the lower-cased text in strict priority
    order: a text containing "monday test" is a health check whatever else
    it contains; a text containing "monday" or "crm" but not "monday test"
    is a CRM lookup; every other text is a general question.  The handler
    runs the branch of that category. *)
Theorem router_priority (w : World) (user_text : str) :
  let lower := Py.lower user_text in
  (Substring (u "monday test") lower ->
     category lower = HealthCheck /\
     reply_for w user_text = monday_health_check w) /\
  (~ Substring (u "monday test") lower ->
   Substring (u "monday") lower \/ Substring (u "crm") lower ->
     category lower = CrmLookup /\
     reply_for w user_text = monday_crm_mode w user_text lower) /\
  (~ Substring (u "monday test") lower ->
   ~ (Substring (u "monday") lower \/ Substring (u "crm") lower) ->
     category lower = GeneralQA /\
     reply_for w user_text = build_rag_answer w user_text) /\
  (forall a P b : str,
     Py.lower P = u "monday test" ->
     category (Py.lower (a ++ P ++ b)) = HealthCheck).
Proof.
  intros lower. unfold reply_for. fold lower. unfold category.
  repeat split.
  1,2: decide_contains; now rewrite H.
  1,2: decide_contains; rewrite H;
       assert (E : contains (u "monday") lower || contains (u "crm") lower = true)
         by (destruct H0 as [H0|H0]; decide_contains; rewrite H0; auto using orb_true_r);
       now rewrite E.
  1,2: decide_contains; rewrite H;
       assert (E : contains (u "monday") lower || contains (u "crm") lower = false)
         by (apply orb_false_iff; split; apply contains_false_iff; tauto);
       now rewrite E.
  intros a P b HP.
  assert (E : contains (u "monday test") (Py.lower (a ++ P ++ b)) = true).
  { apply contains_iff. rewrite <- HP. apply lower_infix. now rewrite HP. }
  now rewrite E.
Qed.

(** The lower-cased text of a message that mentions the CRM and asks for
    a health check in mixed case. *)
Lemma router_priority_witness :
  category (Py.lower (u "Alle kunder i CRM: Monday TEST")) = HealthCheck /\
  category (Py.lower (u "find Acme i Monday")) = CrmLookup /\
  category (Py.lower (u "hvad er vores ferieregler?")) = GeneralQA.
Proof.
  pose (w := {| MONDAY_API_KEY := None; CUSTOMER_BOARD_ID := 0; BOT_USER_ID := [];
                requests_post := fun _ => RequestFailed [];
                retriever := None; llm_invoke := fun _ => Ok [] |}).
  split; [|split].
  - apply (proj1 (router_priority w (u "Alle kunder i CRM: Monday TEST"))).
    apply contains_iff. vm_compute. reflexivity.
  - apply (proj1 (proj2 (router_priority w (u "find Acme i Monday")))).
    + apply contains_false_iff. vm_compute. reflexivity.
    + left. apply contains_iff. vm_compute. reflexivity.
  - apply (proj1 (proj2 (proj2 (router_priority w (u "hvad er vores ferieregler?"))))).
    + apply contains_false_iff. vm_compute. reflexivity.
    + intros [H|H]; apply contains_iff in H; vm_compute in H; discriminate.
Defined.

(** C2. In a CRM lookup all records are fetched exactly when one of the
    six overview phrases occurs in the lower-cased text, wherever it
    occurs and whatever surrounds it; otherwise the board is searched for
    the name extracted from the original text. *)
Theorem fetch_strategy_overview (w : World) (user_text : str) :
  let lower := Py.lower user_text in
  overview_phrases =
    [u "alle kunder"; u "alle leads"; u "hvilke leads har vi";
     u "hvilke kunder har vi"; u "overblik over vores leads"; u "overblik over kunder"] /\
  (fetch_strategy user_text lower = AllRecords <-> SomePhrase overview_phrases lower) /\
  (~ SomePhrase overview_phrases lower ->
     fetch_strategy user_text lower = SearchByName (extract_customer_name user_text)) /\
  (forall a P b : str,
     In (Py.lower P) overview_phrases ->
     fetch_strategy (a ++ P ++ b) (Py.lower (a ++ P ++ b)) = AllRecords) /\
  (SomePhrase overview_phrases lower ->
     fetch_items w (fetch_strategy user_text lower) =
       (log INFO "Monday lookup: fetching all items from board" ;;
        get_all_items w (CUSTOMER_BOARD_ID w) default_limit)) /\
  (~ SomePhrase overview_phrases lower ->
     fetch_items w (fetch_strategy user_text lower) =
       (log INFO "Monday lookup for: '%s'" ;;
        search_items_by_text w (CUSTOMER_BOARD_ID w)
          (Some (extract_customer_name user_text)))).
Proof.
  intros lower. unfold fetch_strategy.
  split; [reflexivity|]. split; [|split; [|split; [|split]]].
  - rewrite <- any_in_iff. destruct (any_in lower overview_phrases); split;
      intros H; congruence.
  - intros H. decide_contains. now rewrite H.
  - intros a P b HP.
    assert (E : any_in (Py.lower (a ++ P ++ b)) overview_phrases = true).
    { apply any_in_iff. exists (Py.lower P). split; [exact HP|].
      now apply (@lower_infix_in overview_phrases a P b). }
    now rewrite E.
  - intros H. decide_contains. now rewrite H.
  - intros H. decide_contains. now rewrite H.
Qed.

Lemma fetch_strategy_overview_witness :
  fetch_strategy (u "Giv mig et overblik over kunder i Monday, og find Acme")
                 (Py.lower (u "Giv mig et overblik over kunder i Monday, og find Acme"))
    = AllRecords /\
  fetch_strategy (u "find TechNova og giv status i monday")
                 (Py.lower (u "find TechNova og giv status i monday"))
    = SearchByName (u "TechNova").
Proof.
  pose (w := {| MONDAY_API_KEY := None; CUSTOMER_BOARD_ID := 0; BOT_USER_ID := [];
                requests_post := fun _ => RequestFailed [];
                retriever := None; llm_invoke := fun _ => Ok [] |}).
  split.
  - apply (proj2 (proj1 (proj2 (fetch_strategy_overview w
             (u "Giv mig et overblik over kunder i Monday, og find Acme"))))).
    apply any_in_iff. vm_compute. reflexivity.
  - rewrite (proj1 (proj2 (proj2 (fetch_strategy_overview w
               (u "find TechNova og giv status i monday"))))).
    + vm_compute. reflexivity.
    + apply any_in_false_iff. vm_compute. reflexivity.
Defined.

(** C3. In a CRM lookup the output mode is read off the lower-cased text
    by trying the e-mail phrases, then the meeting phrases, then the
    next-step phrases, and is the summary when none occurs; matching is by
    substring of the lower-cased text, and whichever way the records were
    fetched, the language model is asked in that mode. *)
Theorem output_mode_priority (w : World) (user_text : str) :
  let lower := Py.lower user_text in
  (SomePhrase email_phrases lower -> output_mode lower = email_followup) /\
  (~ SomePhrase email_phrases lower -> SomePhrase meeting_phrases lower ->
     output_mode lower = meeting_prep) /\
  (~ SomePhrase email_phrases lower -> ~ SomePhrase meeting_phrases lower ->
   SomePhrase next_step_phrases lower ->
     output_mode lower = next_steps) /\
  (~ SomePhrase email_phrases lower -> ~ SomePhrase meeting_phrases lower ->
   ~ SomePhrase next_step_phrases lower ->
     output_mode lower = summary) /\
  (forall a P b : str,
     In (Py.lower P) email_phrases ->
     output_mode (Py.lower (a ++ P ++ b)) = email_followup) /\
  (forall (item : Item) (items : list Item) (t : list Event),
     falsy (MONDAY_API_KEY w) = false ->
     fetch_items w (fetch_strategy user_text lower) = (Ok (item :: items), t) ->
     In (LlmInvoke (MondayPrompt (output_mode lower)
                                 (map structure (item :: items)) user_text))
        (trace (monday_crm_mode w user_text lower))).
Proof.
  intros lower. unfold output_mode.
  split; [|split; [|split; [|split; [|split]]]].
  - intros H. decide_contains. now rewrite H.
  - intros H1 H2. decide_contains. now rewrite H1, H2.
  - intros H1 H2 H3. decide_contains. now rewrite H1, H2, H3.
  - intros H1 H2 H3. decide_contains. now rewrite H1, H2, H3.
  - intros a P b HP.
    assert (E : any_in (Py.lower (a ++ P ++ b)) email_phrases = true).
    { apply any_in_iff. exists (Py.lower P). split; [exact HP|].
      now apply (@lower_infix_in email_phrases a P b). }
    now rewrite E.
  - intros item items t Hkey Hfetch.
    unfold monday_crm_mode. rewrite Hkey. unfold bind at 1. rewrite Hfetch.
    unfold build_monday_answer, invoke_llm, trace.
    set (p := MondayPrompt _ _ _).
    destruct (llm_invoke w p); cbn; apply in_or_app; right; right; left; reflexivity.
Qed.

Lemma output_mode_priority_witness :
  output_mode (Py.lower (u "kunden Acme i monday – skriv en opfølgningsmail til kundemøde"))
    = email_followup /\
  output_mode (Py.lower (u "alle kunder i monday: hvad er NÆSTE SKRIDT"))
    = next_steps.
Proof.
  pose (w := {| MONDAY_API_KEY := None; CUSTOMER_BOARD_ID := 0; BOT_USER_ID := [];
                requests_post := fun _ => RequestFailed [];
                retriever := None; llm_invoke := fun _ => Ok [] |}).
  split.
  - apply (proj1 (output_mode_priority w
      (u "kunden Acme i monday – skriv en opfølgningsmail til kundemøde"))).
    apply any_in_iff. vm_compute. reflexivity.
  - apply (proj1 (proj2 (proj2 (output_mode_priority w
      (u "alle kunder i monday: hvad er NÆSTE SKRIDT"))))).
    + apply any_in_false_iff. vm_compute. reflexivity.
    + apply any_in_false_iff. vm_compute. reflexivity.
    + apply any_in_iff. vm_compute. reflexivity.
Defined.

End RouterFacts.

(** ** CRM data access *)

Module ClientFacts.
Import Py Eff Data MondayClient PyFacts.

(** A record matches a normalised term when its lower-cased name, or the
    lower-cased text of one of its columns, contains the term. *)
Definition record_matches (term : str) (item : Item) : bool :=
  contains term (lower (or_nil (item_name item)))
  || existsb (fun cv => contains term (lower (or_nil (cv_text cv))))
             (or_nil (column_values item)).

Lemma cols_loop_existsb (term : str) (cols : list ColumnValue) :
  cols_loop term cols =
  existsb (fun cv => contains term (lower (or_nil (cv_text cv)))) cols.
Proof.
  induction cols as [|cv cols IH]; simpl; [reflexivity|].
  rewrite IH. now destruct (contains term (lower (or_nil (cv_text cv)))).
Qed.

Lemma items_loop_filter (term : str) (items results : list Item) :
  items_loop term items results = results ++ filter (record_matches term) items.
Proof.
  revert results; induction items as [|item items IH]; intros results; simpl.
  - now rewrite app_nil_r.
  - unfold record_matches at 1. rewrite <- cols_loop_existsb.
    destruct (contains term (lower (or_nil (item_name item)))); simpl.
    + now rewrite IH, <- app_assoc.
    + destruct (cols_loop term (or_nil (column_values item))).
      * now rewrite IH, <- app_assoc.
      * apply IH.
Qed.

Lemma term_empty_iff (text : str) :
  lower (strip text) = [] <-> forallb isspace text = true.
Proof.
  rewrite lower_nil_iff. unfold strip. split.
  - apply strip_by_nil_blank.
  - apply strip_by_blank.
Qed.

Lemma record_matches_iff (term : str) (item : Item) :
  record_matches term item = true <->
  Substring term (lower (or_nil (item_name item))) \/
  exists cv, In cv (or_nil (column_values item)) /\
             Substring term (lower (or_nil (cv_text cv))).
Proof.
  unfold record_matches. rewrite orb_true_iff, contains_iff, existsb_exists.
  split; intros [H|(cv & Hin & H)]; auto; right; exists cv; split; auto;
    now apply contains_iff.
Qed.


(** The term and the record texts are lower-cased alike outside Latin-1:
    a lower-case term finds the record named in upper case, and a term
    ending in a final sigma finds the upper-case column text. *)
Example search_beyond_latin1 :
  result (search_items_by_text Sample.online_skoda 5085798849 (Some (u "škoda")))
    = Ok [Sample.skoda] /\
  result (search_items_by_text Sample.online_skoda 5085798849 (Some (u " ŠKODA a")))
    = Ok [Sample.skoda] /\
  result (search_items_by_text Sample.online_skoda 5085798849 (Some (u "παππάς")))
    = Ok [Sample.skoda] /\
  result (search_items_by_text Sample.online_skoda 5085798849 (Some (u "παππάσ")))
    = Ok [].
Proof. repeat split; vm_compute; reflexivity. Qed.

(** C7. The two access operations fail differently.  [get_all_items]
    re-raises what the remote call raised, after logging it, and the
    remote call raises on a missing key, on a failed request and on an
    error list.  [search_items_by_text] never raises: when fetching fails
    it logs and returns no records.  A board without records gives the
    empty list. *)
Theorem failure_policies (w : World) (board_id limit : Z) :
  let req := ItemsQuery board_id limit in
  (forall e t,
     _call_monday w req = (Raise e, t) ->
     get_all_items w board_id limit
       = (Raise e, t ++ [Log ERROR "Failed to get items from board %d: %s"])) /\
  (falsy (MONDAY_API_KEY w) = true ->
     exists msg, result (_call_monday w req) = Raise (RuntimeError msg)) /\
  (falsy (MONDAY_API_KEY w) = false ->
   forall e, requests_post w req = RequestFailed e ->
     result (_call_monday w req) = Raise (RequestException e)) /\
  (falsy (MONDAY_API_KEY w) = false ->
   forall r errs, requests_post w req = Json r -> errors r = Some errs ->
     result (_call_monday w req) = Raise (RuntimeError (u "Monday API error: " ++ errs))) /\
  (forall text, exists items,
     result (search_items_by_text w board_id text) = Ok items) /\
  (forall text e t,
     lower (strip (or_nil text)) <> [] ->
     get_all_items w board_id default_limit = (Raise e, t) ->
     search_items_by_text w board_id text
       = (Ok [], t ++ [Log ERROR "Failed to search items: %s"])) /\
  (falsy (MONDAY_API_KEY w) = false ->
   forall r d b bs,
     requests_post w req = Json r -> errors r = None -> data r = Some d ->
     boards d = Some (b :: bs) ->
     or_nil (match items_page b with Some p => items p | None => None end) = [] ->
     result (get_all_items w board_id limit) = Ok []).
Proof.
  intros req.
  split; [|split; [|split; [|split; [|split; [|split]]]]].
  - intros e t H. unfold get_all_items. fold req. now rewrite H.
  - intros Hk. unfold _call_monday. rewrite Hk. eexists. reflexivity.
  - intros Hk e H. unfold _call_monday. now rewrite Hk, H.
  - intros Hk r errs H He. unfold _call_monday. now rewrite Hk, H, He.
  - intros text. unfold search_items_by_text.
    destruct (lower (strip (or_nil text))); [now eexists|].
    destruct (get_all_items w board_id default_limit) as [[items|e] t];
      eexists; reflexivity.
  - intros text e t Hterm H. unfold search_items_by_text.
    destruct (lower (strip (or_nil text))); [congruence|].
    now rewrite H.
  - intros Hk r d b bs H He Hd Hb Hitems.
    unfold get_all_items, _call_monday. fold req.
    rewrite Hk, H, He, Hd. cbn. rewrite Hb. cbn. now rewrite Hitems.
Qed.


Lemma failure_policies_witness :
  result (get_all_items Sample.offline 5085798849 500)
    = Raise (RequestException (u "timeout")) /\
  search_items_by_text Sample.offline 5085798849 (Some (u "acme"))
    = (Ok [], [HttpPost (ItemsQuery 5085798849 500);
               Log ERROR "Request to Monday API failed: %s";
               Log ERROR "Failed to get items from board %d: %s";
               Log ERROR "Failed to search items: %s"]) /\
  result (get_all_items Sample.online_empty 5085798849 500) = Ok [].
Proof.
  pose proof (failure_policies Sample.offline 5085798849 500) as H.
  pose proof (failure_policies Sample.online_empty 5085798849 500) as H'.
  cbv zeta in H, H'.
  destruct H as (H1 & _ & _ & _ & _ & H6 & _).
  destruct H' as (_ & _ & _ & _ & _ & _ & H7).
  split; [|split].
  - exact (f_equal fst (H1 _ _ eq_refl)).
  - refine (H6 (Some (u "acme")) _ _ _ eq_refl). vm_compute. discriminate.
  - exact (H7 eq_refl _ _ _ _ eq_refl eq_refl eq_refl eq_refl eq_refl).
Defined.

End ClientFacts.

(** ** The RAG answer pipeline *)

Module RagFacts.
Import Py Eff Data App.

Lemma retrieve_ok (w : World) (user_text : str) :
  exists parts, result (retrieve w user_text) = Ok parts.
Proof.
  unfold retrieve.
  destruct (retriever w) as [r|]; [|now eexists].
  cbn. destruct (r user_text) as [[|d docs]|e]; eexists; reflexivity.
Qed.

Lemma retrieve_degraded (w : World) (user_text : str) :
  retriever w = None \/
  (exists r e, retriever w = Some r /\ r user_text = Raise e) ->
  result (retrieve w user_text) = Ok [].
Proof.
  unfold retrieve. intros [H|(r & e & H & Hr)]; rewrite H; [reflexivity|].
  cbn. now rewrite Hr.
Qed.

(** C9. [build_rag_answer] never raises.  Without a retriever (no index
    directory, or loading it failed at start-up), or when the similarity
    search raises, the context is empty, the language model is still
    invoked and its text is the answer; when the language model raises,
    the answer is the fixed apology. *)
Theorem rag_never_raises (w : World) (user_text : str) :
  (forall load, init_retriever false load = None) /\
  (forall e, init_retriever true (Raise e) = None) /\
  (exists answer, result (build_rag_answer w user_text) = Ok answer) /\
  (retriever w = None \/
   (exists r e, retriever w = Some r /\ r user_text = Raise e) ->
     result (retrieve w user_text) = Ok [] /\
     In (LlmInvoke (RagPrompt user_text [])) (trace (build_rag_answer w user_text)) /\
     (forall content, llm_invoke w (RagPrompt user_text []) = Ok content ->
        result (build_rag_answer w user_text) = Ok content)) /\
  (forall parts t e,
     retrieve w user_text = (Ok parts, t) ->
     llm_invoke w (RagPrompt user_text (join context_separator parts)) = Raise e ->
     result (build_rag_answer w user_text) = Ok rag_apology).
Proof.
  split; [reflexivity|]. split; [reflexivity|].
  split; [|split].
  - unfold build_rag_answer.
    destruct (retrieve_ok w user_text) as [parts Hp].
    destruct (retrieve w user_text) as [r t]. cbn in Hp. subst r.
    cbn. unfold invoke_llm.
    destruct (llm_invoke w _); cbn; eexists; reflexivity.
  - intros H. pose proof (@retrieve_degraded w user_text H) as Hr.
    split; [exact Hr|].
    unfold build_rag_answer.
    destruct (retrieve w user_text) as [r t]. cbn in Hr. subst r.
    cbn. unfold invoke_llm. split.
    + destruct (llm_invoke w _); cbn; apply in_or_app; right; left; reflexivity.
    + intros content Hc. now rewrite Hc.
  - intros parts t e Hr Hl. unfold build_rag_answer. rewrite Hr.
    cbn. unfold invoke_llm. now rewrite Hl.
Qed.

Lemma rag_never_raises_witness :
  result (build_rag_answer Sample.online (u "hvad er vores ferieregler?"))
    = Ok (u "svar") /\
  result (build_rag_answer Sample.offline (u "hvad er vores ferieregler?"))
    = Ok rag_apology.
Proof.
  split.
  - apply (proj2 (proj2 (proj1 (proj2 (proj2 (proj2
             (rag_never_raises Sample.online (u "hvad er vores ferieregler?")))))
             (or_introl eq_refl)))).
    reflexivity.
  - exact (proj2 (proj2 (proj2 (proj2
             (rag_never_raises Sample.offline (u "hvad er vores ferieregler?")))))
             _ _ _ eq_refl eq_refl).
Defined.

End RagFacts.

(** ** The corpus indexer *)

Module IndexFacts.
Import Py Eff BuildIndex PyFacts.

(** A page is blank when its extracted text is empty or white space only. *)
Definition blank (p : Page) : bool := forallb isspace (extract_text p).

Lemma load_page_blank (filename : str) (n : nat) (p : Page) :
  blank p = true -> load_page filename n p = [].
Proof.
  unfold blank, load_page, strip. intros H.
  now rewrite (strip_by_blank _ _ H).
Qed.

Lemma load_page_nonblank (filename : str) (n : nat) (p : Page) :
  blank p = false ->
  load_page filename n p =
    [(strip (extract_text p), {| source := filename; page := n + 1 |})] /\
  strip (extract_text p) <> [].
Proof.
  unfold blank, load_page. intros H.
  destruct (strip (extract_text p)) as [|c r] eqn:E.
  - apply strip_by_nil_blank in E. congruence.
  - split; [reflexivity | discriminate].
Qed.

Lemma load_pages_from_length (filename : str) (pages : list Page) (n : nat) :
  length (flat_map (fun np => load_page filename (fst np) (snd np))
                   (enumerate_from n pages))
  = length (filter (fun p => negb (blank p)) pages).
Proof.
  revert n; induction pages as [|p pages IH]; intros n; simpl; [reflexivity|].
  rewrite length_app, IH.
  destruct (blank p) eqn:E; simpl.
  - now rewrite (load_page_blank _ _ _ E).
  - now rewrite (proj1 (load_page_nonblank filename n _ E)).
Qed.

Lemma load_pages_from_In (filename : str) (pages : list Page) (n : nat)
      (t : str) (m : PageMeta) :
  In (t, m) (flat_map (fun np => load_page filename (fst np) (snd np))
                      (enumerate_from n pages)) ->
  exists i p, nth_error pages i = Some p /\ blank p = false /\
              t = strip (extract_text p) /\ t <> [] /\
              source m = filename /\ page m = n + i + 1.
Proof.
  revert n; induction pages as [|p pages IH]; intros n; simpl; [tauto|].
  rewrite in_app_iff. intros [H|H].
  - destruct (blank p) eqn:E.
    + rewrite (load_page_blank _ _ _ E) in H. destruct H.
    + destruct (load_page_nonblank filename n _ E) as [Hl Hne].
      rewrite Hl in H. destruct H as [H|[]]. injection H as <- <-.
      exists 0, p. cbn. repeat split; auto; lia.
  - destruct (IH _ H) as (i & q & Hi & Hb & Ht & Hne & Hs & Hp).
    exists (S i), q. cbn. repeat split; auto; lia.
Qed.

Lemma enumerate_from_In {A} (xs : list A) (n k : nat) (x : A) :
  In (k, x) (enumerate_from n xs) -> exists i, k = n + i /\ nth_error xs i = Some x.
Proof.
  revert n; induction xs as [|y xs IH]; intros n; simpl; [tauto|].
  intros [H|H].
  - injection H as <- <-. exists 0. split; [lia | reflexivity].
  - destruct (IH _ H) as (i & -> & Hi). exists (S i). split; [lia | exact Hi].
Qed.

(** What a file contributes when its pages can be enumerated. *)
Definition file_pages (entry : str * Pdf) : list (str * PageMeta) :=
  match snd entry with
  | Readable pages => load_pages (fst entry) pages
  | _ => []
  end.

(** The enumeration of the file's pages does not raise. *)
Definition pages_ok (entry : str * Pdf) : Prop :=
  forall pages e, snd entry <> PagesFail pages e.

Lemma load_file_ok (entry : str * Pdf) (loaded : list (str * PageMeta)) :
  load_file entry = Ok loaded -> loaded = file_pages entry /\ pages_ok entry.
Proof.
  unfold load_file, file_pages, pages_ok.
  destruct (snd entry) as [err|pages|pages e]; intros H; try discriminate;
    injection H as <-; split; try reflexivity; intros ps e'; discriminate.
Qed.

Lemma load_file_raise (entry : str * Pdf) (e : Exn) :
  load_file entry = Raise e <-> exists pages, snd entry = PagesFail pages e.
Proof.
  unfold load_file. destruct (snd entry) as [err|pages|pages e0]; split;
    try discriminate; try (intros [ps H]; discriminate).
  - intros H. injection H as <-. now exists pages.
  - intros [ps H]. now injection H as _ <-.
Qed.

Lemma load_files_ok (pdf_files : list (str * Pdf)) (loaded : list (str * PageMeta)) :
  load_files pdf_files = Ok loaded ->
  loaded = flat_map file_pages pdf_files /\ Forall pages_ok pdf_files.
Proof.
  revert loaded; induction pdf_files as [|entry l IH]; intros loaded H; cbn in H.
  - injection H as <-. split; [reflexivity | constructor].
  - destruct (load_file entry) as [x|e] eqn:Ex; [|discriminate].
    destruct (load_files l) as [more|e]; [|discriminate].
    injection H as <-. destruct (load_file_ok _ Ex) as [-> Hok].
    destruct (IH more eq_refl) as [-> Hall].
    split; [reflexivity | now constructor].
Qed.

Lemma load_files_total (pdf_files : list (str * Pdf)) :
  Forall pages_ok pdf_files ->
  load_files pdf_files = Ok (flat_map file_pages pdf_files).
Proof.
  induction 1 as [|entry l Hok Hall IH]; [reflexivity|].
  cbn [load_files flat_map]. rewrite IH.
  unfold load_file, file_pages. unfold pages_ok in Hok.
  destruct (snd entry) as [err|pages|pages e]; try reflexivity.
  now destruct (Hok pages e).
Qed.

(** The file loop raises the exception of the first file whose pages
    cannot be enumerated. *)
Lemma load_files_raise (pdf_files : list (str * Pdf)) (e : Exn) :
  load_files pdf_files = Raise e <->
  exists earlier name pages later,
    pdf_files = earlier ++ (name, PagesFail pages e) :: later /\
    Forall pages_ok earlier.
Proof.
  split.
  - induction pdf_files as [|entry l IH]; cbn; [discriminate|].
    destruct (load_file entry) as [x|e0] eqn:Ex.
    + destruct (load_files l) as [more|e1]; [discriminate|].
      intros H. injection H as ->.
      destruct (IH eq_refl) as (earlier & name & pages & later & -> & Hall).
      exists (entry :: earlier), name, pages, later. split; [reflexivity|].
      constructor; [now destruct (load_file_ok _ Ex) | exact Hall].
    + intros H. injection H as ->.
      apply load_file_raise in Ex as [pages Hp].
      exists [], (fst entry), pages, l. split; [|constructor].
      cbn. f_equal. destruct entry as [n p]. cbn in *. now rewrite Hp.
  - intros (earlier & name & pages & later & -> & Hall).
    induction Hall as [|entry l Hok Hall IH]; cbn; [reflexivity|].
    rewrite IH.
    unfold load_file. unfold pages_ok in Hok.
    destruct (snd entry) as [err|ps|ps e0]; try reflexivity.
    now destruct (Hok ps e0).
Qed.

(** Every chunk produced by the split comes out of the text of one page
    and carries that page's source and number. *)
Lemma split_one_In (split_text : str -> list str) (tm : str * PageMeta)
      (c : str) (m : ChunkMeta) :
  In (c, m) (split_one split_text tm) ->
  nth_error (split_text (fst tm)) (chunk m) = Some c /\
  chunk_source m = source (snd tm) /\ chunk_page m = page (snd tm).
Proof.
  unfold split_one. rewrite in_map_iff. intros ([i c'] & E & Hin).
  cbn in E. injection E as <- <-. cbn.
  destruct (enumerate_from_In _ _ _ _ Hin) as (j & -> & Hj). auto.
Qed.

(** C8. A page whose extracted text is empty or white space only adds no
    text and no metadata, so no chunk: a file contributes one entry per
    non-blank page, each carrying the file name and the page number.  A
    PDF of three non-blank pages, each shorter than the chunk size, is
    split into exactly three chunks, one per page, with chunk index 0
    (given a splitter that returns a short stripped text as its only
    chunk).  Every chunk comes out of the text of a single page. *)
Theorem blank_pages_and_page_chunks :
  (forall filename n p, blank p = true -> load_page filename n p = []) /\
  (forall filename pages,
     length (load_pages filename pages)
       = length (filter (fun p => negb (blank p)) pages) /\
     forall t m, In (t, m) (load_pages filename pages) ->
       exists i p, nth_error pages i = Some p /\ blank p = false /\
                   t = strip (extract_text p) /\
                   source m = filename /\ page m = i + 1) /\
  (forall (sp : Splitter) (size overlap : Z) (split_text : str -> list str)
          (filename t1 t2 t3 : str),
     sp size overlap = Ok split_text ->
     (forall t, t <> [] -> strip t = t -> (Z.of_nat (length t) < size)%Z ->
                split_text t = [t]) ->
     endswith (u ".pdf") (lower filename) = true ->
     (forall t, In t [t1; t2; t3] ->
                forallb isspace t = false /\ (Z.of_nat (length t) < size)%Z) ->
     exists texts metas,
       load_pdf_texts
         (Directory [(filename, Readable [Extracted (Some t1);
                                          Extracted (Some t2);
                                          Extracted (Some t3)])])
         = Ok (texts, metas) /\
       split_texts sp texts metas size overlap =
         Ok ([strip t1; strip t2; strip t3],
             [{| chunk_source := filename; chunk_page := 1; chunk := 0 |};
              {| chunk_source := filename; chunk_page := 2; chunk := 0 |};
              {| chunk_source := filename; chunk_page := 3; chunk := 0 |}])) /\
  (forall (sp : Splitter) (size overlap : Z) (split_text : str -> list str)
          texts metas chunks cmetas,
     sp size overlap = Ok split_text ->
     split_texts sp texts metas size overlap = Ok (chunks, cmetas) ->
     forall c m, In (c, m) (combine chunks cmetas) ->
       exists t pm, In (t, pm) (combine texts metas) /\
                    nth_error (split_text t) (chunk m) = Some c /\
                    chunk_source m = source pm /\ chunk_page m = page pm).
Proof.
  split; [exact load_page_blank|]. split; [|split].
  - intros filename pages. split; [apply load_pages_from_length|].
    intros t m H.
    destruct (load_pages_from_In _ _ _ _ _ H) as (i & p & Hi & Hb & Ht & _ & Hs & Hp).
    exists i, p. auto.
  - intros sp size overlap split_text filename t1 t2 t3 Hsp Hshort Hpdf Hpages.
    assert (Hone : forall t n, In t [t1; t2; t3] ->
              load_page filename n (Extracted (Some t))
                = [(strip t, {| source := filename; page := n + 1 |})] /\
              split_text (strip t) = [strip t]).
    { intros t n Hin. destruct (Hpages t Hin) as [Hb Hlen].
      destruct (load_page_nonblank filename n (Extracted (Some t)) Hb) as [Hl Hne].
      split; [exact Hl|]. cbn in Hne.
      apply Hshort; [exact Hne | apply strip_by_idem |].
      pose proof (strip_by_length isspace t) as Hle. unfold strip. lia. }
    exists [strip t1; strip t2; strip t3],
           [{| source := filename; page := 1 |};
            {| source := filename; page := 2 |};
            {| source := filename; page := 3 |}].
    split.
    { unfold load_pdf_texts. cbn [filter].
      unfold is_pdf at 1. cbn [fst]. rewrite Hpdf.
      cbn [load_files load_file snd fst].
      unfold load_pages. cbn [enumerate_from flat_map fst snd].
      rewrite (proj1 (Hone t1 0 ltac:(simpl; auto))).
      rewrite (proj1 (Hone t2 1 ltac:(simpl; auto))).
      rewrite (proj1 (Hone t3 2 ltac:(simpl; auto))).
      reflexivity. }
    unfold split_texts. rewrite Hsp. cbn [combine flat_map].
    unfold split_one. cbn [fst snd source page].
    rewrite (proj2 (Hone t1 0 ltac:(simpl; auto))).
    rewrite (proj2 (Hone t2 0 ltac:(simpl; auto))).
    rewrite (proj2 (Hone t3 0 ltac:(simpl; auto))).
    reflexivity.
  - intros sp size overlap split_text texts metas chunks cmetas Hsp Hsplit c m Hin.
    unfold split_texts in Hsplit. rewrite Hsp in Hsplit.
    injection Hsplit as Hsplit.
    apply split_combine in Hsplit. rewrite Hsplit in Hin.
    apply in_flat_map in Hin as ([t pm] & Htm & Hc).
    exists t, pm. split; [exact Htm|]. now apply split_one_In in Hc.
Qed.

(** C10. When loading raises or yields no page text, or the embedding
    client cannot be initialised, the build ends before the index directory
    is touched: the directory is as it was and nothing was deleted or
    written.  Deletion happens only after both steps succeeded. *)
Theorem early_failure_keeps_index (w : World) (db0 : DbDir) :
  ((exists e, load_pdf_texts (DATA_DIR w) = Raise e) \/
   (exists metas, load_pdf_texts (DATA_DIR w) = Ok ([], metas)) \/
   embeddings_init w <> None ->
     db (main w db0) = db0 /\
     ~ In Rmtree (events (main w db0)) /\
     (forall ts ms, ~ In (FromTexts ts ms) (events (main w db0)))) /\
  (In Rmtree (events (main w db0)) ->
     (exists t texts metas, load_pdf_texts (DATA_DIR w) = Ok (t :: texts, metas)) /\
     embeddings_init w = None).
Proof.
  unfold main.
  destruct (load_pdf_texts (DATA_DIR w)) as [[texts metas]|e0].
  2:{ split; [intros _ | intros H]; cbn in *;
        intuition (try discriminate; try congruence). }
  destruct texts as [|t0 texts].
  { split; [intros _ | intros H]; cbn in *;
      intuition (try discriminate; try congruence). }
  destruct (split_texts _ _ _ _ _) as [[chunks cmetas]|e].
  2:{ split; [intros _ | intros H]; cbn in *;
        intuition (try discriminate; try congruence). }
  destruct (embeddings_init w) as [e|].
  { split; [intros _ | intros H]; cbn in *;
      intuition (try discriminate; try congruence). }
  split.
  - intros [[e H]|[[ms H]|H]]; congruence.
  - intros _. split; [now exists t0, texts, metas | reflexivity].
Qed.

Lemma blank_pages_and_page_chunks_witness :
  split_texts Sample.cut_splitter
    [u "Side et"; u "Side to"; u "Side tre"]
    [ {| source := u "Personale.PDF"; page := 1 |};
      {| source := u "Personale.PDF"; page := 2 |};
      {| source := u "Personale.PDF"; page := 3 |} ] 1000 200
  = Ok ([u "Side et"; u "Side to"; u "Side tre"],
        [ {| chunk_source := u "Personale.PDF"; chunk_page := 1; chunk := 0 |};
          {| chunk_source := u "Personale.PDF"; chunk_page := 2; chunk := 0 |};
          {| chunk_source := u "Personale.PDF"; chunk_page := 3; chunk := 0 |} ]).
Proof.
  assert (Hshort : forall t, t <> [] -> strip t = t -> (Z.of_nat (length t) < 1000)%Z ->
                             Sample.cut_text 1000 t = [t]).
  { intros t Hne Hstrip Hlen. unfold Sample.cut_text. rewrite Hstrip.
    destruct t as [|c t]; [congruence|].
    apply Z.ltb_lt in Hlen. rewrite Hlen. reflexivity. }
  assert (Hpages : forall t, In t [u "  Side et "; u "Side to"; u "Side tre  "] ->
                             forallb isspace t = false /\ (Z.of_nat (length t) < 1000)%Z).
  { intros t [<-|[<-|[<-|[]]]]; split; vm_compute; reflexivity. }
  destruct (proj1 (proj2 (proj2 blank_pages_and_page_chunks))
              Sample.cut_splitter 1000%Z 200%Z (Sample.cut_text 1000)
              (u "Personale.PDF")
              (u "  Side et ") (u "Side to") (u "Side tre  ")
              eq_refl Hshort eq_refl Hpages) as (texts & metas & Hload & Hsplit).
  vm_compute in Hload. injection Hload as <- <-. exact Hsplit.
Defined.

Lemma early_failure_keeps_index_witness :
  db (main Sample.failing_build Sample.old_index) = Sample.old_index.
Proof.
  exact (proj1 (proj1 (early_failure_keeps_index Sample.failing_build Sample.old_index)
                  (or_intror (or_introl (ex_intro _ [] eq_refl))))).
Defined.

End IndexFacts.

(** ** The entity extractor *)

Module ExtractFacts.
Import Py Re Extract PyFacts.

(** The text the rules work on: trimmed, leading dashes removed, trimmed. *)
Definition normalized (text : str) : str :=
  strip (lstrip_chars (u "-–— ") (strip text)).

(** No pattern is recognised and there is no capitalized word: the three
    searches of the first rules fail, no connector occurs, and the search
    for a capitalized word fails. *)
Definition falls_through (text : str) : bool :=
  let t := normalized text in
  match search kunde_stop_re t, search kunde_re t, search find_re t,
        search capitalized_re t with
  | None, None, None, None => negb (earliest_connector t (lower t) <? length t)%nat
  | _, _, _, _ => false
  end.

Lemma extract_stripped (text : str) :
  exists x, extract_customer_name text = strip_chars punct x.
Proof.
  unfold extract_customer_name. cbv zeta.
  destruct (search kunde_stop_re _); [eexists; reflexivity|].
  destruct (search kunde_re _); [eexists; reflexivity|].
  destruct (search find_re _); [eexists; reflexivity|].
  destruct (_ <? _)%nat; [eexists; reflexivity|].
  destruct (search capitalized_re _); [eexists; reflexivity|].
  destruct (List.find _ _); eexists; reflexivity.
Qed.

Lemma extract_falls_through (text : str) :
  falls_through text = true ->
  extract_customer_name text =
    match List.find meaningful (split (normalized text)) with
    | Some part => strip_chars punct part
    | None => strip_chars punct (normalized text)
    end.
Proof.
  unfold falls_through, extract_customer_name. cbv zeta. fold (normalized text).
  destruct (search kunde_stop_re _); [discriminate|].
  destruct (search kunde_re _); [discriminate|].
  destruct (search find_re _); [discriminate|].
  destruct (search capitalized_re _); [discriminate|].
  destruct (_ <? _)%nat; [discriminate|]. reflexivity.
Qed.

Lemma isalnum_not_punct (c : N) : isalnum c = true -> mem c punct = false.
Proof.
  intros H. destruct (mem c punct) eqn:E; [|reflexivity].
  change punct with [32; 63; 33; 46; 58; 44; 59]%N in E.
  unfold mem in E. cbn [existsb] in E.
  repeat (apply orb_prop in E as [E|E]);
    try discriminate; apply N.eqb_eq in E; subst c; discriminate.
Qed.

Lemma meaningful_head (part : str) :
  meaningful part = true -> exists c r, part = c :: r /\ isalnum c = true.
Proof.
  unfold meaningful, starts_alnum. intros H.
  apply andb_prop in H as [_ H].
  destruct part as [|c r]; [discriminate|]. now exists c, r.
Qed.

(** C5. The extractor maps "kunden Acme Corp i monday" to "Acme Corp" and
    "find TechNova og giv status" to "TechNova"; it is a total function
    and its result never ends with "?".  On an input with no recognised
    pattern and no capitalized word, such as "hvad er status", the result
    is not empty as soon as the trimmed text has a character other than
    those of " ?!.:,;"; and when the text has a word of more than two
    characters starting with a letter or digit, the result is the first
    such word with the punctuation stripped, which is not empty and does
    not start with "-". *)
Theorem extract_examples_and_fallback :
  extract_customer_name (u "kunden Acme Corp i monday") = u "Acme Corp" /\
  extract_customer_name (u "find TechNova og giv status") = u "TechNova" /\
  (falls_through (u "hvad er status") = true /\
   extract_customer_name (u "hvad er status") = u "hvad") /\
  (forall text a, extract_customer_name text <> a ++ u "?") /\
  (forall text,
     falls_through text = true ->
     forallb (fun c => mem c punct) (normalized text) = false ->
     extract_customer_name text <> []) /\
  (forall text part,
     falls_through text = true ->
     List.find meaningful (split (normalized text)) = Some part ->
     extract_customer_name text = strip_chars punct part /\
     extract_customer_name text <> [] /\
     (forall b, extract_customer_name text <> u "-" ++ b)).
Proof.
  split; [vm_compute; reflexivity|].
  split; [vm_compute; reflexivity|].
  split; [split; vm_compute; reflexivity|].
  split; [|split].
  - intros text a H.
    destruct (extract_stripped text) as [x Hx]. rewrite Hx in H.
    apply strip_by_last in H. vm_compute in H. discriminate.
  - intros text Hft Hchars.
    rewrite (extract_falls_through _ Hft).
    destruct (List.find meaningful (split (normalized text))) as [part|] eqn:Hfind.
    + apply find_some in Hfind as [_ Hm].
      destruct (meaningful_head _ Hm) as (c & r & -> & Hc).
      destruct (@strip_by_keep_head (fun c => mem c punct) c r
                  (@isalnum_not_punct c Hc)) as [r' Hr'].
      unfold strip_chars. rewrite Hr'. discriminate.
    + intros E. apply strip_by_nil_blank in E. congruence.
  - intros text part Hft Hfind.
    rewrite (extract_falls_through _ Hft), Hfind.
    apply find_some in Hfind as [_ Hm].
    destruct (meaningful_head _ Hm) as (c & r & -> & Hc).
    destruct (@strip_by_keep_head (fun c => mem c punct) c r
                (@isalnum_not_punct c Hc)) as [r' Hr'].
    unfold strip_chars. rewrite Hr'.
    split; [reflexivity|]. split; [discriminate|].
    intros b E. injection E as -> _. vm_compute in Hc. discriminate.
Qed.

Lemma extract_examples_and_fallback_witness :
  extract_customer_name (u "hvad er status") = strip_chars punct (u "hvad") /\
  extract_customer_name (u "hvad er status") <> [].
Proof.
  destruct (proj2 (proj2 (proj2 (proj2 (proj2 extract_examples_and_fallback))))
              (u "hvad er status") (u "hvad") eq_refl eq_refl) as (H1 & H2 & _).
  exact (conj H1 H2).
Defined.

(** The last-resort rule on words that start with a letter outside
    Latin-1: the first word of more than two characters is returned. *)
Example extract_beyond_latin1 :
  falls_through (u "žlutý kůň") = true /\
  extract_customer_name (u "žlutý kůň") = u "žlutý" /\
  extract_customer_name (u "– er čaj klar?") = u "čaj".
Proof. repeat split; vm_compute; reflexivity. Qed.

(** C5, as stated, fails: the empty message has no recognised pattern and
    no capitalized word, and the result is empty; and a message of a dash,
    a tab and "-ab" yields "-ab", which starts with a dash. *)
Lemma extract_fallback_counterexample :
  (falls_through [] = true /\ extract_customer_name [] = []) /\
  (falls_through (u "-" ++ [9%N] ++ u "-ab") = true /\
   extract_customer_name (u "-" ++ [9%N] ++ u "-ab") = u "-ab").
Proof.
  split; split; vm_compute; reflexivity.
Qed.

(** C6. The third rule is searched with IGNORECASE, so its class [A-Z]
    also accepts lower-case letters: on "find acme" the two customer-word
    rules fail, the third rule captures "acme" and that is the result,
    whereas the last-resort rule would have produced "find".  On "find
    status for Novo i monday" the rule captures "status", where the
    connector rule would have produced "Novo". *)
Theorem find_rule_captures_lowercase :
  search kunde_stop_re (u "find acme") = None /\
  search kunde_re (u "find acme") = None /\
  search find_re (u "find acme")
    = Some {| m_start := 0; m_end := 9; group1 := Some (u "acme") |} /\
  extract_customer_name (u "find acme") = u "acme" /\
  List.find meaningful (split (u "find acme")) = Some (u "find") /\
  extract_customer_name (u "find status for Novo i monday") = u "status" /\
  strip_chars punct
    (before_connector (u "find status for Novo i monday")
       (earliest_connector (u "find status for Novo i monday")
                           (lower (u "find status for Novo i monday"))))
    = u "Novo".
Proof.
  repeat split; vm_compute; reflexivity.
Qed.

End ExtractFacts.

(* ================================================================== *)
(** * Further properties of the handlers and the client                 *)
(* ================================================================== *)

(** ** What a computation does to its collaborators *)

Module TraceFacts.
Import Py Eff Data.

Definition is_log (ev : Event) : bool :=
  match ev with Log _ _ => true | _ => false end.

(** The trace without its log lines: the calls made to the CRM, the
    retriever, the language model and the chat, in order. *)
Definition externals (t : list Event) : list Event :=
  filter (fun ev => negb (is_log ev)) t.

Definition is_llm (ev : Event) : bool :=
  match ev with LlmInvoke _ => true | _ => false end.

Definition is_retrieval (ev : Event) : bool :=
  match ev with RetrieverInvoke _ => true | _ => false end.

Definition is_chat (ev : Event) : bool :=
  match ev with Say _ _ | ChatPostMessage _ _ _ => true | _ => false end.

Definition count (p : Event -> bool) (t : list Event) : nat := length (filter p t).

Lemma externals_app (t1 t2 : list Event) :
  externals (t1 ++ t2) = externals t1 ++ externals t2.
Proof. apply filter_app. Qed.

Lemma result_bind {A B} (m : M A) (f : A -> M B) :
  result (bind m f) =
  match result m with Ok a => result (f a) | Raise e => Raise e end.
Proof.
  destruct m as [[a|e] t]; cbn; [|reflexivity]. now destruct (f a).
Qed.

Lemma trace_bind {A B} (m : M A) (f : A -> M B) :
  trace (bind m f) =
  trace m ++ match result m with Ok a => trace (f a) | Raise _ => [] end.
Proof.
  destruct m as [[a|e] t]; cbn; [|now rewrite app_nil_r]. now destruct (f a).
Qed.

Lemma result_try {A} (m : M A) (h : Exn -> M A) :
  result (try_except m h) =
  match result m with Ok a => Ok a | Raise e => result (h e) end.
Proof.
  destruct m as [[a|e] t]; cbn; [reflexivity|]. now destruct (h e).
Qed.

Lemma trace_try {A} (m : M A) (h : Exn -> M A) :
  trace (try_except m h) =
  trace m ++ match result m with Ok _ => [] | Raise e => trace (h e) end.
Proof.
  destruct m as [[a|e] t]; cbn; [now rewrite app_nil_r|]. now destruct (h e).
Qed.

Lemma externals_bind {A B} (m : M A) (f : A -> M B) :
  externals (trace (bind m f)) =
  externals (trace m) ++
  match result m with Ok a => externals (trace (f a)) | Raise _ => [] end.
Proof.
  rewrite trace_bind, externals_app. now destruct (result m).
Qed.

Lemma externals_try {A} (m : M A) (h : Exn -> M A) :
  externals (trace (try_except m h)) =
  externals (trace m) ++
  match result m with Ok _ => [] | Raise e => externals (trace (h e)) end.
Proof.
  rewrite trace_try, externals_app. now destruct (result m).
Qed.

Lemma count_externals (p : Event -> bool) (t : list Event) :
  (forall ev, p ev = true -> is_log ev = false) ->
  count p t = count p (externals t).
Proof.
  intros Hp. unfold count, externals.
  induction t as [|ev t IH]; cbn; [reflexivity|].
  destruct (p ev) eqn:E.
  - rewrite (Hp _ E). cbn. rewrite E. cbn. now rewrite IH.
  - destruct (is_log ev); cbn; [exact IH|]. now rewrite E.
Qed.

End TraceFacts.

(** ** The CRM client: remote calls and search terms *)

Module ClientMore.
Import Py Eff Data MondayClient PyFacts ClientFacts TraceFacts.

Lemma call_monday_externals (w : World) (req : Request) :
  externals (trace (_call_monday w req)) =
  if falsy (MONDAY_API_KEY w) then [] else [HttpPost req].
Proof.
  unfold _call_monday. destruct (falsy (MONDAY_API_KEY w)); [reflexivity|].
  destruct (requests_post w req) as [e|r]; [reflexivity|].
  destruct (errors r); reflexivity.
Qed.

Lemma get_all_items_externals (w : World) (board_id limit : Z) :
  externals (trace (get_all_items w board_id limit)) =
  if falsy (MONDAY_API_KEY w) then [] else [HttpPost (ItemsQuery board_id limit)].
Proof.
  unfold get_all_items. rewrite externals_try, externals_bind, call_monday_externals.
  rewrite result_bind.
  destruct (result (_call_monday w (ItemsQuery board_id limit))) as [d|e].
  - destruct (or_nil _) as [|b bs]; cbn; now rewrite !app_nil_r.
  - cbn. now rewrite !app_nil_r.
Qed.

Lemma search_externals (w : World) (board_id : Z) (text : option str) :
  externals (trace (search_items_by_text w board_id text)) =
  if forallb isspace (or_nil text) || falsy (MONDAY_API_KEY w) then []
  else [HttpPost (ItemsQuery board_id default_limit)].
Proof.
  unfold search_items_by_text.
  destruct (forallb isspace (or_nil text)) eqn:Hb.
  - apply term_empty_iff in Hb. now rewrite Hb.
  - destruct (lower (strip (or_nil text))) as [|c term] eqn:Et.
    + apply term_empty_iff in Et. congruence.
    + rewrite externals_try, externals_bind, get_all_items_externals, result_bind.
      destruct (result (get_all_items w board_id default_limit));
        cbn; now rewrite !app_nil_r.
Qed.

(** X1. Fetching the records of a board performs exactly one request,
    carrying the board and the limit, and none at all when no API key is
    configured; a search performs that one request with the default limit
    of 500, and none when the search text is blank.  There is no retry,
    whatever the outcome of the request. *)
Theorem one_request_per_lookup (w : World) (board_id limit : Z) (text : option str) :
  externals (trace (get_all_items w board_id limit)) =
    (if falsy (MONDAY_API_KEY w) then []
     else [HttpPost (ItemsQuery board_id limit)]) /\
  externals (trace (search_items_by_text w board_id text)) =
    (if forallb isspace (or_nil text) || falsy (MONDAY_API_KEY w) then []
     else [HttpPost (ItemsQuery board_id 500)]).
Proof.
  split; [apply get_all_items_externals | apply search_externals].
Qed.

Lemma Substring_trans (a b c : str) :
  Substring a b -> Substring b c -> Substring a c.
Proof.
  intros (x & y & ->) (x' & y' & ->).
  exists (x' ++ x), (y ++ y'). now rewrite <- !app_assoc.
Qed.

Lemma record_matches_mono (term1 term2 : str) (item : Item) :
  Substring term1 term2 ->
  record_matches term2 item = true -> record_matches term1 item = true.
Proof.
  intros Hsub. rewrite !record_matches_iff.
  intros [H|(cv & Hin & H)]; [left | right; exists cv; split; auto];
    eapply Substring_trans; eauto.
Qed.

Lemma search_result (w : World) (board_id : Z) (text : option str) (c : N) (term : str) :
  lower (strip (or_nil text)) = c :: term ->
  result (search_items_by_text w board_id text) =
  match result (get_all_items w board_id default_limit) with
  | Ok items => Ok (filter (record_matches (c :: term)) items)
  | Raise _ => Ok []
  end.
Proof.
  intros Et. unfold search_items_by_text. rewrite Et.
  destruct (get_all_items w board_id default_limit) as [[items|e] t]; cbn;
    [now rewrite items_loop_filter | reflexivity].
Qed.

(** X2. Narrowing the search term never adds records: when the
    normalised term of one search occurs inside the normalised term of
    another, every record found by the longer term is found by the
    shorter one (against the same board). *)
Theorem narrower_term_fewer_records (w : World) (board_id : Z)
        (text1 text2 : option str) (items1 items2 : list Item) :
  lower (strip (or_nil text1)) <> [] ->
  Substring (lower (strip (or_nil text1))) (lower (strip (or_nil text2))) ->
  result (search_items_by_text w board_id text1) = Ok items1 ->
  result (search_items_by_text w board_id text2) = Ok items2 ->
  incl items2 items1.
Proof.
  intros Hne Hsub H1 H2.
  destruct (lower (strip (or_nil text1))) as [|c1 t1] eqn:E1; [congruence|].
  destruct (lower (strip (or_nil text2))) as [|c2 t2] eqn:E2.
  { destruct Hsub as (a & b & Hab). destruct a; discriminate. }
  rewrite (search_result w board_id text1 E1) in H1.
  rewrite (search_result w board_id text2 E2) in H2.
  destruct (result (get_all_items w board_id default_limit)) as [items|e].
  - injection H1 as <-. injection H2 as <-.
    intros item Hin. apply filter_In in Hin as [Hin Hm].
    apply filter_In. split; [exact Hin|].
    eapply record_matches_mono; eauto.
  - injection H2 as <-. intros item [].
Qed.

Lemma narrower_term_fewer_records_witness :
  incl [Sample.acme] [Sample.acme; Sample.nova].
Proof.
  apply (@narrower_term_fewer_records Sample.online 5085798849
           (Some (u " ACME ")) (Some (u "Acme Corp"))).
  - vm_compute. discriminate.
  - apply contains_iff. vm_compute. reflexivity.
  - vm_compute. reflexivity.
  - vm_compute. reflexivity.
Defined.

End ClientMore.

(** ** The handlers of app.py *)

Module HandlerFacts.
Import Py Eff Data MondayClient Extract App PyFacts TraceFacts ClientMore.

(** The shapes the calls of one reply can take: nothing; one request to
    the CRM; one request for the items followed by one CRM prompt; one
    RAG prompt, possibly after one retrieval. *)
Definition call_shape (calls : list Event) : bool :=
  match calls with
  | [] => true
  | [HttpPost _] => true
  | [HttpPost (ItemsQuery _ _); LlmInvoke (MondayPrompt _ _ _)] => true
  | [LlmInvoke (RagPrompt _ _)] => true
  | [RetrieverInvoke _; LlmInvoke (RagPrompt _ _)] => true
  | _ => false
  end.

(** The text posted for a reply computation: its reply, or the failure
    notice with the text of the exception. *)
Definition posted_text (r : Result str) : str :=
  match r with
  | Ok reply => reply
  | Raise e => u "❌ Der skete en fejl: " ++ exn_str e
  end.

Definition resolved_thread (event : MentionEvent) : option str :=
  match thread_ts event with Some t => Some t | None => ts event end.

Lemma invoke_llm_spec (w : World) (p : Prompt) :
  trace (invoke_llm w p) = [LlmInvoke p] /\
  result (invoke_llm w p) = llm_invoke w p.
Proof.
  unfold invoke_llm. destruct (llm_invoke w p); split; reflexivity.
Qed.

Lemma monday_answer_spec (w : World) (user_text : str)
      (items : list Item) (mode : Mode) :
  externals (trace (build_monday_answer w user_text items mode))
    = [LlmInvoke (MondayPrompt mode (map structure items) user_text)] /\
  result (build_monday_answer w user_text items mode) =
    Ok (match llm_invoke w (MondayPrompt mode (map structure items) user_text) with
        | Ok content => content
        | Raise _ => monday_apology
        end).
Proof.
  unfold build_monday_answer.
  set (prompt := MondayPrompt mode (map structure items) user_text).
  rewrite externals_try, result_try.
  destruct (invoke_llm_spec w prompt) as [Ht Hr]. rewrite Ht, Hr.
  destruct (llm_invoke w prompt); split; reflexivity.
Qed.

(** X3. Formatting CRM records never raises and asks the language model
    exactly once, with the prompt of the requested mode filled with the
    normalised records and the user's text; the answer is the model's
    text, or the fixed apology when the model raises. *)
Theorem monday_answer_one_prompt (w : World) (user_text : str)
        (items : list Item) (mode : Mode) :
  let prompt := MondayPrompt mode (map structure items) user_text in
  externals (trace (build_monday_answer w user_text items mode)) = [LlmInvoke prompt] /\
  result (build_monday_answer w user_text items mode) =
    Ok (match llm_invoke w prompt with
        | Ok content => content
        | Raise _ => monday_apology
        end).
Proof.
  intros prompt. apply monday_answer_spec.
Qed.

Lemma retrieve_spec (w : World) (user_text : str) :
  externals (trace (retrieve w user_text)) =
    match retriever w with Some _ => [RetrieverInvoke user_text] | None => [] end /\
  result (retrieve w user_text) =
    Ok (match retriever w with
        | Some r => match r user_text with
                    | Ok docs => map page_content (firstn 5 docs)
                    | Raise _ => []
                    end
        | None => []
        end).
Proof.
  unfold retrieve. destruct (retriever w) as [r|]; [|split; reflexivity].
  destruct (r user_text) as [[|d docs]|e]; split; reflexivity.
Qed.

(** X4. The context of a RAG answer holds the texts of at most the first
    five retrieved documents, in the retriever's order, joined by the
    separator; the retriever is asked at most once, with the user's text,
    and the language model exactly once, after it. *)
Theorem rag_context_capped (w : World) (user_text : str) :
  exists parts : list str,
    result (retrieve w user_text) = Ok parts /\
    length parts <= 5 /\
    (forall r docs, retriever w = Some r -> r user_text = Ok docs ->
       parts = map page_content (firstn 5 docs)) /\
    externals (trace (build_rag_answer w user_text)) =
      match retriever w with Some _ => [RetrieverInvoke user_text] | None => [] end
      ++ [LlmInvoke (RagPrompt user_text (join context_separator parts))].
Proof.
  destruct (retrieve_spec w user_text) as [Hx Hr].
  eexists. split; [exact Hr|]. split; [|split].
  - destruct (retriever w) as [r|]; [|cbn; lia].
    destruct (r user_text) as [docs|e]; [|cbn; lia].
    rewrite length_map, length_firstn. lia.
  - intros r docs Hw Hd. now rewrite Hw, Hd.
  - unfold build_rag_answer. rewrite externals_bind, Hx, Hr.
    rewrite externals_try.
    match goal with |- context [invoke_llm w ?p] =>
      destruct (invoke_llm_spec w p) as [Ht Hres]; rewrite Ht, Hres;
      destruct (llm_invoke w p) end; cbn; now rewrite ?app_nil_r.
Qed.

Lemma rag_result (w : World) (user_text : str) :
  exists answer, result (build_rag_answer w user_text) = Ok answer.
Proof.
  unfold build_rag_answer. rewrite result_bind.
  destruct (retrieve_spec w user_text) as [_ Hr]. rewrite Hr.
  rewrite result_try.
  match goal with |- context [invoke_llm w ?p] =>
    destruct (invoke_llm_spec w p) as [_ Hres]; rewrite Hres;
    destruct (llm_invoke w p) end; eexists; reflexivity.
Qed.

(** X5. The health check without an API key answers that no key is
    configured and performs no call at all.  With a key it sends the
    identity query once and nothing else: a failed request or an error
    list is raised to the handler, an answer without user data gives the
    could-not-read reply, and user data gives the confirmation naming the
    account. *)
Theorem health_check_outcomes (w : World) :
  (falsy (MONDAY_API_KEY w) = true ->
     monday_health_check w
       = (Ok (u "Jeg har ikke nogen Monday API-nøgle konfigureret."), [])) /\
  (falsy (MONDAY_API_KEY w) = false ->
     externals (trace (monday_health_check w)) = [HttpPost MeQuery] /\
     (forall e, requests_post w MeQuery = RequestFailed e ->
        result (monday_health_check w) = Raise (RequestException e)) /\
     (forall r errs, requests_post w MeQuery = Json r -> errors r = Some errs ->
        result (monday_health_check w)
          = Raise (RuntimeError (u "Monday API error: " ++ errs))) /\
     (forall r, requests_post w MeQuery = Json r -> errors r = None ->
        (match data r with Some d => me d | None => None end) = None ->
        result (monday_health_check w)
          = Ok (u "❌ Jeg kunne ikke læse brugerinfo fra Monday – tjek API-nøglen.")) /\
     (forall r d who, requests_post w MeQuery = Json r -> errors r = None ->
        data r = Some d -> me d = Some who ->
        result (monday_health_check w)
          = Ok (u "✅ Monday-forbindelse virker! Du er logget ind som: "
                  ++ fmt (me_name who) ++ u " (" ++ fmt (me_email who) ++ u ")"))).
Proof.
  split.
  - intros Hk. unfold monday_health_check. now rewrite Hk.
  - intros Hk. unfold monday_health_check. rewrite Hk.
    split; [|split; [|split; [|split]]].
    + rewrite externals_bind, call_monday_externals, Hk.
      destruct (result (_call_monday w MeQuery)) as [d|e]; [|reflexivity].
      destruct (match d with Some d0 => me d0 | None => None end); reflexivity.
    + intros e H. unfold _call_monday. now rewrite Hk, H.
    + intros r errs H He. unfold _call_monday. now rewrite Hk, H, He.
    + intros r H He Hme. unfold _call_monday. rewrite Hk, H, He. cbn.
      now rewrite Hme.
    + intros r d who H He Hd Hme. unfold _call_monday. rewrite Hk, H, He, Hd. cbn.
      now rewrite Hme.
Qed.

Lemma health_check_outcomes_witness :
  result (monday_health_check Sample.online)
    = Ok (u "✅ Monday-forbindelse virker! Du er logget ind som: Luther (None)") /\
  result (monday_health_check Sample.offline)
    = Raise (RequestException (u "timeout")).
Proof.
  destruct (proj2 (health_check_outcomes Sample.online) eq_refl)
    as (_ & _ & _ & _ & H).
  destruct (proj2 (health_check_outcomes Sample.offline) eq_refl)
    as (_ & H' & _).
  split.
  - exact (H _ _ _ eq_refl eq_refl eq_refl eq_refl).
  - exact (H' _ eq_refl).
Defined.

Lemma fetch_items_spec (w : World) (fs : FetchStrategy) :
  externals (trace (fetch_items w fs)) =
    match fs with
    | AllRecords =>
        externals (trace (get_all_items w (CUSTOMER_BOARD_ID w) default_limit))
    | SearchByName term =>
        externals (trace (search_items_by_text w (CUSTOMER_BOARD_ID w) (Some term)))
    end /\
  result (fetch_items w fs) =
    match fs with
    | AllRecords => result (get_all_items w (CUSTOMER_BOARD_ID w) default_limit)
    | SearchByName term =>
        result (search_items_by_text w (CUSTOMER_BOARD_ID w) (Some term))
    end.
Proof.
  destruct fs as [|term]; unfold fetch_items;
    rewrite externals_bind, result_bind; split; reflexivity.
Qed.

Lemma search_never_raises (w : World) (board_id : Z) (text : option str) :
  exists items, result (search_items_by_text w board_id text) = Ok items /\
    (forallb isspace (or_nil text) = true -> items = []) /\
    (forall e, result (get_all_items w board_id default_limit) = Raise e -> items = []).
Proof.
  unfold search_items_by_text.
  destruct (lower (strip (or_nil text))) as [|c term] eqn:Et.
  - exists []. repeat split; auto.
  - rewrite result_try, result_bind.
    destruct (result (get_all_items w board_id default_limit)) as [items|e] eqn:Eg.
    + eexists. split; [reflexivity|]. split.
      * intros Hb. apply ClientFacts.term_empty_iff in Hb. congruence.
      * intros e He. discriminate.
    + exists []. repeat split; auto.
Qed.

Definition not_found : str :=
  u "Jeg kunne ikke finde nogen kunder/leads i Monday, der matcher din forespørgsel.".

Lemma crm_mode_spec (w : World) (user_text lower : str) :
  falsy (MONDAY_API_KEY w) = false ->
  externals (trace (monday_crm_mode w user_text lower)) =
    externals (trace (fetch_items w (fetch_strategy user_text lower))) ++
    match result (fetch_items w (fetch_strategy user_text lower)) with
    | Ok (item :: items) =>
        [LlmInvoke (MondayPrompt (output_mode lower)
                                 (map structure (item :: items)) user_text)]
    | _ => []
    end /\
  result (monday_crm_mode w user_text lower) =
    match result (fetch_items w (fetch_strategy user_text lower)) with
    | Ok [] => Ok not_found
    | Ok (item :: items) =>
        result (build_monday_answer w user_text (item :: items) (output_mode lower))
    | Raise e => Raise e
    end.
Proof.
  intros Hk. unfold monday_crm_mode. rewrite Hk.
  rewrite externals_bind, result_bind.
  destruct (result (fetch_items w (fetch_strategy user_text lower)))
    as [[|item items]|e].
  - split; [reflexivity | unfold not_found; reflexivity].
  - rewrite externals_bind, result_bind.
    cbn [result trace emit log fst snd externals filter is_log negb app].
    destruct (monday_answer_spec w user_text (item :: items) (output_mode lower))
      as [Hx _].
    split; [now rewrite Hx | reflexivity].
  - split; reflexivity.
Qed.

(** X6. A CRM lookup without an API key answers that no key is configured
    and performs no call.  With a key: when no record is found the reply
    is the not-found text and the language model is not asked; a lookup by
    name never raises, a failing CRM request giving the not-found reply;
    a lookup of all records raises what the failing request raised. *)
Theorem crm_lookup_outcomes (w : World) (user_text : str) :
  let lower := Py.lower user_text in
  let board := CUSTOMER_BOARD_ID w in
  (falsy (MONDAY_API_KEY w) = true ->
     monday_crm_mode w user_text lower
       = (Ok (u "Jeg har ikke nogen Monday API-nøgle konfigureret, så jeg kan ikke læse CRM-data endnu."),
          [])) /\
  (falsy (MONDAY_API_KEY w) = false ->
     (result (fetch_items w (fetch_strategy user_text lower)) = Ok [] ->
        result (monday_crm_mode w user_text lower) = Ok not_found /\
        count is_llm (trace (monday_crm_mode w user_text lower)) = 0) /\
     (forall term, fetch_strategy user_text lower = SearchByName term ->
        exists reply, result (monday_crm_mode w user_text lower) = Ok reply) /\
     (forall term e, fetch_strategy user_text lower = SearchByName term ->
        result (get_all_items w board default_limit) = Raise e ->
        result (monday_crm_mode w user_text lower) = Ok not_found) /\
     (forall e, fetch_strategy user_text lower = AllRecords ->
        result (get_all_items w board default_limit) = Raise e ->
        result (monday_crm_mode w user_text lower) = Raise e)).
Proof.
  intros lower board. subst board. split.
  - intros Hk. unfold monday_crm_mode. now rewrite Hk.
  - intros Hk. destruct (crm_mode_spec w user_text lower Hk) as [Hx Hr].
    destruct (fetch_items_spec w (fetch_strategy user_text lower)) as [Hfx Hfr].
    split; [|split; [|split]].
    + intros H0. rewrite H0 in Hx, Hr. split; [exact Hr|].
      rewrite (count_externals is_llm) by (intros [] E; try discriminate; reflexivity).
      rewrite Hx, app_nil_r, Hfx.
      destruct (fetch_strategy user_text lower).
      * rewrite get_all_items_externals. now destruct (falsy _).
      * rewrite search_externals. now destruct (_ || _).
    + intros term Hfs. rewrite Hr, Hfr, Hfs.
      destruct (search_never_raises w (CUSTOMER_BOARD_ID w) (Some term)) as (items & Hi & _).
      rewrite Hi. destruct items as [|item items]; [now eexists|].
      rewrite (proj2 (monday_answer_spec w user_text (item :: items) (output_mode lower))).
      now eexists.
    + intros term e Hfs He. rewrite Hr, Hfr, Hfs.
      destruct (search_never_raises w (CUSTOMER_BOARD_ID w) (Some term))
        as (items & Hi & _ & Hfail).
      rewrite Hi, (Hfail e He). reflexivity.
    + intros e Hfs He. now rewrite Hr, Hfr, Hfs, He.
Qed.

Lemma crm_lookup_outcomes_witness :
  result (monday_crm_mode Sample.offline (u "find Acme i monday")
            (Py.lower (u "find Acme i monday")))
    = Ok not_found /\
  result (monday_crm_mode Sample.offline (u "alle kunder i monday")
            (Py.lower (u "alle kunder i monday")))
    = Raise (RequestException (u "timeout")).
Proof.
  destruct (proj2 (crm_lookup_outcomes Sample.offline (u "find Acme i monday")) eq_refl)
    as (_ & _ & H & _).
  destruct (proj2 (crm_lookup_outcomes Sample.offline (u "alle kunder i monday")) eq_refl)
    as (_ & _ & _ & H').
  split.
  - exact (H (u "Acme") _ eq_refl eq_refl).
  - exact (H' _ eq_refl eq_refl).
Defined.

Lemma filter_externals (p : Event -> bool) (t : list Event) :
  (forall ev, p ev = true -> is_log ev = false) ->
  filter p t = filter p (externals t).
Proof.
  intros Hp. unfold externals.
  induction t as [|ev t IH]; cbn; [reflexivity|].
  destruct (p ev) eqn:E.
  - rewrite (Hp _ E). cbn. rewrite E. now rewrite IH.
  - destruct (is_log ev); cbn; [exact IH|]. now rewrite E.
Qed.

Lemma call_shape_bounds (calls : list Event) :
  call_shape calls = true ->
  filter is_chat calls = [] /\
  count is_remote calls <= 1 /\
  count is_llm calls <= 1 /\
  count is_retrieval calls <= 1 /\
  (count is_remote calls = 0 \/ count is_retrieval calls = 0).
Proof.
  destruct calls as [|e1 [|e2 [|e3 calls]]]; cbn.
  - intros _. repeat split; auto.
  - destruct e1 as [| | |[]| |]; intros H; try discriminate; cbn;
      repeat split; auto.
  - destruct e1 as [|[]|q|[]| |]; try discriminate;
      destruct e2 as [| | |[]| |]; intros H; try discriminate; cbn;
      repeat split; auto.
  - destruct e1 as [|[]|q|[]| |]; try discriminate;
      destruct e2 as [| | |[]| |]; discriminate.
Qed.

Lemma health_check_externals (w : World) :
  externals (trace (monday_health_check w)) =
  if falsy (MONDAY_API_KEY w) then [] else [HttpPost MeQuery].
Proof.
  unfold monday_health_check. destruct (falsy (MONDAY_API_KEY w)) eqn:Hk; [reflexivity|].
  rewrite externals_bind, call_monday_externals, Hk.
  destruct (result (_call_monday w MeQuery)) as [d|e]; [|reflexivity].
  destruct (match d with Some d0 => me d0 | None => None end); reflexivity.
Qed.

Lemma rag_calls (w : World) (user_text : str) :
  exists context,
    externals (trace (build_rag_answer w user_text)) =
      match retriever w with Some _ => [RetrieverInvoke user_text] | None => [] end
      ++ [LlmInvoke (RagPrompt user_text context)].
Proof.
  destruct (retrieve_spec w user_text) as [Hx Hr].
  eexists. unfold build_rag_answer. rewrite externals_bind, Hx, Hr, externals_try.
  match goal with |- context [invoke_llm w ?p] =>
    destruct (invoke_llm_spec w p) as [Ht Hres]; rewrite Ht, Hres;
    destruct (llm_invoke w p) end; cbn; rewrite ?app_nil_r; reflexivity.
Qed.

Lemma reply_calls_shape (w : World) (user_text : str) :
  call_shape (externals (trace (reply_for w user_text))) = true.
Proof.
  unfold reply_for. destruct (category (Py.lower user_text)).
  - rewrite health_check_externals. now destruct (falsy _).
  - destruct (falsy (MONDAY_API_KEY w)) eqn:Hk.
    + unfold monday_crm_mode. now rewrite Hk.
    + destruct (crm_mode_spec w user_text (Py.lower user_text) Hk) as [Hx _].
      rewrite Hx.
      destruct (fetch_items_spec w (fetch_strategy user_text (Py.lower user_text)))
        as [Hfx Hfr].
      rewrite Hfx, Hfr.
      destruct (fetch_strategy user_text (Py.lower user_text)) as [|term].
      * rewrite get_all_items_externals, Hk.
        now destruct (result (get_all_items _ _ _)) as [[|item items]|e].
      * rewrite search_externals, Hk, orb_false_r.
        destruct (search_never_raises w (CUSTOMER_BOARD_ID w) (Some term))
          as (items & Hi & Hblank & _).
        rewrite Hi.
        destruct (forallb isspace (or_nil (Some term))).
        -- now rewrite (Hblank eq_refl).
        -- now destruct items.
  - destruct (rag_calls w user_text) as [context ->].
    now destruct (retriever w).
Qed.

(** X7. Computing one reply calls the collaborators in one of five
    shapes: nothing; one CRM request; one request for the items followed
    by one CRM prompt; one RAG prompt; one retrieval followed by one RAG
    prompt.  So a reply costs at most one CRM request, one retrieval and
    one invocation of the language model, and never uses both the CRM and
    the retriever. *)
Theorem bounded_calls_per_reply (w : World) (user_text : str) :
  let t := trace (reply_for w user_text) in
  call_shape (externals t) = true /\
  count is_remote t <= 1 /\
  count is_llm t <= 1 /\
  count is_retrieval t <= 1 /\
  (count is_remote t = 0 \/ count is_retrieval t = 0).
Proof.
  intros t. pose proof (reply_calls_shape w user_text) as Hs. fold t in Hs.
  destruct (call_shape_bounds _ Hs) as (_ & H1 & H2 & H3 & H4).
  rewrite (count_externals is_remote t), (count_externals is_llm t),
          (count_externals is_retrieval t);
    try (intros [] E; try discriminate; reflexivity).
  auto.
Qed.

Definition thinking_notice : str := u "🤔 Saiborg er i gang med at tænke...".

Lemma handle_mention_spec (w : World) (event : MentionEvent) :
  result (handle_mention w event) = Ok tt /\
  externals (trace (handle_mention w event)) =
    Say thinking_notice (resolved_thread event)
    :: externals (trace (reply_for w (strip_bot_mention w (or_nil (text event)))))
    ++ [ChatPostMessage (channel event)
          (posted_text (result (reply_for w (strip_bot_mention w (or_nil (text event))))))
          (resolved_thread event)].
Proof.
  unfold handle_mention, thinking_notice, resolved_thread. cbv zeta.
  set (user_text := strip_bot_mention w (or_nil (text event))).
  rewrite !result_bind, !externals_bind, result_try, externals_try,
          result_bind, externals_bind.
  cbn [result trace emit log fst snd externals filter is_log negb app].
  destruct (result (reply_for w user_text)) as [reply|e];
    cbn [posted_text]; split; try reflexivity.
  - cbn [result trace emit log fst snd externals filter is_log negb app].
    now rewrite app_nil_r.
  - rewrite externals_bind.
    cbn [result trace emit log fst snd externals filter is_log negb app].
    now rewrite app_nil_r.
Qed.

(** X8. Handling a mention never raises.  It posts the working notice
    first and exactly one message last, both in the event's thread (its
    thread_ts, else its ts), the message in the event's channel: the reply
    when one was computed, otherwise the failure notice carrying the text
    of the exception.  In between it makes only the calls of the reply. *)
Theorem one_reply_per_mention (w : World) (event : MentionEvent) :
  let user_text := strip_bot_mention w (or_nil (text event)) in
  let posted := posted_text (result (reply_for w user_text)) in
  result (handle_mention w event) = Ok tt /\
  externals (trace (handle_mention w event)) =
    Say thinking_notice (resolved_thread event)
    :: externals (trace (reply_for w user_text))
    ++ [ChatPostMessage (channel event) posted (resolved_thread event)] /\
  filter is_chat (trace (handle_mention w event)) =
    [Say thinking_notice (resolved_thread event);
     ChatPostMessage (channel event) posted (resolved_thread event)].
Proof.
  intros user_text posted.
  destruct (handle_mention_spec w event) as [Hr Hx]. fold user_text in Hx.
  fold posted in Hx.
  split; [exact Hr|]. split; [exact Hx|].
  rewrite (filter_externals is_chat) by (intros [] E; try discriminate; reflexivity).
  rewrite Hx. cbn [filter is_chat]. rewrite filter_app.
  destruct (call_shape_bounds _ (reply_calls_shape w user_text)) as (Hc & _).
  now rewrite Hc.
Qed.

End HandlerFacts.

(** ** The column dictionary of a normalised record *)

Module DictFacts.
Import Py Eff Data App PyFacts.

(** [d.get(k)] on a dictionary kept in insertion order. *)
Fixpoint dict_get {V} (k : option str) (d : list (option str * V)) : option V :=
  match d with
  | [] => None
  | (k', v) :: d' => if key_eqb k k' then Some v else dict_get k d'
  end.

Lemma str_eqb_eq (a b : str) : str_eqb a b = true <-> a = b.
Proof.
  unfold str_eqb. split.
  - intros H. apply andb_prop in H as [Hl Hs].
    apply Nat.eqb_eq in Hl. destruct (startswith_inv _ _ Hs) as [r ->].
    rewrite length_app in Hl. destruct r; [now rewrite app_nil_r | cbn in Hl; lia].
  - intros ->. rewrite Nat.eqb_refl. cbn.
    rewrite <- (app_nil_r b) at 2. apply startswith_app.
Qed.

Lemma key_eqb_eq (a b : option str) : key_eqb a b = true <-> a = b.
Proof.
  destruct a as [x|], b as [y|]; cbn; try (split; congruence).
  rewrite str_eqb_eq. split; congruence.
Qed.

Lemma key_eqb_refl (a : option str) : key_eqb a a = true.
Proof. now apply key_eqb_eq. Qed.

Lemma key_eqb_neq (a b : option str) : a <> b -> key_eqb a b = false.
Proof.
  intros H. destruct (key_eqb a b) eqn:E; [|reflexivity].
  apply key_eqb_eq in E. contradiction.
Qed.

Section Dict.
Context {V : Type}.

Lemma dict_get_set_same (k : option str) (v : V) (d : list (option str * V)) :
  dict_get k (dict_set k v d) = Some v.
Proof.
  induction d as [|[k' v'] d IH]; cbn.
  - now rewrite key_eqb_refl.
  - destruct (key_eqb k k') eqn:E; cbn; rewrite ?key_eqb_refl; [reflexivity|].
    now rewrite E.
Qed.

Lemma dict_get_set_other (k k0 : option str) (v : V) (d : list (option str * V)) :
  k <> k0 -> dict_get k (dict_set k0 v d) = dict_get k d.
Proof.
  intros Hne. induction d as [|[k' v'] d IH]; cbn.
  - now rewrite (key_eqb_neq Hne).
  - destruct (key_eqb k0 k') eqn:E; cbn.
    + apply key_eqb_eq in E. subst k'. now rewrite (key_eqb_neq Hne).
    + now rewrite IH.
Qed.

Lemma dict_set_keys (k : option str) (v : V) (d : list (option str * V)) :
  map fst (dict_set k v d) =
  if existsb (key_eqb k) (map fst d) then map fst d else map fst d ++ [k].
Proof.
  induction d as [|[k' v'] d IH]; cbn; [reflexivity|].
  destruct (key_eqb k k') eqn:E; cbn.
  - apply key_eqb_eq in E. now subst k'.
  - rewrite IH. now destruct (existsb (key_eqb k) (map fst d)).
Qed.

Lemma dict_set_NoDup (k : option str) (v : V) (d : list (option str * V)) :
  NoDup (map fst d) -> NoDup (map fst (dict_set k v d)).
Proof.
  intros H. rewrite dict_set_keys.
  destruct (existsb (key_eqb k) (map fst d)) eqn:E; [exact H|].
  apply NoDup_app; [exact H | repeat constructor; intros [] | ].
  intros x Hx [Hk|[]]. subst x.
  assert (existsb (key_eqb k) (map fst d) = true); [|congruence].
  apply existsb_exists. exists k. split; [exact Hx | apply key_eqb_refl].
Qed.

Lemma dict_get_In_keys (k : option str) (d : list (option str * V)) :
  dict_get k d <> None <-> In k (map fst d).
Proof.
  induction d as [|[k' v'] d IH]; cbn; [tauto|].
  destruct (key_eqb k k') eqn:E.
  - apply key_eqb_eq in E. subst k'. split; [auto | discriminate].
  - rewrite IH. split; [auto|]. intros [->|H]; [|exact H].
    rewrite key_eqb_refl in E. discriminate.
Qed.

End Dict.

Lemma find_app_first {A} (p : A -> bool) (l1 l2 : list A) :
  List.find p (l1 ++ l2) =
  match List.find p l1 with Some x => Some x | None => List.find p l2 end.
Proof.
  induction l1 as [|a l1 IH]; cbn; [reflexivity|].
  now destruct (p a).
Qed.

(** The dictionary built by the comprehension over the column values,
    started from [d]. *)
Definition columns_from (cvs : list ColumnValue) (d : list (option str * option str))
  : list (option str * option str) :=
  fold_left (fun d cv => dict_set (cv_id cv) (cv_text cv) d) cvs d.

Lemma columns_from_NoDup (cvs : list ColumnValue) (d : list (option str * option str)) :
  NoDup (map fst d) -> NoDup (map fst (columns_from cvs d)).
Proof.
  revert d; induction cvs as [|cv cvs IH]; intros d H; cbn; [exact H|].
  apply IH. now apply dict_set_NoDup.
Qed.

Lemma columns_from_get (cvs : list ColumnValue) (d : list (option str * option str))
      (k : option str) :
  dict_get k (columns_from cvs d) =
  match List.find (fun cv => key_eqb k (cv_id cv)) (rev cvs) with
  | Some cv => Some (cv_text cv)
  | None => dict_get k d
  end.
Proof.
  revert d; induction cvs as [|cv cvs IH]; intros d; cbn; [reflexivity|].
  unfold columns_from in IH. rewrite IH, find_app_first.
  destruct (List.find _ (rev cvs)); [reflexivity|]. cbn.
  destruct (key_eqb k (cv_id cv)) eqn:E.
  - apply key_eqb_eq in E. subst k. apply dict_get_set_same.
  - apply dict_get_set_other. intros ->. rewrite key_eqb_refl in E. discriminate.
Qed.

(** X9. The columns of a normalised record form a dictionary: no column
    id occurs twice among its keys, a key is present exactly when some
    column value has that id, and looking up an id gives the text of the
    last column value with that id.  Name and id are carried over. *)
Theorem structure_columns_dict (item : Item) :
  let cvs := or_nil (column_values item) in
  let cols := entry_columns (structure item) in
  entry_name (structure item) = item_name item /\
  entry_id (structure item) = item_id item /\
  NoDup (map fst cols) /\
  (forall k, In k (map fst cols) <-> exists cv, In cv cvs /\ cv_id cv = k) /\
  (forall k, dict_get k cols =
             match List.find (fun cv => key_eqb k (cv_id cv)) (rev cvs) with
             | Some cv => Some (cv_text cv)
             | None => None
             end).
Proof.
  intros cvs cols.
  assert (Hget : forall k, dict_get k cols =
             match List.find (fun cv => key_eqb k (cv_id cv)) (rev cvs) with
             | Some cv => Some (cv_text cv)
             | None => None
             end).
  { intros k. exact (columns_from_get cvs [] k). }
  split; [reflexivity|]. split; [reflexivity|].
  split; [exact (@columns_from_NoDup cvs [] (NoDup_nil _))|].
  split; [|exact Hget].
  intros k. rewrite <- dict_get_In_keys, Hget. split.
  - destruct (List.find _ (rev cvs)) as [cv|] eqn:E; [|congruence].
    intros _. apply find_some in E as [Hin Hk].
    exists cv. split; [now apply in_rev | symmetry; now apply key_eqb_eq].
  - intros (cv & Hin & <-).
    destruct (List.find _ (rev cvs)) as [cv'|] eqn:E; [discriminate|].
    apply in_rev in Hin. apply (find_none _ _ E cv) in Hin.
    rewrite key_eqb_refl in Hin. discriminate.
Qed.

End DictFacts.

(** ** Removing the bot mention *)

Module MentionFacts.
Import Py Eff Data App PyFacts.

(** The text of the mention: the bot's user id between angle brackets. *)
Definition mention (w : World) : str := u "<@" ++ BOT_USER_ID w ++ u ">".

Lemma remove_all_skip (pat : str) (n : nat) (s : str) :
  remove_all pat n s = remove_all pat 0 (skipn n s).
Proof.
  revert n; induction s as [|c s IH]; intros [|n]; try reflexivity.
  cbn. apply IH.
Qed.

Lemma remove_all_prefix (pat rest : str) :
  pat <> [] -> remove_all pat 0 (pat ++ rest) = remove_all pat 0 rest.
Proof.
  destruct pat as [|c pat]; [congruence|]. intros _.
  change ((c :: pat) ++ rest) with (c :: (pat ++ rest)).
  cbn [remove_all].
  change (c :: pat ++ rest) with ((c :: pat) ++ rest).
  rewrite startswith_app.
  replace (length (c :: pat) - 1) with (length pat) by (cbn [length]; lia).
  rewrite remove_all_skip, skipn_app, skipn_all, Nat.sub_diag. reflexivity.
Qed.

Lemma remove_all_absent (pat s : str) :
  contains pat s = false -> remove_all pat 0 s = s.
Proof.
  induction s as [|c s IH]; [reflexivity|]. cbn [contains remove_all].
  intros H. apply orb_false_iff in H as [Hs Hc].
  destruct pat as [|p pat]; [discriminate|].
  rewrite Hs. now rewrite (IH Hc).
Qed.

(** X10. Stripping the bot mention yields a trimmed text; a text without
    the mention is only trimmed; a mention at the start is removed, so a
    message made of the mention followed by a text without further mention
    gives that text, trimmed. *)
Theorem strip_bot_mention_cases (w : World) (text : str) :
  strip (strip_bot_mention w text) = strip_bot_mention w text /\
  (contains (mention w) text = false -> strip_bot_mention w text = strip text) /\
  (forall rest, text = mention w ++ rest ->
     strip_bot_mention w text = strip_bot_mention w rest) /\
  (forall rest, text = mention w ++ rest -> contains (mention w) rest = false ->
     strip_bot_mention w text = strip rest).
Proof.
  assert (Hm : mention w <> []) by discriminate.
  unfold strip_bot_mention. fold (mention w).
  split; [apply strip_by_idem|]. split; [|split].
  - intros H. now rewrite remove_all_absent.
  - intros rest ->. now rewrite remove_all_prefix.
  - intros rest -> H. rewrite remove_all_prefix by assumption.
    now rewrite remove_all_absent.
Qed.

Lemma strip_bot_mention_cases_witness :
  strip_bot_mention Sample.online (u "<@U123ABC> find Acme i monday ")
    = u "find Acme i monday".
Proof.
  rewrite (proj2 (proj2 (proj2 (strip_bot_mention_cases Sample.online
             (u "<@U123ABC> find Acme i monday "))))
             (u " find Acme i monday ") eq_refl eq_refl).
  vm_compute. reflexivity.
Defined.

End MentionFacts.

(** ** The entity extractor: shape of every result *)

Module ExtractMore.
Import Py Re Extract PyFacts ExtractFacts.

Lemma strip_by_first (p : N -> bool) (s r : str) (c : N) :
  strip_by p s = c :: r -> p c = false.
Proof.
  unfold strip_by. intros H.
  destruct (lstrip_by p s) as [|d s'] eqn:E; [discriminate|].
  assert (Hd : p d = false) by (eapply lstrip_by_head; eauto).
  destruct (@rstrip_by_keep_head p d s' Hd) as [r' Hr].
  rewrite Hr in H. injection H as <- _. exact Hd.
Qed.

Lemma extract_of_strip (text : str) :
  extract_customer_name (strip text) = extract_customer_name text.
Proof.
  unfold extract_customer_name. cbv zeta.
  replace (strip (strip text)) with (strip text); [reflexivity|].
  unfold strip. now rewrite strip_by_idem.
Qed.

Lemma lstrip_blank_prefix (pre s : str) :
  forallb isspace pre = true ->
  lstrip_by isspace (pre ++ s) = lstrip_by isspace s.
Proof.
  induction pre as [|c pre IH]; intros H; [reflexivity|].
  cbn in H. apply andb_prop in H as [Hc H].
  cbn. rewrite Hc. auto.
Qed.

Lemma rstrip_blank_suffix (s post : str) :
  forallb isspace post = true ->
  rstrip_by isspace (s ++ post) = rstrip_by isspace s.
Proof.
  intros H. unfold rstrip_by. rewrite rev_app_distr. f_equal.
  apply lstrip_blank_prefix. now rewrite forallb_rev.
Qed.

Lemma lstrip_kept_app (s post t' : str) (d : N) :
  lstrip_by isspace s = d :: t' ->
  lstrip_by isspace (s ++ post) = (d :: t') ++ post.
Proof.
  induction s as [|c s IH]; [discriminate|].
  cbn. destruct (isspace c); [exact IH|].
  intros E. injection E as -> ->. reflexivity.
Qed.

Lemma strip_blank_around (pre text post : str) :
  forallb isspace pre = true -> forallb isspace post = true ->
  strip (pre ++ text ++ post) = strip text.
Proof.
  intros Hpre Hpost. unfold strip, strip_by.
  rewrite (@lstrip_blank_prefix pre (text ++ post) Hpre).
  destruct (lstrip_by isspace text) as [|d t'] eqn:Et.
  - assert (Hb : forallb isspace (text ++ post) = true).
    { rewrite forallb_app, Hpost, andb_true_r.
      now apply lstrip_by_nil_forallb. }
    now rewrite (@lstrip_by_blank isspace (text ++ post) Hb).
  - rewrite (@lstrip_kept_app text post t' d Et). now apply rstrip_blank_suffix.
Qed.

(** X11. Whatever rule produces it, the extracted name neither starts nor
    ends with a space or one of the characters ?!.:,; and white space around
    the input does not change it. *)
Theorem extract_result_trimmed (text : str) :
  (forall c r, extract_customer_name text = c :: r -> mem c punct = false) /\
  (forall a c, extract_customer_name text = a ++ [c] -> mem c punct = false) /\
  (forall pre post,
     forallb isspace pre = true -> forallb isspace post = true ->
     extract_customer_name (pre ++ text ++ post) = extract_customer_name text).
Proof.
  destruct (extract_stripped text) as [x Hx].
  split; [|split].
  - intros c r H. rewrite Hx in H. now apply strip_by_first in H.
  - intros a c H. rewrite Hx in H. now apply strip_by_last in H.
  - intros pre post Hpre Hpost.
    rewrite <- (extract_of_strip (pre ++ text ++ post)), <- (extract_of_strip text).
    now rewrite strip_blank_around.
Qed.

Lemma extract_result_trimmed_witness :
  extract_customer_name ([9; 32]%N ++ u "kunden Acme Corp i monday" ++ [10]%N)
    = extract_customer_name (u "kunden Acme Corp i monday").
Proof.
  exact (proj2 (proj2 (extract_result_trimmed (u "kunden Acme Corp i monday")))
           [9; 32]%N [10]%N eq_refl eq_refl).
Defined.

End ExtractMore.

(** ** The corpus indexer: loaded pages, chunks and the rebuild *)

Module IndexMore.
Import Py Eff BuildIndex PyFacts IndexFacts.

(** The metadata of the chunks cut from one page text. *)
Definition chunk_metas (split_text : str -> list str) (tm : str * PageMeta)
  : list ChunkMeta :=
  map (fun i => {| chunk_source := source (snd tm);
                   chunk_page := page (snd tm);
                   chunk := i |})
      (seq 0 (length (split_text (fst tm)))).

(** A build in which every step succeeds: one PDF of three short pages
    (the second blank), beside a file that is not a PDF and a PDF that
    cannot be opened. *)
Definition working_build : World :=
  {| DATA_DIR :=
       Directory [(u "noter.txt", Unreadable (u "not a pdf"));
                  (u "Personale.PDF",
                   Readable [Extracted (Some (u " Ferie: 25 dage "));
                             Extracted (Some (u "  "));
                             Extracted (Some (u "Barsel"))]);
                  (u "defekt.pdf", Unreadable (u "EOF marker not found"))];
     CHUNK_SIZE := 1000;
     CHUNK_OVERLAP := 200;
     text_splitter := Sample.cut_splitter;
     embeddings_init := None;
     rmtree := None;
     from_texts := fun _ _ => None |}.

Lemma split_maps {A B} (l : list (A * B)) :
  List.split l = (map fst l, map snd l).
Proof.
  induction l as [|[a b] l IH]; cbn; [reflexivity|]. now rewrite IH.
Qed.

Lemma map_flat_map {A B C} (g : B -> C) (f : A -> list B) (l : list A) :
  map g (flat_map f l) = flat_map (fun x => map g (f x)) l.
Proof.
  induction l as [|a l IH]; cbn; [reflexivity|]. now rewrite map_app, IH.
Qed.

Lemma enumerate_from_snd {A} (n : nat) (xs : list A) :
  map snd (enumerate_from n xs) = xs.
Proof.
  revert n; induction xs as [|x xs IH]; intros n; cbn; [reflexivity|].
  now rewrite IH.
Qed.

Lemma enumerate_from_fst {A} (n : nat) (xs : list A) :
  map fst (enumerate_from n xs) = seq n (length xs).
Proof.
  revert n; induction xs as [|x xs IH]; intros n; cbn; [reflexivity|].
  now rewrite IH.
Qed.

Lemma combine_fst {A B} (l : list A) (l' : list B) :
  length l = length l' -> map fst (combine l l') = l.
Proof.
  revert l'; induction l as [|a l IH]; intros [|b l'] H; cbn in *;
    try discriminate; [reflexivity|].
  f_equal. apply IH. lia.
Qed.

Lemma flat_map_fst {A B C} (f : A -> list C) (l : list (A * B)) :
  flat_map (fun x => f (fst x)) l = flat_map f (map fst l).
Proof.
  induction l as [|a l IH]; cbn; [reflexivity|]. now rewrite IH.
Qed.

(** X12. When loading returns, the texts and metadata are parallel lists
    of equal length.  Every text is non-empty and has no white space at
    either end; its metadata names a readable file of the directory whose
    name ends in .pdf (in any case) and a page number, at least 1, at which
    that file's page has this text once trimmed.  A missing path, or one
    that is not a directory, loads nothing.  Loading raises exactly when
    the directory cannot be listed, or when the pages of one of its PDF
    files cannot be enumerated: the exception is that of the listing, or of
    the first such file. *)
Theorem loaded_pages_invariants (data_dir : DataDir) :
  (forall texts metas, load_pdf_texts data_dir = Ok (texts, metas) ->
     length texts = length metas /\
     (forall t m, In (t, m) (combine texts metas) ->
        t <> [] /\ strip t = t /\ 1 <= page m /\
        exists entries pages p,
          data_dir = Directory entries /\
          In (source m, Readable pages) entries /\
          endswith (u ".pdf") (lower (source m)) = true /\
          nth_error pages (page m - 1) = Some p /\
          t = strip (extract_text p))) /\
  (data_dir = NoSuchPath \/ data_dir = NotADirectory ->
     load_pdf_texts data_dir = Ok ([], [])) /\
  (forall e, load_pdf_texts data_dir = Raise e <->
     data_dir = ListdirFails e \/
     exists entries earlier name pages later,
       data_dir = Directory entries /\
       filter is_pdf entries = earlier ++ (name, PagesFail pages e) :: later /\
       Forall pages_ok earlier).
Proof.
  split; [|split].
  - intros texts metas Hload.
    destruct data_dir as [| |e0|entries]; cbn [load_pdf_texts] in Hload;
      try discriminate.
    + injection Hload as <- <-. split; [reflexivity | intros t m []].
    + injection Hload as <- <-. split; [reflexivity | intros t m []].
    + destruct (load_files (filter is_pdf entries)) as [loaded|e0] eqn:Hfiles;
        [|discriminate].
      apply load_files_ok in Hfiles as [-> _].
      rewrite split_maps in Hload. injection Hload as <- <-.
      split; [now rewrite !length_map|].
      intros t m Hin.
      assert (Hc : forall l : list (str * PageMeta),
                 combine (map fst l) (map snd l) = l).
      { induction l as [|[a b] l IH]; cbn; [reflexivity|]. now rewrite IH. }
      rewrite Hc in Hin.
      apply in_flat_map in Hin as ([name pdf] & Hentry & Hin).
      apply filter_In in Hentry as [Hentry Hpdf].
      unfold file_pages in Hin. cbn [fst snd] in Hin.
      destruct pdf as [err|pages|pages e0]; try (now destruct Hin).
      destruct (load_pages_from_In _ _ _ _ _ Hin)
        as (i & p & Hi & Hb & Ht & Hne & Hs & Hp).
      split; [exact Hne|]. split; [|split; [lia|]].
      * rewrite Ht. unfold strip. apply strip_by_idem.
      * exists entries, pages, p. rewrite Hs.
        repeat split; auto.
        replace (page m - 1) with i by lia. exact Hi.
  - intros [->| ->]; reflexivity.
  - intros e. destruct data_dir as [| |e0|entries]; cbn [load_pdf_texts].
    + split; [discriminate|].
      intros [H|(entries & earlier & name & pages & later & H & _)]; discriminate.
    + split; [discriminate|].
      intros [H|(entries & earlier & name & pages & later & H & _)]; discriminate.
    + split.
      * intros H. injection H as ->. now left.
      * intros [H|(entries & earlier & name & pages & later & H & _)];
          [now injection H as -> | discriminate].
    + destruct (load_files (filter is_pdf entries)) as [loaded|e0] eqn:Hfiles.
      * split; [discriminate|].
        intros [H|(entries' & earlier & name & pages & later & H & Hf & Hall)];
          [discriminate|].
        injection H as <-.
        assert (Hr : load_files (filter is_pdf entries) = Raise e)
          by (apply load_files_raise; now exists earlier, name, pages, later).
        congruence.
      * split.
        -- intros H. injection H as ->. right.
           apply load_files_raise in Hfiles
             as (earlier & name & pages & later & Hf & Hall).
           now exists entries, earlier, name, pages, later.
        -- intros [H|(entries' & earlier & name & pages & later & H & Hf & Hall)];
             [discriminate|].
           injection H as <-.
           assert (Hr : load_files (filter is_pdf entries) = Raise e)
             by (apply load_files_raise; now exists earlier, name, pages, later).
           congruence.
Qed.

(** X13. When the splitter cannot be constructed, splitting raises its
    exception.  Otherwise the chunks are the chunks of each page text, page
    after page in order, and the metadata runs parallel to them: each
    chunk carries the source and page of its text, and within one page the
    chunk index counts from 0. *)
Theorem chunks_follow_pages (sp : Splitter) (texts : list str)
        (metas : list PageMeta) (size overlap : Z) :
  (forall e, sp size overlap = Raise e ->
     split_texts sp texts metas size overlap = Raise e) /\
  (forall split_text, sp size overlap = Ok split_text ->
     length texts = length metas ->
     split_texts sp texts metas size overlap =
       Ok (flat_map split_text texts,
           flat_map (chunk_metas split_text) (combine texts metas)) /\
     length (flat_map split_text texts)
       = length (flat_map (chunk_metas split_text) (combine texts metas))).
Proof.
  split.
  - intros e H. unfold split_texts. now rewrite H.
  - intros split_text H Hlen.
    assert (E : split_texts sp texts metas size overlap =
                Ok (flat_map split_text texts,
                    flat_map (chunk_metas split_text) (combine texts metas))).
    { unfold split_texts. rewrite H, split_maps, !map_flat_map. f_equal. f_equal.
      - rewrite <- (combine_fst texts metas Hlen) at 2.
        rewrite <- flat_map_fst. apply flat_map_ext. intros tm.
        unfold split_one. rewrite map_map. cbn [fst].
        rewrite <- (enumerate_from_snd 0 (split_text (fst tm))) at 2.
        reflexivity.
      - apply flat_map_ext. intros tm.
        unfold split_one, chunk_metas. rewrite map_map. cbn [snd].
        rewrite <- (enumerate_from_fst 0 (split_text (fst tm))).
        now rewrite map_map. }
    split; [exact E|].
    unfold split_texts in E. rewrite H, split_maps in E. injection E as E1 E2.
    now rewrite <- E1, <- E2, !length_map.
Qed.

Lemma chunks_follow_pages_witness :
  split_texts Sample.cut_splitter
    [u "Ferie: 25 dage"; u "Barsel"]
    [ {| source := u "Personale.PDF"; page := 1 |};
      {| source := u "Personale.PDF"; page := 3 |} ] 5 0
  = Ok ([u "Ferie"; u ": 25 dage"; u "Barse"; u "l"],
        [ {| chunk_source := u "Personale.PDF"; chunk_page := 1; chunk := 0 |};
          {| chunk_source := u "Personale.PDF"; chunk_page := 1; chunk := 1 |};
          {| chunk_source := u "Personale.PDF"; chunk_page := 3; chunk := 0 |};
          {| chunk_source := u "Personale.PDF"; chunk_page := 3; chunk := 1 |} ]).
Proof.
  exact (proj1 (proj2 (chunks_follow_pages Sample.cut_splitter
                         [u "Ferie: 25 dage"; u "Barsel"]
                         [ {| source := u "Personale.PDF"; page := 1 |};
                           {| source := u "Personale.PDF"; page := 3 |} ] 5 0)
                  (Sample.cut_text 5) eq_refl eq_refl)).
Defined.

Lemma main_success (w : World) (db0 : DbDir) (texts : list str)
      (metas : list PageMeta) (chunks : list str) (cmetas : list ChunkMeta) :
  load_pdf_texts (DATA_DIR w) = Ok (texts, metas) ->
  texts <> [] ->
  split_texts (text_splitter w) texts metas (CHUNK_SIZE w) (CHUNK_OVERLAP w)
    = Ok (chunks, cmetas) ->
  embeddings_init w = None ->
  rmtree w = None ->
  from_texts w chunks cmetas = None ->
  outcome (main w db0) = Ok tt /\
  db (main w db0)
    = Present {| index_texts := chunks; index_metadatas := cmetas |} /\
  (In Rmtree (events (main w db0)) <-> exists_db db0 = true) /\
  In (FromTexts chunks cmetas) (events (main w db0)).
Proof.
  intros Hload Hne Hsplit Hemb Hrm Hbuild. unfold main. rewrite Hload.
  destruct texts as [|t0 texts]; [congruence|].
  rewrite Hsplit, Hemb.
  destruct (exists_db db0) eqn:Hex.
  - rewrite Hrm, Hbuild. cbn.
    repeat split; auto 20; intros _; auto 20.
  - rewrite Hbuild. cbn. repeat split; auto 20; try discriminate.
    intros H. repeat (destruct H as [H|H]; try discriminate). destruct H.
Qed.

(** X14. When loading, splitting, the embedding client, the deletion and
    the build all succeed, the run ends normally and the index directory
    holds exactly the chunks and metadata of this run, whatever it held
    before: an existing directory is deleted first (and only then), and
    rebuilding over the result leaves it unchanged. *)
Theorem rebuild_replaces_index (w : World) (db0 : DbDir) (texts : list str)
        (metas : list PageMeta) (chunks : list str) (cmetas : list ChunkMeta) :
  load_pdf_texts (DATA_DIR w) = Ok (texts, metas) ->
  texts <> [] ->
  split_texts (text_splitter w) texts metas (CHUNK_SIZE w) (CHUNK_OVERLAP w)
    = Ok (chunks, cmetas) ->
  embeddings_init w = None ->
  rmtree w = None ->
  from_texts w chunks cmetas = None ->
  let built := Present {| index_texts := chunks; index_metadatas := cmetas |} in
  outcome (main w db0) = Ok tt /\
  db (main w db0) = built /\
  db (main w (db (main w db0))) = built /\
  (In Rmtree (events (main w db0)) <-> exists_db db0 = true) /\
  In (FromTexts chunks cmetas) (events (main w db0)).
Proof.
  intros Hload Hne Hsplit Hemb Hrm Hbuild built.
  destruct (@main_success w db0 texts metas chunks cmetas
              Hload Hne Hsplit Hemb Hrm Hbuild) as (H1 & H2 & H3 & H4).
  destruct (@main_success w built texts metas chunks cmetas
              Hload Hne Hsplit Hemb Hrm Hbuild) as (_ & H2' & _).
  repeat split; auto; try apply H3. now rewrite H2.
Qed.

Lemma rebuild_replaces_index_witness :
  db (main working_build Sample.old_index)
    = Present {| index_texts := [u "Ferie: 25 dage"; u "Barsel"];
                 index_metadatas :=
                   [ {| chunk_source := u "Personale.PDF"; chunk_page := 1; chunk := 0 |};
                     {| chunk_source := u "Personale.PDF"; chunk_page := 3; chunk := 0 |} ] |}.
Proof.
  refine (proj1 (proj2 (@rebuild_replaces_index working_build Sample.old_index
                          [u "Ferie: 25 dage"; u "Barsel"]
                          [ {| source := u "Personale.PDF"; page := 1 |};
                            {| source := u "Personale.PDF"; page := 3 |} ]
                          [u "Ferie: 25 dage"; u "Barsel"]
                          [ {| chunk_source := u "Personale.PDF"; chunk_page := 1; chunk := 0 |};
                            {| chunk_source := u "Personale.PDF"; chunk_page := 3; chunk := 0 |} ]
                          _ _ _ eq_refl eq_refl eq_refl))).
  - vm_compute. reflexivity.
  - discriminate.
  - vm_compute. reflexivity.
Defined.


End IndexMore.
